(** * Internship application platform: request pipeline

    A shallow embedding of the Go backend (three successive versions of
    [main.go]) and of the client-side form validation ([App.jsx]), with the
    properties of the intake, authorisation, listing, subject-deletion and
    file-delivery handlers.

    Conventions.
    - A handler is a function from the request, the world (database tables
      and upload directory) and the response writer to the new world and
      the new response writer.
    - Everything the handler cannot control is read from an [Env]: whether
      a given database or file-system call returns an error, what the
      clock reads, what the database assigns as [created_at].
    - The three backend versions live in the modules [V1] (the first
      [main.go], without sessions), [V2] (the second [main.go], with
      sessions) and [V3] (the latest one, with [respondError] and
      [corsMiddleware]). *)

From Stdlib Require Import ZArith List String Ascii Lia DecimalString.
From Stdlib Require Import Sorting.Sorted Sorting.Permutation.
From stdpp Require Import base gmap strings list.

Local Open Scope string_scope.
Local Open Scope list_scope.
Local Open Scope Z_scope.

(** ** net/http constants *)

Definition StatusOK : Z := 200.
Definition StatusCreated : Z := 201.
Definition StatusBadRequest : Z := 400.
Definition StatusUnauthorized : Z := 401.
Definition StatusForbidden : Z := 403.
Definition StatusMethodNotAllowed : Z := 405.
Definition StatusConflict : Z := 409.
Definition StatusInternalServerError : Z := 500.

Definition MethodGet : string := "GET".
Definition MethodPost : string := "POST".
Definition MethodPut : string := "PUT".
Definition MethodDelete : string := "DELETE".
Definition MethodOptions : string := "OPTIONS".

(** ** Dates

    [sql.NullTime] values written by the intake come from
    [time.Parse("2006-01-02", v)], so they are calendar days. *)

Record Date := { year : Z; month : Z; day : Z }.

Definition isDigit (c : ascii) : bool :=
  (48 <=? nat_of_ascii c)%nat && (nat_of_ascii c <=? 57)%nat.

Definition digit (c : ascii) : Z := Z.of_nat (nat_of_ascii c) - 48.

Definition isLeap (y : Z) : bool :=
  (y mod 4 =? 0) && (negb (y mod 100 =? 0) || (y mod 400 =? 0)).

Definition daysIn (m y : Z) : Z :=
  if (m =? 2) && isLeap y then 29
  else if m =? 2 then 28
  else if (m =? 4) || (m =? 6) || (m =? 9) || (m =? 11) then 30
  else 31.

(** [time.Parse] for the layout ["2006-01-02"]: four digits, a dash, two
    digits, a dash, two digits and nothing else; the month in 1..12 and the
    day within the month. *)
Definition time_Parse (v : string) : option Date :=
  match list_ascii_of_string v with
  | [y1; y2; y3; y4; d1; m1; m2; d2; a1; a2] =>
      if isDigit y1 && isDigit y2 && isDigit y3 && isDigit y4 &&
         Ascii.eqb d1 "-" && isDigit m1 && isDigit m2 &&
         Ascii.eqb d2 "-" && isDigit a1 && isDigit a2
      then
        let y := 1000 * digit y1 + 100 * digit y2 + 10 * digit y3 + digit y4 in
        let m := 10 * digit m1 + digit m2 in
        let d := 10 * digit a1 + digit a2 in
        if (1 <=? m) && (m <=? 12) && (1 <=? d) && (d <=? daysIn m y)
        then Some {| year := y; month := m; day := d |}
        else None
      else None
  | _ => None
  end.

(** The zero [time.Time], which [time.Parse] returns next to an error. *)
Definition zeroTime : Date := {| year := 1; month := 1; day := 1 |}.

(** [%d] of [fmt.Sprintf]. *)
Definition itoa (n : Z) : string := NilZero.string_of_int (Z.to_int n).

(** ** Requests *)

(** Values of a gorilla session ([map[interface{}]interface{}], with the
    string keys and the two dynamic types the handlers store). *)
Inductive Value :=
| VString (s : string)
| VInt (n : Z).

(** What the request carries under the cookie name ["auth"]: nothing, a
    cookie the store cannot decode (forged, corrupted or expired), or the
    values of a session. *)
Inductive AuthCookie :=
| NoCookie
| UndecodableCookie
| SessionCookie (values : gmap string Value).

Record FileHeader := {
  Filename : string;
  ContentType : string;
  Content : string
}.

Record Request := {
  Method : string;
  URLPath : string;
  Cookie : AuthCookie;
  (* the error of r.ParseMultipartForm, if any *)
  ParseMultipartFormErr : option string;
  (* r.Form *)
  Form : gmap string (list string);
  (* r.MultipartForm.File *)
  FormFiles : gmap string (list FileHeader);
  (* the outcome of decoding the JSON body: whether Decode returned an
     error, and the fields "ids", "id" and "name" it filled *)
  BodyDecodeErr : bool;
  BodyIDs : list Z;
  BodyID : Z;
  BodyName : string
}.

(** [r.FormValue(key)]: the first value for the key, or the empty string. *)
Definition FormValue (r : Request) (key : string) : string :=
  match Form r !! key with
  | Some (v :: _) => v
  | _ => ""
  end.

(** [r.Form[key]]. *)
Definition FormValues (r : Request) (key : string) : list string :=
  default [] (Form r !! key).

(** [r.FormFile(field)]: the first file under the field, an error when the
    form could not be parsed or holds no such file. *)
Definition FormFile (r : Request) (field : string) : option FileHeader :=
  match ParseMultipartFormErr r with
  | Some _ => None
  | None =>
      match FormFiles r !! field with
      | Some (f :: _) => Some f
      | _ => None
      end
  end.

(** [store.Get(r, "auth")]: the session values and whether an error came
    with them. The cookie store hands out a fresh, empty session both when
    there is no cookie (no error) and when the cookie does not decode
    (with the error). *)
Definition store_Get (r : Request) : gmap string Value * bool :=
  match Cookie r with
  | NoCookie => (∅, false)
  | UndecodableCookie => (∅, true)
  | SessionCookie values => (values, false)
  end.

(** The type assertion [v.(string)] on a map lookup. *)
Definition assertString (v : option Value) : option string :=
  match v with
  | Some (VString s) => Some s
  | _ => None
  end.

(** ** Stored data *)

Record Application := {
  app_id : Z;
  full_name : string;
  email : string;
  gender : string;
  phone : string;
  university : string;
  field_of_study : string;
  degree_level : string;
  application_type : string;
  internship_duration : string;
  preferred_working_method : string;
  start_date : option Date;
  created_at : Z;
  cv_file_path : string;
  motivation_file_path : string
}.

Record Subject := { subject_id : Z; subject_name : string }.

(** Modelled from the spec: the schema of the database, which is not among
    the sources. The tables and columns are those the queries of the
    session-era backends ([V2], [V3]) name; the join table relates an
    application id to a subject id. Ids are "unique, generated": each
    table with an id has a sequence, and an insert takes the next value.
    created_at is "server-assigned": an insert takes it from the
    environment. *)
Record DB := {
  applications : list Application;
  subjects : list Subject;
  application_subjects : list (Z * Z);
  (* the sequences behind applications.id and subjects.id *)
  applications_id_seq : Z;
  subjects_id_seq : Z
}.

(** The world a handler runs in: the database and the files of the working
    directory (path to content). *)
Record World := {
  db : DB;
  files : gmap string string
}.

(** ** Responses *)

Record ApplicationResponse := {
  ID : Z;
  FullName : string;
  Email : string;
  Gender : string;
  Phone : string;
  University : string;
  FieldOfStudy : string;
  DegreeLevel : string;
  ApplicationType : string;
  InternshipDuration : string;
  PreferredWorkingMethod : string;
  StartDate : option string;
  CreatedAt : string;
  CVFilePath : string;
  MotivationFilePath : option string;
  Subjects : list string
}.

(** What a handler writes to the body. *)
Inductive Body :=
| BText (s : string)                                (* http.Error, w.Write *)
| BSuccess                                          (* {"success":true} *)
| BSuccessID (id : Z)                               (* {"success":true,"id":id} *)
| BSubmitted (message : string) (id : Z)            (* SuccessResponse of V1 *)
| BApplications (result : list ApplicationResponse)
| BDeleted (deleted in_use : list Z)                (* {"deleted":..,"in_use":..} *)
| BSubjects (rows : list Subject)                   (* [{"id":..,"name":..},..] *)
| BFile (content : string)                          (* http.ServeFile *)
| BDirList (names : list string).                   (* the page of dirList *)

Record ResponseWriter := {
  Header : gmap string string;
  Code : option Z;       (* None until WriteHeader or the first Write *)
  Written : list Body
}.

Definition newResponseWriter : ResponseWriter :=
  {| Header := ∅; Code := None; Written := [] |}.

(** The status the client sees: 200 when the handler never set one. *)
Definition status (w : ResponseWriter) : Z := default StatusOK (Code w).

Definition SetHeader (k v : string) (w : ResponseWriter) : ResponseWriter :=
  {| Header := <[k := v]> (Header w); Code := Code w; Written := Written w |}.

Definition WriteHeader (code : Z) (w : ResponseWriter) : ResponseWriter :=
  match Code w with
  | Some _ => w
  | None => {| Header := Header w; Code := Some code; Written := Written w |}
  end.

Definition Write (b : Body) (w : ResponseWriter) : ResponseWriter :=
  let w := WriteHeader StatusOK w in
  {| Header := Header w; Code := Code w; Written := Written w ++ [b] |}.

(** [http.Error(w, message, code)]. *)
Definition http_Error (w : ResponseWriter) (message : string) (code : Z)
  : ResponseWriter :=
  let w := SetHeader "Content-Type" "text/plain; charset=utf-8" w in
  let w := SetHeader "X-Content-Type-Options" "nosniff" w in
  Write (BText message) (WriteHeader code w).

(** ** The environment of a request *)

(** The calls that can return an error to a handler. *)
Inductive Op :=
| QEmailExists
| QInsertApplication
| QSelectSubject (name : string)
| QInsertApplicationSubject (application subject : Z)
| QInsertApplicationSubjectName (application : Z) (subject : string)
| QListApplications
| QSubjectNames (application : Z)
| QSubjectsInUse
| QListSubjects
| QInsertSubject
| QUpdateSubject
| QDeleteApplicationSubjects
| QDeleteSubjects
| TxBegin
| TxCommit
| FsMkdirAll (field : string)
| FsCreate (field : string)
| FsCopy (field : string).

Record Env := {
  (* the error a call returns, if it returns one *)
  fails : Op -> option string;
  (* time.Now().UnixNano() while saving the file of a form field *)
  UnixNano : string -> Z;
  (* what the database assigns to created_at on insert *)
  db_now : Z;
  (* time.Time.Format("2006-01-02") of a stored timestamp *)
  format_created : Z -> string
}.

Definition HandlerFunc : Type :=
  Env -> Request -> World -> ResponseWriter -> World * ResponseWriter.

(** A handler that panics: the server recovers, logs and closes the
    connection without a response. *)
Definition panic (w : ResponseWriter) (message : string) : ResponseWriter :=
  {| Header := Header w; Code := Some 0; Written := [BText message] |}.

(** ** Paths *)

Definition isSlash (c : ascii) : bool := Ascii.eqb c "/".

Definition backslash : ascii := "\"%char.

(** [isSlashRune] of net/http. *)
Definition isSlashRune (c : ascii) : bool :=
  Ascii.eqb c "/" || Ascii.eqb c backslash.

(** Cuts [s] at every separator; [cur] is the element being read, last
    character first. Empty elements are kept, as [strings.Split] does. *)
Fixpoint splitOn (sep : ascii -> bool) (cur s : list ascii)
  : list (list ascii) :=
  match s with
  | [] => [rev cur]
  | c :: s' =>
      if sep c then rev cur :: splitOn sep [] s'
      else splitOn sep (c :: cur) s'
  end.

Definition nonEmpty (e : list ascii) : bool :=
  match e with [] => false | _ => true end.

(** [strings.FieldsFunc]: the maximal runs of non-separators. *)
Definition FieldsFunc (sep : ascii -> bool) (s : list ascii)
  : list (list ascii) :=
  List.filter nonEmpty (splitOn sep [] s).


Definition isDotDot (e : list ascii) : bool :=
  match e with
  | [a; b] => Ascii.eqb a "." && Ascii.eqb b "."
  | _ => false
  end.

(** [containsDotDot] of net/http: some element between slashes or
    backslashes is [".."]. *)
Definition containsDotDot (v : string) : bool :=
  existsb isDotDot (FieldsFunc isSlashRune (list_ascii_of_string v)).

Definition isDot (e : list ascii) : bool :=
  match e with
  | [a] => Ascii.eqb a "."
  | _ => false
  end.

(** Lexical resolution of a relative path, element by element: empty
    elements and ["."] are dropped, [".."] removes the element before it.
    The result is [None] once a [".."] climbs above the starting
    directory. [stack] holds the elements kept so far, last first. *)
Fixpoint resolveFrom (stack elems : list (list ascii))
  : option (list (list ascii)) :=
  match elems with
  | [] => Some (rev stack)
  | e :: rest =>
      if isDotDot e then
        match stack with
        | [] => None
        | _ :: stack' => resolveFrom stack' rest
        end
      else if isDot e || negb (nonEmpty e) then resolveFrom stack rest
      else resolveFrom (e :: stack) rest
  end.

Definition resolve (name : string) : option (list (list ascii)) :=
  resolveFrom [] (splitOn isSlash [] (list_ascii_of_string name)).


Fixpoint joinPath (elems : list (list ascii)) : list ascii :=
  match elems with
  | [] => []
  | [e] => e
  | e :: rest => e ++ "/"%char :: joinPath rest
  end.

(** *** The file system below the working directory

    [fs] maps the path of each regular file to its content. A directory is
    there when a file lies below it, and the working directory always is;
    a directory without any file below it is not represented. *)

(** The elements of a stored path. *)
Definition pathElems (p : string) : list (list ascii) :=
  splitOn isSlash [] (list_ascii_of_string p).

(** What is left of [elems] below the directory [dir]. *)
Fixpoint stripPrefix (dir elems : list (list ascii))
  : option (list (list ascii)) :=
  match dir, elems with
  | [], _ => Some elems
  | d :: dir', e :: elems' =>
      if bool_decide (d = e) then stripPrefix dir' elems' else None
  | _ :: _, [] => None
  end.

(** One entry of a directory, read off a file that lies below it: the
    first element of the rest of its path, and whether it is a directory
    (more elements follow). *)
Definition entryOf (rest : list (list ascii)) : option (string * bool) :=
  match rest with
  | [] => None
  | [e] => Some (string_of_list_ascii e, false)
  | e :: _ => Some (string_of_list_ascii e, true)
  end.

Definition entriesOf (fs : gmap string string) (dir : list (list ascii))
  : list (string * bool) :=
  omap (fun p => stripPrefix dir (pathElems p) ≫= entryOf)
       (fst <$> map_to_list fs).

Definition IsDir (fs : gmap string string) (dir : list (list ascii)) : bool :=
  bool_decide (dir = []) || existsb (fun _ => true) (entriesOf fs dir).

(** [sort.Slice(dirs, func(i, j) { return dirs.name(i) < dirs.name(j) })]:
    the names of a directory differ, so the order is the one sorted
    order. *)
Fixpoint insertEntry (x : string * bool) (l : list (string * bool))
  : list (string * bool) :=
  match l with
  | [] => [x]
  | y :: l' =>
      if String.leb (fst x) (fst y) then x :: l else y :: insertEntry x l'
  end.

(** [f.ReadDir(-1)], sorted by name. *)
Definition ReadDir (fs : gmap string string) (dir : list (list ascii))
  : list (string * bool) :=
  fold_right insertEntry [] (remove_dups (entriesOf fs dir)).

(** The name [dirList] links: a directory gets a slash. *)
Definition entryName (e : string * bool) : string :=
  if snd e then (fst e ++ "/")%string else fst e.

(** [dirList] of net/http: an HTML page with one link per entry. Reading
    the directory is taken not to fail; the Last-Modified header is left
    out, as are the headers of a file. *)
Definition dirList (w : ResponseWriter) (fs : gmap string string)
    (dir : list (list ascii)) : ResponseWriter :=
  Write (BDirList (entryName <$> ReadDir fs dir))
        (SetHeader "Content-Type" "text/html; charset=utf-8" w).

(** [strings.HasSuffix] *)
Definition HasSuffix (s suffix : string) : bool :=
  let l := list_ascii_of_string s in
  let k := list_ascii_of_string suffix in
  bool_decide (drop (length l - length k) l = k).

(** [path.Base]: the last element of the path, trailing slashes apart;
    ["."] for the empty path and ["/"] for slashes only. *)
Definition path_Base (p : string) : string :=
  if bool_decide (p = "") then "."
  else
    match rev (List.filter nonEmpty (pathElems p)) with
    | e :: _ => string_of_list_ascii e
    | [] => "/"
    end.

Definition StatusMovedPermanently : Z := 301.

(** [localRedirect] of net/http. (The request model has no query to
    repeat.) *)
Definition localRedirect (w : ResponseWriter) (newPath : string)
  : ResponseWriter :=
  WriteHeader StatusMovedPermanently (SetHeader "Location" newPath w).

Definition indexPage : list ascii := list_ascii_of_string "index.html".

(** The path under which the file system holds the entry with these
    elements. *)
Definition storedPath (elems : list (list ascii)) : string :=
  string_of_list_ascii (joinPath elems).

(** [http.ServeFile(w, r, name)]. The request is refused when its URL
    path has a [".."] element and redirected when that path ends in
    /index.html. Otherwise the name is opened: a missing entry is answered
    404 and a regular file with its content. A directory is redirected to
    its path with a slash when the URL path lacks it; else it is answered
    with its index.html when it holds one, and with the listing of its
    entries when it does not. (Conditional and range requests are left
    out: the request model has no headers.) *)
Definition http_ServeFile (w : ResponseWriter) (r : Request)
    (fs : gmap string string) (name : string) : ResponseWriter :=
  if containsDotDot (URLPath r)
  then http_Error w "invalid URL path" StatusBadRequest
  else
  if HasSuffix (URLPath r) "/index.html"
  then localRedirect w "./"
  else
    match resolve name with
    | None => http_Error w "404 page not found" 404
    | Some elems =>
        match fs !! storedPath elems with
        | Some content => Write (BFile content) w
        | None =>
            if IsDir fs elems then
              if negb (HasSuffix (URLPath r) "/")
              then localRedirect w (path_Base (URLPath r) ++ "/")%string
              else
                let index := elems ++ [indexPage] in
                match fs !! storedPath index with
                | Some content => Write (BFile content) w
                | None =>
                    if IsDir fs index then dirList w fs index
                    else dirList w fs elems
                end
            else http_Error w "404 page not found" 404
        end
    end.

(** ** Queries shared by the session-era backends *)

(** [SELECT EXISTS (SELECT 1 FROM applications WHERE email=$1)] *)
Definition queryEmailExists (d : DB) (e : string) : bool :=
  existsb (fun a => String.eqb (email a) e) (applications d).

(** [SELECT id FROM subjects WHERE name=$1], first row. *)
Definition querySubjectID (d : DB) (name : string) : option Z :=
  subject_id <$> List.find (fun s => String.eqb (subject_name s) name) (subjects d).

(** The row an intake stores. The INSERT names neither id nor created_at:
    the id is the next value of the sequence and created_at is what the
    environment gives as the time of the database. *)
Definition newApplication (env : Env) (r : Request) (id : Z)
    (startDate : option Date) (cvPath motivationPath : string) : Application :=
  {| app_id := id;
     full_name := FormValue r "full_name";
     email := FormValue r "email";
     gender := FormValue r "gender";
     phone := FormValue r "phone";
     university := FormValue r "university";
     field_of_study := FormValue r "field_of_study";
     degree_level := FormValue r "degree_level";
     application_type := FormValue r "application_type";
     internship_duration := FormValue r "internship_duration";
     preferred_working_method := FormValue r "preferred_working_method";
     start_date := startDate;
     created_at := db_now env;
     cv_file_path := cvPath;
     motivation_file_path := motivationPath |}.

(** [INSERT INTO applications (...) VALUES (...) RETURNING id] *)
Definition insertApplication (env : Env) (r : Request) (d : DB)
    (startDate : option Date) (cvPath motivationPath : string) : DB * Z :=
  let id := applications_id_seq d + 1 in
  ({| applications :=
        applications d ++ [newApplication env r id startDate cvPath motivationPath];
      subjects := subjects d;
      application_subjects := application_subjects d;
      applications_id_seq := id;
      subjects_id_seq := subjects_id_seq d |}, id).

(** [INSERT INTO application_subjects VALUES ($1,$2)] *)
Definition insertApplicationSubject (d : DB) (appID subjectID : Z) : DB :=
  {| applications := applications d;
     subjects := subjects d;
     application_subjects := application_subjects d ++ [(appID, subjectID)];
     applications_id_seq := applications_id_seq d;
     subjects_id_seq := subjects_id_seq d |}.

(** One round of the loop over [r.Form["subjects"]]: the name is looked
    up, and linked when the lookup returns a row; every error is dropped. *)
Definition linkSubject (env : Env) (appID : Z) (d : DB) (subjectName : string) : DB :=
  match fails env (QSelectSubject subjectName) with
  | Some _ => d
  | None =>
      match querySubjectID d subjectName with
      | None => d
      | Some subjectID =>
          match fails env (QInsertApplicationSubject appID subjectID) with
          | Some _ => d
          | None => insertApplicationSubject d appID subjectID
          end
      end
  end.

Definition linkSubjects (env : Env) (appID : Z) (d : DB) (names : list string) : DB :=
  fold_left (linkSubject env appID) names d.

(** [fmt.Sprintf("uploads/%d_%s", time.Now().UnixNano(), header.Filename)] *)
Definition uploadPath (env : Env) (field : string) (header : FileHeader) : string :=
  ("uploads/" ++ itoa (UnixNano env field) ++ "_" ++ Filename header)%string.

Definition setFiles (st : World) (fs : gmap string string) : World :=
  {| db := db st; files := fs |}.

Definition setDB (st : World) (d : DB) : World :=
  {| db := d; files := files st |}.

(** [time.Time.Format("2006-01-02")] of a calendar day. *)
Definition pad2 (n : Z) : string :=
  if n <? 10 then ("0" ++ itoa n)%string else itoa n.

Definition pad4 (n : Z) : string :=
  if n <? 10 then ("000" ++ itoa n)%string
  else if n <? 100 then ("00" ++ itoa n)%string
  else if n <? 1000 then ("0" ++ itoa n)%string
  else itoa n.

Definition formatDate (d : Date) : string :=
  (pad4 (year d) ++ "-" ++ pad2 (month d) ++ "-" ++ pad2 (day d))%string.

(** [ORDER BY created_at DESC]: insertion in front of the first older row. *)
Fixpoint insertDesc (a : Application) (l : list Application) : list Application :=
  match l with
  | [] => [a]
  | b :: l' =>
      if created_at b <? created_at a then a :: l
      else b :: insertDesc a l'
  end.

Definition orderByCreatedAtDesc (l : list Application) : list Application :=
  fold_right insertDesc [] l.

(** [SELECT s.name FROM subjects s JOIN application_subjects a
     ON a.subject_id=s.id WHERE a.application_id=$1] *)
Definition querySubjectNames (d : DB) (appID : Z) : list string :=
  flat_map
    (fun s =>
       flat_map
         (fun j => if (snd j =? subject_id s) && (fst j =? appID)
                   then [subject_name s] else [])
         (application_subjects d))
    (subjects d).

(** [SELECT DISTINCT subject_id FROM application_subjects
     WHERE subject_id = ANY($1)] *)
Definition querySubjectsInUse (d : DB) (ids : list Z) : list Z :=
  remove_dups
    (List.filter (fun sid => bool_decide (sid ∈ ids))
                 (snd <$> application_subjects d)).

(** [DELETE FROM subjects WHERE id = ANY($1)] *)
Definition execDeleteSubjects (d : DB) (ids : list Z) : DB :=
  {| applications := applications d;
     subjects := List.filter (fun s => negb (bool_decide (subject_id s ∈ ids))) (subjects d);
     application_subjects := application_subjects d;
     applications_id_seq := applications_id_seq d;
     subjects_id_seq := subjects_id_seq d |}.

(** [INSERT INTO subjects (name) VALUES ($1)] *)
Definition execInsertSubject (d : DB) (name : string) : DB :=
  let id := subjects_id_seq d + 1 in
  {| applications := applications d;
     subjects := subjects d ++ [{| subject_id := id; subject_name := name |}];
     application_subjects := application_subjects d;
     applications_id_seq := applications_id_seq d;
     subjects_id_seq := id |}.

(** [UPDATE subjects SET name=$1 WHERE id=$2] *)
Definition execUpdateSubject (d : DB) (name : string) (id : Z) : DB :=
  {| applications := applications d;
     subjects :=
       (fun s => if subject_id s =? id
                 then {| subject_id := subject_id s; subject_name := name |}
                 else s) <$> subjects d;
     application_subjects := application_subjects d;
     applications_id_seq := applications_id_seq d;
     subjects_id_seq := subjects_id_seq d |}.

(** [ORDER BY name], by the bytes of the names. *)
Fixpoint insertByName (s : Subject) (l : list Subject) : list Subject :=
  match l with
  | [] => [s]
  | t :: l' =>
      if String.leb (subject_name s) (subject_name t) then s :: l
      else t :: insertByName s l'
  end.

Definition orderByName (l : list Subject) : list Subject :=
  fold_right insertByName [] l.

(** [DELETE FROM application_subjects WHERE subject_id = ANY($1)] *)
Definition execDeleteApplicationSubjects (d : DB) (ids : list Z) : DB :=
  {| applications := applications d;
     subjects := subjects d;
     application_subjects :=
       List.filter (fun j => negb (bool_decide (snd j ∈ ids))) (application_subjects d);
     applications_id_seq := applications_id_seq d;
     subjects_id_seq := subjects_id_seq d |}.

(** ** Version 3: the latest backend *)

Module V3.

Definition corsMiddleware (next : HandlerFunc) : HandlerFunc :=
  fun env r st w =>
    let w := SetHeader "Access-Control-Allow-Origin" "http://localhost:3000" w in
    let w := SetHeader "Access-Control-Allow-Credentials" "true" w in
    let w := SetHeader "Access-Control-Allow-Headers" "Content-Type" w in
    let w := SetHeader "Access-Control-Allow-Methods"
                       "PUT, GET, POST, DELETE, OPTIONS" w in
    if bool_decide (Method r = MethodOptions)
    then (st, WriteHeader StatusOK w)
    else next env r st w.

Definition respondError (w : ResponseWriter) (message : string) (code : Z)
  : ResponseWriter := http_Error w message code.

Definition respondJSON (w : ResponseWriter) (data : Body) (code : Z)
  : ResponseWriter :=
  let w := SetHeader "Content-Type" "application/json" w in
  Write data (WriteHeader code w).

Definition authRequired (role : string) (next : HandlerFunc) : HandlerFunc :=
  corsMiddleware (fun env r st w =>
    let '(values, err) := store_Get r in
    if err
    then (st, respondError w "Session error" StatusInternalServerError)
    else
      match assertString (values !! "role") with
      | None => (st, respondError w "Unauthorized" StatusUnauthorized)
      | Some userRole =>
          if bool_decide (role ≠ "") && bool_decide (userRole ≠ role)
          then (st, respondError w "Forbidden" StatusForbidden)
          else next env r st w
      end).

(** The closure [savePDF] of [applyHandler]: the new files and the pair
    (path, error) it returns. When the copy fails the file has been
    created; what it holds then is taken to be nothing. *)
Definition savePDF (env : Env) (r : Request) (field : string)
    (fs : gmap string string) : gmap string string * (string * option string) :=
  match FormFile r field with
  | None => (fs, ("", Some "http: no such file"))
  | Some header =>
      match fails env (FsMkdirAll field) with
      | Some e => (fs, ("", Some e))
      | None =>
          let path := uploadPath env field header in
          match fails env (FsCreate field) with
          | Some e => (fs, ("", Some e))
          | None =>
              match fails env (FsCopy field) with
              | Some e => (<[path := ""]> fs, ("", Some e))
              | None => (<[path := Content header]> fs, (path, None))
              end
          end
      end
  end.

Definition parseStartDate (r : Request) : option Date :=
  let v := FormValue r "early_start_date" in
  if bool_decide (v ≠ "") then time_Parse v else None.

Definition applyHandler : HandlerFunc :=
  fun env r st w =>
    if bool_decide (Method r ≠ MethodPost)
    then (st, respondError w "Method not allowed" StatusMethodNotAllowed)
    else
    match ParseMultipartFormErr r with
    | Some _ => (st, respondError w "Failed to parse form" StatusBadRequest)
    | None =>
    let email := FormValue r "email" in
    if bool_decide (email = "")
    then (st, respondError w "Email is required" StatusBadRequest)
    else
    match fails env QEmailExists with
    | Some _ => (st, respondError w "Database error" StatusInternalServerError)
    | None =>
    if queryEmailExists (db st) email
    then (st, respondError w "Email already used" StatusConflict)
    else
    let '(fs1, (cvPath, err)) := savePDF env r "cv" (files st) in
    match err with
    | Some _ =>
        (setFiles st fs1,
         respondError w "Failed to save CV" StatusInternalServerError)
    | None =>
    let '(fs2, (motivationPath, _)) := savePDF env r "motivation" fs1 in
    let startDate := parseStartDate r in
    match fails env QInsertApplication with
    | Some _ =>
        (setFiles st fs2,
         respondError w "Failed to create application" StatusInternalServerError)
    | None =>
    let '(d1, appID) :=
      insertApplication env r (db st) startDate cvPath motivationPath in
    let d2 := linkSubjects env appID d1 (FormValues r "subjects") in
    ({| db := d2; files := fs2 |},
     respondJSON w (BSuccessID appID) StatusCreated)
    end end end end.

Definition toResponse (env : Env) (a : Application) (names : list string)
  : ApplicationResponse :=
  {| ID := app_id a;
     FullName := full_name a;
     Email := email a;
     Gender := gender a;
     Phone := phone a;
     University := university a;
     FieldOfStudy := field_of_study a;
     DegreeLevel := degree_level a;
     ApplicationType := application_type a;
     InternshipDuration := internship_duration a;
     PreferredWorkingMethod := preferred_working_method a;
     StartDate := formatDate <$> start_date a;
     CreatedAt := format_created env (created_at a);
     CVFilePath := cv_file_path a;
     MotivationFilePath := Some (motivation_file_path a);
     Subjects := names |}.

(** The nested query of [listApplications]; when it fails the application
    is returned without subjects. *)
Definition subjectsOf (env : Env) (d : DB) (a : Application) : list string :=
  match fails env (QSubjectNames (app_id a)) with
  | Some _ => []
  | None => querySubjectNames d (app_id a)
  end.

(** The columns read are never NULL in a row an intake stored, so
    [rows.Scan] returns no error and no row is skipped. *)
Definition listApplications : HandlerFunc :=
  fun env r st w =>
    match fails env QListApplications with
    | Some _ => (st, respondError w "Database error" StatusInternalServerError)
    | None =>
        let rows := orderByCreatedAtDesc (applications (db st)) in
        let result :=
          (fun a => toResponse env a (subjectsOf env (db st) a)) <$> rows in
        (st, respondJSON w (BApplications result) StatusOK)
    end.

(** [inUse[id]] on a [map[int]bool]: false for a missing key. *)
Definition inUseAt (inUse : gmap Z bool) (id : Z) : bool :=
  default false (inUse !! id).

(** The keys of the map, in the order the runtime yields them. *)
Definition mapKeys (m : gmap Z bool) : list Z := fst <$> map_to_list m.

Definition markInUse (rows : list Z) : gmap Z bool :=
  fold_left (fun m id => <[id := true]> m) rows ∅.

Definition deleteSubjects : HandlerFunc :=
  fun env r st w =>
    if bool_decide (Method r ≠ MethodDelete)
    then (st, respondError w "Method not allowed" StatusMethodNotAllowed)
    else
    if BodyDecodeErr r
    then (st, respondError w "Invalid JSON" StatusBadRequest)
    else
    if bool_decide (length (BodyIDs r) = 0%nat)
    then (st, respondError w "No subjects selected" StatusBadRequest)
    else
    match fails env QSubjectsInUse with
    | Some _ => (st, respondError w "Database error" StatusInternalServerError)
    | None =>
    let inUse := markInUse (querySubjectsInUse (db st) (BodyIDs r)) in
    let deletable := List.filter (fun id => negb (inUseAt inUse id)) (BodyIDs r) in
    match fails env TxBegin with
    | Some _ => (st, respondError w "Database error" StatusInternalServerError)
    | None =>
    let deleted :=
      if bool_decide (0 < length deletable)%nat
      then match fails env QDeleteSubjects with
           | Some e => None
           | None => Some (execDeleteSubjects (db st) deletable)
           end
      else Some (db st) in
    match deleted with
    | None => (st, respondError w "Database error" StatusInternalServerError)
    | Some d =>
    match fails env TxCommit with
    | Some _ => (st, respondError w "Database error" StatusInternalServerError)
    | None =>
        (setDB st d,
         respondJSON w (BDeleted deletable (mapKeys inUse)) StatusOK)
    end end end end.

(** [pqErr.Code == "23505"]: the error of an insert or update is given by
    its SQLSTATE code when it is a [*pq.Error]. *)
Definition isUniqueViolation (e : string) : bool := String.eqb e "23505".

Definition subjectsHandler : HandlerFunc :=
  fun env r st w =>
    if bool_decide (Method r = MethodGet) then
      match fails env QListSubjects with
      | Some _ => (st, respondError w "Database error" StatusInternalServerError)
      | None =>
          (st, respondJSON w (BSubjects (orderByName (subjects (db st)))) StatusOK)
      end
    else if bool_decide (Method r = MethodPost) then
      if BodyDecodeErr r
      then (st, respondError w "Invalid JSON" StatusBadRequest)
      else
      if bool_decide (BodyName r = "")
      then (st, respondError w "Subject name required" StatusBadRequest)
      else
      match fails env QInsertSubject with
      | Some e =>
          if isUniqueViolation e
          then (st, respondError w "Subject already exists" StatusConflict)
          else (st, respondError w "Database error" StatusInternalServerError)
      | None =>
          (setDB st (execInsertSubject (db st) (BodyName r)),
           respondJSON w BSuccess StatusCreated)
      end
    else if bool_decide (Method r = MethodPut) then
      if BodyDecodeErr r
      then (st, respondError w "Invalid JSON" StatusBadRequest)
      else
      if bool_decide (BodyID r = 0) || bool_decide (BodyName r = "")
      then (st, respondError w "Invalid payload" StatusBadRequest)
      else
      match fails env QUpdateSubject with
      | Some e =>
          if isUniqueViolation e
          then (st, respondError w "Subject name already exists" StatusConflict)
          else (st, respondError w "Database error" StatusInternalServerError)
      | None =>
          (setDB st (execUpdateSubject (db st) (BodyName r) (BodyID r)),
           respondJSON w BSuccess StatusOK)
      end
    else (st, respondError w "Method not allowed" StatusMethodNotAllowed).

Definition serveFile : HandlerFunc :=
  fun env r st w =>
    if bool_decide (Method r ≠ MethodGet)
    then (st, respondError w "Method not allowed" StatusMethodNotAllowed)
    else
    match URLPath r with
    | EmptyString => (st, panic w "slice bounds out of range [1:0]")
    | String _ filePath =>
        match filePath with
        | EmptyString => (st, respondError w "Invalid file path" StatusBadRequest)
        | String c _ =>
            if Ascii.eqb c "."
            then (st, respondError w "Invalid file path" StatusBadRequest)
            else (st, http_ServeFile w r (files st) filePath)
        end
    end.

(** The routes of [main] that read or write the tables and the uploads:
    one request served, from the world before to the world after. *)
Inductive step : World → World → Prop :=
| step_apply env r st w :
    step st (fst (corsMiddleware applyHandler env r st w))
| step_subjects env r st w :
    step st (fst (corsMiddleware subjectsHandler env r st w))
| step_applications env r st w :
    step st (fst (authRequired "admin" listApplications env r st w))
| step_subjects_delete env r st w :
    step st (fst (authRequired "admin" deleteSubjects env r st w))
| step_uploads env r st w :
    step st (fst (corsMiddleware serveFile env r st w)).

End V3.

(** ** Version 2: the first backend with sessions (second [main.go]) *)

Module V2.

Definition enableCORS (w : ResponseWriter) : ResponseWriter :=
  let w := SetHeader "Access-Control-Allow-Origin" "http://localhost:5173" w in
  let w := SetHeader "Access-Control-Allow-Credentials" "true" w in
  let w := SetHeader "Access-Control-Allow-Headers" "Content-Type" w in
  SetHeader "Access-Control-Allow-Methods" "PUT, GET, POST, DELETE, OPTIONS" w.

Definition authRequired (role : string) (next : HandlerFunc) : HandlerFunc :=
  fun env r st w =>
    let w := enableCORS w in
    let '(values, _) := store_Get r in
    match assertString (values !! "role") with
    | None => (st, http_Error w "Unauthorized" StatusUnauthorized)
    | Some userRole =>
        if bool_decide (role ≠ "") && bool_decide (userRole ≠ role)
        then (st, http_Error w "Forbidden" StatusForbidden)
        else next env r st w
    end.

(** [savePDF] of this version: the errors of MkdirAll, Create and Copy are
    dropped, so a path is returned whenever the form holds the file. *)
Definition savePDF (env : Env) (r : Request) (field : string)
    (fs : gmap string string) : gmap string string * (string * option string) :=
  match FormFile r field with
  | None => (fs, ("", Some "http: no such file"))
  | Some header =>
      let path := uploadPath env field header in
      match fails env (FsCreate field) with
      | Some _ => (fs, (path, None))
      | None =>
          match fails env (FsCopy field) with
          | Some _ => (<[path := ""]> fs, (path, None))
          | None => (<[path := Content header]> fs, (path, None))
          end
      end
  end.

(** A value that does not parse is stored as the zero time, marked valid. *)
Definition parseStartDate (r : Request) : option Date :=
  let v := FormValue r "early_start_date" in
  if bool_decide (v ≠ "") then Some (default zeroTime (time_Parse v)) else None.

Definition applyHandler : HandlerFunc :=
  fun env r st w =>
    let w := enableCORS w in
    if bool_decide (Method r ≠ MethodPost)
    then (st, http_Error w "Method not allowed" StatusMethodNotAllowed)
    else
    let email := FormValue r "email" in
    let exists_ :=
      match fails env QEmailExists with
      | Some _ => false
      | None => queryEmailExists (db st) email
      end in
    if exists_
    then (st, http_Error w "Email already used" StatusConflict)
    else
    let '(fs1, (cvPath, _)) := savePDF env r "cv" (files st) in
    let '(fs2, (motivationPath, _)) := savePDF env r "motivation" fs1 in
    let startDate := parseStartDate r in
    match fails env QInsertApplication with
    | Some e => (setFiles st fs2, http_Error w e StatusInternalServerError)
    | None =>
    let '(d1, appID) :=
      insertApplication env r (db st) startDate cvPath motivationPath in
    let d2 := linkSubjects env appID d1 (FormValues r "subjects") in
    ({| db := d2; files := fs2 |}, Write (BSuccessID appID) w)
    end.

Definition deleteSubjects : HandlerFunc :=
  fun env r st w =>
    let w := enableCORS w in
    if bool_decide (Method r = MethodOptions)
    then (st, WriteHeader StatusOK w)
    else
    if bool_decide (Method r ≠ MethodDelete)
    then (st, http_Error w "Method not allowed" StatusMethodNotAllowed)
    else
    if bool_decide (length (BodyIDs r) = 0%nat)
    then (st, http_Error w "No subjects selected" StatusBadRequest)
    else
    let d1 :=
      match fails env QDeleteApplicationSubjects with
      | Some _ => db st
      | None => execDeleteApplicationSubjects (db st) (BodyIDs r)
      end in
    let d2 :=
      match fails env QDeleteSubjects with
      | Some _ => d1
      | None => execDeleteSubjects d1 (BodyIDs r)
      end in
    (setDB st d2, Write BSuccess w).

Definition serveFile : HandlerFunc :=
  fun env r st w =>
    let w := enableCORS w in
    if bool_decide (Method r = MethodOptions)
    then (st, WriteHeader StatusOK w)
    else
    match URLPath r with
    | EmptyString => (st, panic w "slice bounds out of range [1:0]")
    | String _ filePath => (st, http_ServeFile w r (files st) filePath)
    end.

End V2.

(** ** Version 1: the first backend (first [main.go]) *)

Module V1.

(** Modelled from the spec: the schema behind this version, which is not
    among the sources. Its queries keep the subject names themselves in the
    join table and name no subjects table; ids come from a sequence. *)
Record DB := {
  applications : list Application;
  application_subjects : list (Z * string);
  applications_id_seq : Z
}.

Record World := {
  db : DB;
  files : gmap string string
}.

Definition enableCORS (w : ResponseWriter) : ResponseWriter :=
  let w := SetHeader "Access-Control-Allow-Origin" "*" w in
  let w := SetHeader "Access-Control-Allow-Methods" "GET, POST, OPTIONS" w in
  SetHeader "Access-Control-Allow-Headers" "Content-Type" w.

(** [savePDF] of this version: a field without a file gives the empty path
    and no error; a file that is not declared as PDF gives an error; the
    error of MkdirAll is dropped. *)
Definition savePDF (env : Env) (r : Request) (field : string)
    (fs : gmap string string) : gmap string string * (string * option string) :=
  match FormFile r field with
  | None => (fs, ("", None))
  | Some header =>
      if bool_decide (ContentType header ≠ "application/pdf")
      then (fs, ("", Some (field ++ " must be a PDF file")%string))
      else
        let path := uploadPath env field header in
        match fails env (FsCreate field) with
        | Some e => (fs, ("", Some e))
        | None =>
            match fails env (FsCopy field) with
            | Some e => (<[path := ""]> fs, ("", Some e))
            | None => (<[path := Content header]> fs, (path, None))
            end
        end
  end.

Definition parseStartDate (r : Request) : option Date :=
  let startDate := FormValue r "early_start_date" in
  if bool_decide (startDate ≠ "") then time_Parse startDate else None.

Definition insertApplication (env : Env) (r : Request) (d : DB)
    (startDate : option Date) (cvPath motivationPath : string) : DB * Z :=
  let id := applications_id_seq d + 1 in
  ({| applications :=
        applications d ++ [newApplication env r id startDate cvPath motivationPath];
      application_subjects := application_subjects d;
      applications_id_seq := id |}, id).

(** One round of the loop over the subjects:
    [INSERT INTO application_subjects (application_id, subject)
     VALUES ($1, $2)], its error only printed. *)
Definition insertSubject (env : Env) (appID : Z) (d : DB) (subject : string) : DB :=
  match fails env (QInsertApplicationSubjectName appID subject) with
  | Some _ => d
  | None =>
      {| applications := applications d;
         application_subjects := application_subjects d ++ [(appID, subject)];
         applications_id_seq := applications_id_seq d |}
  end.

Definition applyHandler (env : Env) (r : Request) (st : World)
    (w : ResponseWriter) : World * ResponseWriter :=
  let w := enableCORS w in
  if bool_decide (Method r = MethodOptions) then (st, w)
  else
  if bool_decide (Method r ≠ MethodPost)
  then (st, http_Error w "Method not allowed" StatusMethodNotAllowed)
  else
  match ParseMultipartFormErr r with
  | Some e => (st, http_Error w e 400)
  | None =>
  let subjects := FormValues r "subjects" in
  if bool_decide (length subjects = 0%nat)
  then (st, http_Error w "At least one subject is required" 400)
  else
  let parsedStartDate := parseStartDate r in
  let '(fs1, (cvPath, err)) := savePDF env r "cv" (files st) in
  match err with
  | Some e => ({| db := db st; files := fs1 |}, http_Error w e 400)
  | None =>
  let '(fs2, (motivationPath, _)) := savePDF env r "motivation" fs1 in
  match fails env QInsertApplication with
  | Some e =>
      ({| db := db st; files := fs2 |},
       http_Error w ("Failed to save application: " ++ e)%string 500)
  | None =>
  let '(d1, applicationID) :=
    insertApplication env r (db st) parsedStartDate cvPath motivationPath in
  let d2 := fold_left (insertSubject env applicationID) subjects d1 in
  let w := SetHeader "Content-Type" "application/json" w in
  ({| db := d2; files := fs2 |},
   Write (BSubmitted "Application submitted successfully" applicationID)
         (WriteHeader StatusCreated w))
  end end end.

End V1.

(** ** The application form of the client ([ApplyPage]) *)

Module Client.

(** The file chosen in an input: its MIME type is all the form looks at. *)
Record File := { type : string }.

(** What [validateForm] reads: the form data, and the first file of each
    of the two file inputs (if one is chosen). *)
Record FormData := {
  entries : gmap string (list string);
  cvFile : option File;
  motivationFile : option File
}.

(** [formData.get(name) || ""] *)
Definition get (fd : FormData) (name : string) : string :=
  match entries fd !! name with
  | Some (v :: _) => v
  | _ => ""
  end.

(** [formData.getAll(name)] *)
Definition getAll (fd : FormData) (name : string) : list string :=
  default [] (entries fd !! name).

(** [s.replace(/\D/g, '')]: what is left are the characters 0 to 9. (A
    string is read byte by byte here; no byte of a character outside ASCII
    is an ASCII digit, so the digits kept and their count are those of the
    JavaScript string.) *)
Definition stripNonDigits (s : string) : string :=
  string_of_list_ascii (List.filter isDigit (list_ascii_of_string s)).

Definition includes (s : string) (c : ascii) : bool :=
  existsb (Ascii.eqb c) (list_ascii_of_string s).

(** [s.indexOf(c)]: the first position of the character, -1 without one. *)
Fixpoint indexOfFrom (i : Z) (s : list ascii) (c : ascii) : Z :=
  match s with
  | [] => -1
  | x :: s' => if Ascii.eqb x c then i else indexOfFrom (i + 1) s' c
  end.

Definition indexOf (s : string) (c : ascii) : Z :=
  indexOfFrom 0 (list_ascii_of_string s) c.

(** [s.lastIndexOf(c)]: the last position of the character, -1 without
    one. *)
Fixpoint lastIndexOfFrom (i : Z) (s : list ascii) (c : ascii) (found : Z) : Z :=
  match s with
  | [] => found
  | x :: s' =>
      lastIndexOfFrom (i + 1) s' c (if Ascii.eqb x c then i else found)
  end.

Definition lastIndexOf (s : string) (c : ascii) : Z :=
  lastIndexOfFrom 0 (list_ascii_of_string s) c (-1).

(** [file && file.type !== "application/pdf"] *)
Definition isNotPDF (file : option File) : bool :=
  match file with
  | Some f => bool_decide (type f ≠ "application/pdf")
  | None => false
  end.

(** [validateForm(formData)]: the alert shown, if the form is refused;
    [None] stands for [return true]. [emailExists] is the answer of the
    server to the email-exists request the function makes. *)
Definition validateForm (fd : FormData) (emailExists : bool) : option string :=
  let phone := get fd "phone" in
  let phoneDigits := stripNonDigits phone in
  if bool_decide (String.length phoneDigits ≠ 8%nat)
  then Some "Phone number must be exactly 8 digits"
  else
  let email := get fd "email" in
  if negb (includes email "@") || negb (includes email ".")
     || (lastIndexOf email "." <? indexOf email "@")
  then Some "Please enter a valid email address (example@domain.com)"
  else
  if emailExists then Some "Email already used"
  else
  let subjects := getAll fd "subjects" in
  if bool_decide (length subjects = 0%nat)
  then Some "Please select at least one subject"
  else
  if isNotPDF (cvFile fd) then Some "CV must be a PDF file"
  else
  if isNotPDF (motivationFile fd)
  then Some "Motivation letter must be a PDF file"
  else None.

(** [handleSubmit]: the form is posted to /apply only when [validateForm]
    returns true. *)
Definition handleSubmit (fd : FormData) (emailExists : bool) : bool :=
  match validateForm fd emailExists with
  | Some _ => false
  | None => true
  end.

End Client.

(** ** Derived notions used in the statements *)

(** The role of the session a request carries, when it carries one: the
    cookie decodes and its values hold a string under ["role"]. *)
Definition sessionRole (r : Request) : option string :=
  assertString (fst (store_Get r) !! "role").




(** ** Sample inputs *)

Definition quietEnv : Env :=
  {| fails := fun _ => None;
     UnixNano := fun _ => 1700000000000000000;
     db_now := 1700000000;
     format_created := itoa |}.

Definition emptyDB : DB :=
  {| applications := []; subjects := []; application_subjects := [];
     applications_id_seq := 0; subjects_id_seq := 0 |}.

Definition emptyWorld : World := {| db := emptyDB; files := ∅ |}.

Definition getRequest (path : string) (cookie : AuthCookie) : Request :=
  {| Method := MethodGet; URLPath := path; Cookie := cookie;
     ParseMultipartFormErr := None; Form := ∅; FormFiles := ∅;
     BodyDecodeErr := false; BodyIDs := []; BodyID := 0; BodyName := "" |}.

Definition preflightRequest : Request :=
  {| Method := MethodOptions; URLPath := "/applications"; Cookie := NoCookie;
     ParseMultipartFormErr := None; Form := ∅; FormFiles := ∅;
     BodyDecodeErr := false; BodyIDs := []; BodyID := 0; BodyName := "" |}.

Definition adminSession : AuthCookie :=
  SessionCookie (<["user_id" := VInt 1]> (<["role" := VString "admin"]>
                 (<["username" := VString "hr"]> ∅))).

Definition userSession : AuthCookie :=
  SessionCookie (<["user_id" := VInt 2]> (<["role" := VString "user"]>
                 (<["username" := VString "student"]> ∅))).

(** A wrapped handler that leaves a mark. *)
Definition markHandler : HandlerFunc :=
  fun _ _ st w => (st, Write (BText "handler ran") w).

Definition pdf (name : string) : FileHeader :=
  {| Filename := name; ContentType := "application/pdf"; Content := "%PDF-1.4" |}.

Definition png (name : string) : FileHeader :=
  {| Filename := name; ContentType := "image/png"; Content := "PNG" |}.

Definition formFiles (cv motivation : option FileHeader)
  : gmap string (list FileHeader) :=
  let m := match cv with Some f => {["cv" := [f]]} | None => ∅ end in
  match motivation with Some f => <["motivation" := [f]]> m | None => m end.

(** A multipart POST to /apply. *)
Definition applyRequest (email phone startDate : string)
    (subjects : list string) (cv motivation : option FileHeader) : Request :=
  {| Method := MethodPost; URLPath := "/apply"; Cookie := NoCookie;
     ParseMultipartFormErr := None;
     Form := <["email" := [email]]> (<["phone" := [phone]]>
             (<["full_name" := ["Ada"]]>
             (<["early_start_date" := [startDate]]>
             (<["subjects" := subjects]> ∅))));
     FormFiles := formFiles cv motivation;
     BodyDecodeErr := false; BodyIDs := []; BodyID := 0; BodyName := "" |}.

Definition storedApplication : Application :=
  {| app_id := 1; full_name := "Ada"; email := "a@b.com"; gender := "F";
     phone := "12345678"; university := "U"; field_of_study := "CS";
     degree_level := "Master"; application_type := "Solo";
     internship_duration := "6 months"; preferred_working_method := "Remote";
     start_date := None; created_at := 1600000000;
     cv_file_path := "uploads/1_cv.pdf"; motivation_file_path := "" |}.

Definition dataScience : Subject := {| subject_id := 7; subject_name := "Data Science" |}.
Definition webDev : Subject := {| subject_id := 8; subject_name := "Web" |}.

(** One application, linked to the first of two subjects. *)
Definition sampleDB : DB :=
  {| applications := [storedApplication];
     subjects := [dataScience; webDev];
     application_subjects := [(1, 7)];
     applications_id_seq := 1;
     subjects_id_seq := 8 |}.

Definition sampleWorld : World :=
  {| db := sampleDB;
     files := <["uploads/1_cv.pdf" := "%PDF-1.4"]> {["main.go" := "package main"]} |}.

Definition emptyWorldV1 : V1.World :=
  {| V1.db := {| V1.applications := []; V1.application_subjects := [];
                 V1.applications_id_seq := 0 |};
     V1.files := ∅ |}.

(** The request with one form field set to a single value, and with one
    form field left out. *)
Definition withFormValue (key value : string) (r : Request) : Request :=
  {| Method := Method r; URLPath := URLPath r; Cookie := Cookie r;
     ParseMultipartFormErr := ParseMultipartFormErr r;
     Form := <[key := [value]]> (Form r);
     FormFiles := FormFiles r;
     BodyDecodeErr := BodyDecodeErr r; BodyIDs := BodyIDs r;
     BodyID := BodyID r; BodyName := BodyName r |}.

Definition withoutFormValue (key : string) (r : Request) : Request :=
  {| Method := Method r; URLPath := URLPath r; Cookie := Cookie r;
     ParseMultipartFormErr := ParseMultipartFormErr r;
     Form := delete key (Form r);
     FormFiles := FormFiles r;
     BodyDecodeErr := BodyDecodeErr r; BodyIDs := BodyIDs r;
     BodyID := BodyID r; BodyName := BodyName r |}.

Definition phoneForm (phone : string) : Client.FormData :=
  {| Client.entries :=
       <["phone" := [phone]]> (<["email" := ["a@b.com"]]>
       (<["subjects" := ["Data Science"]]> ∅));
     Client.cvFile := Some {| Client.type := "application/pdf" |};
     Client.motivationFile := None |}.

(** Some application is linked to the subject id. *)
Definition referenced (d : DB) (subjectID : Z) : Prop :=
  ∃ appID, (appID, subjectID) ∈ application_subjects d.

Definition deleteRequest (ids : list Z) : Request :=
  {| Method := MethodDelete; URLPath := "/subjects/delete"; Cookie := adminSession;
     ParseMultipartFormErr := None; Form := ∅; FormFiles := ∅;
     BodyDecodeErr := false; BodyIDs := ids; BodyID := 0; BodyName := "" |}.


(** The name is that of a row of the subjects table. *)
Definition registered (d : DB) (name : string) : Prop :=
  ∃ s, s ∈ subjects d ∧ subject_name s = name.

(** Modelled from the spec: what the keys and sequences of the schema
    (not among the sources) guarantee. Subject ids are unique, and no id
    in the tables is ahead of its sequence. *)
Definition wellFormed (d : DB) : Prop :=
  NoDup (subject_id <$> subjects d) ∧
  (∀ s, s ∈ subjects d → subject_id s ≤ subjects_id_seq d) ∧
  (∀ j, j ∈ application_subjects d → fst j ≤ applications_id_seq d).

Definition renameRequest (id : Z) (name : string) : Request :=
  {| Method := MethodPut; URLPath := "/subjects"; Cookie := adminSession;
     ParseMultipartFormErr := None; Form := ∅; FormFiles := ∅;
     BodyDecodeErr := false; BodyIDs := []; BodyID := id; BodyName := name |}.




Definition digitChars : list ascii := list_ascii_of_string "0123456789".

(** An environment in which the INSERT of the application fails and
    every other call succeeds. *)
Definition insertFailsEnv : Env :=
  {| fails := fun op =>
       match op with
       | QInsertApplication => Some "pq: connection reset"
       | _ => None
       end;
     UnixNano := fun _ => 1700000000000000000;
     db_now := 1700000000;
     format_created := itoa |}.

Definition createSubjectRequest (name : string) : Request :=
  {| Method := MethodPost; URLPath := "/subjects"; Cookie := NoCookie;
     ParseMultipartFormErr := None; Form := ∅; FormFiles := ∅;
     BodyDecodeErr := false; BodyIDs := []; BodyID := 0; BodyName := name |}.

(** An environment in which the commit of a transaction fails and every
    other call succeeds. *)
Definition commitFailsEnv : Env :=
  {| fails := fun op =>
       match op with TxCommit => Some "pq: connection reset" | _ => None end;
     UnixNano := fun _ => 1700000000000000000;
     db_now := 1700000000;
     format_created := itoa |}.

(** ** Version 3: accounts and sessions

    [signup], [login], [logout] and [me] of the latest backend. They read
    a JSON body and write JSON objects the type [Body] has no constructor
    for, so the decoded body is an argument of its own and the object a
    handler encodes is returned beside the response writer. *)

Module V3Accounts.

(** The JSON objects these handlers encode: maps from a key to a boolean
    or a string. *)
Inductive JValue :=
| JBool (b : bool)
| JString (s : string).

Definition JSON := list (string * JValue).

Definition JObject (fields : list (string * JValue)) : JSON := fields.

(** What a handler leaves: the response writer (headers, status, text
    written by [http.Error]), the value [json.Encoder.Encode] wrote after
    it, and the cookie [session.Save] sets, if it sets one ([NoCookie]
    when it tells the client to drop the cookie). *)
Record Answer := {
  writer : ResponseWriter;
  encoded : option JSON;
  setCookie : option AuthCookie
}.

Definition respondError (w : ResponseWriter) (message : string) (code : Z)
  : Answer :=
  {| writer := http_Error w message code; encoded := None; setCookie := None |}.

Definition respondJSON (w : ResponseWriter) (data : JSON) (code : Z)
    (cookie : option AuthCookie) : Answer :=
  {| writer := WriteHeader code (SetHeader "Content-Type" "application/json" w);
     encoded := Some data;
     setCookie := cookie |}.

(** The cookie the client holds after an answer. *)
Definition cookieAfter (before : AuthCookie) (a : Answer) : AuthCookie :=
  default before (setCookie a).

(** [res.ok] of the Fetch API. *)
Definition ok (w : ResponseWriter) : bool :=
  (200 <=? status w) && (status w <=? 299).

(** Modelled from the spec: the users table, whose schema is not among the
    sources. The columns are those the queries name; the id comes from a
    sequence. *)
Record User := {
  id : Z;
  username : string;
  email : string;
  password_hash : string;
  role : string
}.

Record Accounts := {
  users : list User;
  users_id_seq : Z
}.

(** The body of a signup or login request, as [json.Decoder.Decode] fills
    the struct (a missing field stays empty). *)
Record Credentials := {
  Username : string;
  Email : string;
  Password : string;
  Role : string
}.

(** The calls of these handlers that can return an error. *)
Inductive AccountOp :=
| BcryptGenerate
| QInsertUser
| QSelectUser
| SessionSave.

Record AccountEnv := {
  account_fails : AccountOp -> option string;
  (* the salt bcrypt draws *)
  salt : string
}.

Section Bcrypt.

(** [bcrypt.GenerateFromPassword] (from a salt and a password to a hash)
    and [bcrypt.CompareHashAndPassword] (true for a nil error). *)
Variable GenerateFromPassword : string -> string -> string.
Variable CompareHashAndPassword : string -> string -> bool.

(** [INSERT INTO users (username, email, password_hash, role)
     VALUES ($1, $2, $3, $4)] *)
Definition execInsertUser (acc : Accounts) (body : Credentials) (hash : string)
  : Accounts :=
  let new := users_id_seq acc + 1 in
  {| users := users acc ++
              [{| id := new; username := Username body; email := Email body;
                  password_hash := hash; role := Role body |}];
     users_id_seq := new |}.

(** [pqErr.Code == "23505"]: an error of the insert is given by its
    SQLSTATE code when it is a [*pq.Error]. *)
Definition isUniqueViolation (e : string) : bool := String.eqb e "23505".

Definition signup (env : AccountEnv) (r : Request) (body : Credentials)
    (acc : Accounts) (w : ResponseWriter) : Accounts * Answer :=
  if bool_decide (Method r ≠ MethodPost)
  then (acc, respondError w "Method not allowed" StatusMethodNotAllowed)
  else
  if BodyDecodeErr r
  then (acc, respondError w "Invalid JSON" StatusBadRequest)
  else
  if bool_decide (Username body = "") || bool_decide (Email body = "")
     || bool_decide (Password body = "")
  then (acc, respondError w "Missing required fields" StatusBadRequest)
  else
  match account_fails env BcryptGenerate with
  | Some _ => (acc, respondError w "Server error" StatusInternalServerError)
  | None =>
  let hash := GenerateFromPassword (salt env) (Password body) in
  match account_fails env QInsertUser with
  | Some e =>
      if isUniqueViolation e
      then (acc, respondError w "User already exists" StatusConflict)
      else (acc, respondError w "Database error" StatusInternalServerError)
  | None =>
      (execInsertUser acc body hash,
       {| writer := WriteHeader StatusCreated w; encoded := None;
          setCookie := None |})
  end end.

(** [SELECT id, password_hash, role, username FROM users
     WHERE username=$1], first row. *)
Definition queryUser (acc : Accounts) (name : string) : option User :=
  List.find (fun u => String.eqb (username u) name) (users acc).

(** The values [login] leaves in the session it got from the store. *)
Definition sessionValues (r : Request) (u : User) : gmap string Value :=
  <["username" := VString (username u)]>
    (<["role" := VString (role u)]>
       (<["user_id" := VInt (id u)]> (fst (store_Get r)))).

Definition success : JSON := JObject [("success", JBool true)].

Definition login (env : AccountEnv) (r : Request) (body : Credentials)
    (acc : Accounts) (w : ResponseWriter) : Answer :=
  if bool_decide (Method r ≠ MethodPost)
  then respondError w "Method not allowed" StatusMethodNotAllowed
  else
  if BodyDecodeErr r
  then respondError w "Invalid JSON" StatusBadRequest
  else
  if bool_decide (Username body = "") || bool_decide (Password body = "")
  then respondError w "Missing credentials" StatusBadRequest
  else
  match account_fails env QSelectUser with
  | Some _ => respondError w "Database error" StatusInternalServerError
  | None =>
  match queryUser acc (Username body) with
  | None => respondError w "Invalid credentials" StatusUnauthorized
  | Some u =>
  if negb (CompareHashAndPassword (password_hash u) (Password body))
  then respondError w "Invalid credentials" StatusUnauthorized
  else
  match account_fails env SessionSave with
  | Some _ => respondError w "Session error" StatusInternalServerError
  | None =>
      respondJSON w success StatusOK (Some (SessionCookie (sessionValues r u)))
  end end end.

End Bcrypt.

(** [logout]: the session is saved with a negative MaxAge, which tells the
    client to drop the cookie. *)
Definition logout (env : AccountEnv) (r : Request) (w : ResponseWriter)
  : Answer :=
  if bool_decide (Method r ≠ MethodPost)
  then respondError w "Method not allowed" StatusMethodNotAllowed
  else
  match account_fails env SessionSave with
  | Some _ => respondError w "Session error" StatusInternalServerError
  | None => respondJSON w success StatusOK (Some NoCookie)
  end.

Definition loggedOut : JSON := JObject [("loggedIn", JBool false)].

Definition loggedIn (userRole name : string) : JSON :=
  JObject [("loggedIn", JBool true); ("role", JString userRole);
           ("username", JString name)].

Definition me (r : Request) (w : ResponseWriter) : Answer :=
  let '(values, err) := store_Get r in
  if err then respondJSON w loggedOut StatusOK None
  else
    match assertString (values !! "role") with
    | None => respondJSON w loggedOut StatusOK None
    | Some userRole =>
        let name := default "" (assertString (values !! "username")) in
        respondJSON w (loggedIn userRole name) StatusOK None
    end.

(** [emailExists]: [emailParam] is [r.URL.Query().Get("email")]. *)
Definition emailExists (env : Env) (emailParam : string) (st : World)
    (w : ResponseWriter) : Answer :=
  if bool_decide (emailParam = "")
  then respondError w "Email parameter required" StatusBadRequest
  else
    match fails env QEmailExists with
    | Some _ => respondError w "Database error" StatusInternalServerError
    | None =>
        respondJSON w
          (JObject [("exists", JBool (queryEmailExists (db st) emailParam))])
          StatusOK None
    end.

(** The request a client sends with the cookie it holds. *)
Definition withCookie (c : AuthCookie) (r : Request) : Request :=
  {| Method := Method r; URLPath := URLPath r; Cookie := c;
     ParseMultipartFormErr := ParseMultipartFormErr r;
     Form := Form r; FormFiles := FormFiles r;
     BodyDecodeErr := BodyDecodeErr r; BodyIDs := BodyIDs r;
     BodyID := BodyID r; BodyName := BodyName r |}.

End V3Accounts.

(** ** The form and the intake

    [fetch("http://localhost:8080/apply", {method: "POST", body: formData})]
    of [handleSubmit]: the entries of the form are the fields of a
    multipart body the browser builds, so the server can read it;
    [uploads] are the file parts sent for the file inputs. No credentials
    option is given and the API is another origin, so no cookie is sent. *)
Definition submission (fd : Client.FormData)
    (uploads : gmap string (list FileHeader)) : Request :=
  {| Method := MethodPost; URLPath := "/apply"; Cookie := NoCookie;
     ParseMultipartFormErr := None; Form := Client.entries fd;
     FormFiles := uploads;
     BodyDecodeErr := false; BodyIDs := []; BodyID := 0; BodyName := "" |}.

(** ** The week of the statistics *)

(** A local time: the day, counted from 1 January 1970, and the second of
    that day. Setting the day of the month of a date ([time.Date] with a
    day out of range, [Date.prototype.setDate]) moves it by whole days. *)
Record LocalTime := { dayNumber : Z; secondOfDay : Z }.

(** [now.Weekday()], [now.getDay()]: 0 is Sunday; day 0 was a Thursday. *)
Definition Weekday (t : LocalTime) : Z := (dayNumber t + 4) mod 7.

Definition Sunday : Z := 0.
Definition Monday : Z := 1.

(** [a >= b] on times. *)
Definition notBefore (a b : LocalTime) : bool :=
  (dayNumber b <? dayNumber a)
  || ((dayNumber a =? dayNumber b) && (secondOfDay b <=? secondOfDay a)).

Module V1Stats.

(** [getWeeklyApplications]: the start of the week the count is taken
    from. *)
Definition daysSinceMonday (now : LocalTime) : Z :=
  let weekday := Weekday now in
  if weekday =? Sunday then 6 else weekday - 1.

Definition startOfWeek (now : LocalTime) : LocalTime :=
  {| dayNumber := dayNumber now - daysSinceMonday now; secondOfDay := 0 |}.

(** [WHERE created_at >= $1] *)
Definition counted (now created : LocalTime) : bool :=
  notBefore created (startOfWeek now).

End V1Stats.

(** ** The back office *)

Module Backoffice.

(** [getStartOfWeek]: [setDate] keeps the time of the day. *)
Definition getStartOfWeek (now : LocalTime) : LocalTime :=
  let d := Weekday now in
  {| dayNumber := dayNumber now - d + (if d =? 0 then -6 else 1);
     secondOfDay := secondOfDay now |}.

(** The instant of a local time, in seconds from the epoch, in a zone
    [offset] seconds ahead of UTC. *)
Definition instant (offset : Z) (t : LocalTime) : Z :=
  dayNumber t * 86400 + secondOfDay t - offset.

(** [new Date(a.created_at)]: the listing gives created_at as a date,
    YYYY-MM-DD, which [Date] reads as midnight UTC of that day.
    [listedDay] is the number of that day, counted as in [LocalTime]. *)
Definition dateOnly (listedDay : Z) : Z := listedDay * 86400.

(** [weekMatch] of the filter, for an application listed with the day
    [listedDay] in a browser whose zone is [offset] seconds ahead of UTC:
    [new Date(a.created_at) >= startOfWeek] compares instants. *)
Definition weekMatch (this_week : bool) (offset : Z) (now : LocalTime)
    (listedDay : Z) : bool :=
  if this_week
  then instant offset (getStartOfWeek now) <=? dateOnly listedDay
  else true.

(** A JavaScript string: its UTF-16 code units. *)
Definition jsString := list N.

(** [a < b] on two strings: the first code unit that differs decides, and
    a proper prefix is smaller. *)
Fixpoint jsLt (a b : jsString) : bool :=
  match a, b with
  | _, [] => false
  | [], _ :: _ => true
  | x :: a', y :: b' =>
      if (x <? y)%N then true
      else if (y <? x)%N then false
      else jsLt a' b'
  end.

(** A row of the table: the string fields of an application the table
    sorts by and shows. *)
Record Row := {
  id : Z;
  created_at : jsString;
  full_name : jsString;
  email : jsString;
  degree_level : jsString;
  application_type : jsString
}.

(** The values of [sortKey]: it is "created_at" at first, and [toggleSort]
    is called with "created_at" and "full_name" only. *)
Inductive SortKey := by_created_at | by_full_name.

(** [a[sortKey]] *)
Definition prop (a : Row) (sortKey : SortKey) : jsString :=
  match sortKey with
  | by_created_at => created_at a
  | by_full_name => full_name a
  end.

(** The comparator of [sorted]. *)
Definition compare (sortKey : SortKey) (sortDir : string) (a b : Row) : Z :=
  let v1 := prop a sortKey in
  let v2 := prop b sortKey in
  if jsLt v1 v2 then (if String.eqb sortDir "asc" then -1 else 1)
  else if jsLt v2 v1 then (if String.eqb sortDir "asc" then 1 else -1)
  else 0.

(** [Array.prototype.sort] is stable: an element goes after the elements
    the comparator does not put it before. It is modelled by the insertion
    sort that does this. *)
Fixpoint insertBy {A} (cmp : A → A → Z) (x : A) (l : list A) : list A :=
  match l with
  | [] => [x]
  | y :: l' => if 0 <? cmp x y then y :: insertBy cmp x l' else x :: l
  end.

Definition sortBy {A} (cmp : A → A → Z) (l : list A) : list A :=
  foldr (insertBy cmp) [] l.

Definition sorted (filtered : list Row) (sortKey : SortKey) (sortDir : string)
  : list Row :=
  sortBy (compare sortKey sortDir) filtered.

Definition toggleSort (sortKey : SortKey) (sortDir : string) (key : SortKey)
  : SortKey * string :=
  match sortKey, key with
  | by_created_at, by_created_at | by_full_name, by_full_name =>
      (sortKey, if String.eqb sortDir "asc" then "desc" else "asc")
  | _, _ => (key, "asc")
  end.

(** [l.slice(start, end)] on integers. *)
Definition slice {A} (l : list A) (start stop : Z) : list A :=
  let len := Z.of_nat (length l) in
  let k := if start <? 0 then Z.max (len + start) 0 else Z.min start len in
  let final := if stop <? 0 then Z.max (len + stop) 0 else Z.min stop len in
  take (Z.to_nat (final - k)) (drop (Z.to_nat k) l).

(** [Math.ceil(sorted.length / pageSize)], for the page sizes the select
    offers (5, 10, 20, 50): the ceiling of the quotient of two integers,
    the second positive. *)
Definition totalPages {A} (l : list A) (pageSize : Z) : Z :=
  - ((- Z.of_nat (length l)) / pageSize).

Definition paginated {A} (l : list A) (page pageSize : Z) : list A :=
  slice l ((page - 1) * pageSize) (page * pageSize).

(** [disabled={page === 1}] and [disabled={page === totalPages}] *)
Definition previousDisabled (page : Z) : bool := page =? 1.

Definition nextDisabled {A} (l : list A) (page pageSize : Z) : bool :=
  page =? totalPages l pageSize.

(** The pages 1 to [n], one after the other. *)
Definition pages {A} (l : list A) (pageSize : Z) (n : nat) : list A :=
  concat ((fun i : nat => paginated l (Z.of_nat (S i)) pageSize) <$> seq 0 n).

(** The state of the delete modal. *)
Record Modal := {
  subjects : list Subject;
  selectedSubjects : list Z;
  deleteModal : bool
}.

(** The request of the Delete button: no credentials option is given, so
    the cookie the browser holds ([jar]) is sent only when the page and
    the API have the same origin. *)
Definition deleteFetch (sameOrigin : bool) (jar : AuthCookie) (ids : list Z)
  : Request :=
  {| Method := MethodDelete; URLPath := "/subjects/delete";
     Cookie := if sameOrigin then jar else NoCookie;
     ParseMultipartFormErr := None; Form := ∅; FormFiles := ∅;
     BodyDecodeErr := false; BodyIDs := ids; BodyID := 0; BodyName := "" |}.

(** The click on Delete, against the handler the server has on
    /subjects/delete: the world of the server, the modal and the alert
    shown afterwards. [confirmed] is the answer to [window.confirm]. *)
Definition onDeleteClick (route : HandlerFunc) (env : Env)
    (sameOrigin : bool) (jar : AuthCookie) (confirmed : bool)
    (st : World) (m : Modal) : World * Modal * option string :=
  if bool_decide (length (selectedSubjects m) = 0%nat) then (st, m, None)
  else if negb confirmed then (st, m, None)
  else
    let '(st', res) :=
      route env (deleteFetch sameOrigin jar (selectedSubjects m)) st
            newResponseWriter in
    if V3Accounts.ok res
    then (st',
          {| subjects :=
               List.filter
                 (fun s => negb (bool_decide (subject_id s ∈ selectedSubjects m)))
                 (subjects m);
             selectedSubjects := [];
             deleteModal := false |},
          Some "Subjects deleted")
    else (st', m, Some "Some subjects are in use and cannot be deleted").

End Backoffice.


(** Samples for the accounts: a stand-in for bcrypt that keeps the salt in
    front of the password. *)
Definition sampleGenerate (salt password : string) : string :=
  (salt ++ "$" ++ password)%string.

Definition sampleCompare (hash password : string) : bool :=
  String.eqb hash ("s$" ++ password)%string.

Definition quietAccountEnv : V3Accounts.AccountEnv :=
  {| V3Accounts.account_fails := fun _ => None; V3Accounts.salt := "s" |}.

Definition noAccounts : V3Accounts.Accounts :=
  {| V3Accounts.users := []; V3Accounts.users_id_seq := 0 |}.

Definition jsonPost (path : string) (cookie : AuthCookie) : Request :=
  {| Method := MethodPost; URLPath := path; Cookie := cookie;
     ParseMultipartFormErr := None; Form := ∅; FormFiles := ∅;
     BodyDecodeErr := false; BodyIDs := []; BodyID := 0; BodyName := "" |}.

Definition rootCredentials : V3Accounts.Credentials :=
  {| V3Accounts.Username := "root"; V3Accounts.Email := "root@example.org";
     V3Accounts.Password := "secret"; V3Accounts.Role := "admin" |}.

Definition wrongCredentials : V3Accounts.Credentials :=
  {| V3Accounts.Username := "root"; V3Accounts.Email := "";
     V3Accounts.Password := "guess"; V3Accounts.Role := "" |}.

Definition rootAccounts : V3Accounts.Accounts :=
  V3Accounts.execInsertUser noAccounts rootCredentials "s$secret".


(** [a] may stand before [b] in the table sorted by [sortKey] in the
    direction [sortDir]: ascending, [b] is not smaller than [a];
    otherwise [a] is not smaller than [b]. *)
Definition inOrder (sortKey : Backoffice.SortKey) (sortDir : string)
    (a b : Backoffice.Row) : Prop :=
  if String.eqb sortDir "asc"
  then Backoffice.jsLt (Backoffice.prop b sortKey) (Backoffice.prop a sortKey)
       = false
  else Backoffice.jsLt (Backoffice.prop a sortKey) (Backoffice.prop b sortKey)
       = false.

(** The rows of a list with a given value under the sort key, in the order
    of the list. *)
Definition withKey (sortKey : Backoffice.SortKey) (v : Backoffice.jsString)
    (l : list Backoffice.Row) : list Backoffice.Row :=
  List.filter (fun a => bool_decide (Backoffice.prop a sortKey = v)) l.


(** * Properties *)

(** ** The auth gate *)

Lemma status_http_Error w message code :
  Code w = None → status (http_Error w message code) = code.
Proof. intros Hc. unfold http_Error, status, Write, WriteHeader; simpl. by rewrite Hc. Qed.

Lemma Written_http_Error w message code :
  Written (http_Error w message code) = Written w ++ [BText message].
Proof.
  destruct w as [h [c|] b]; reflexivity.
Qed.

Lemma Code_SetHeader k v w : Code (SetHeader k v w) = Code w.
Proof. reflexivity. Qed.

(** The latest gate on a request that is not a preflight and whose cookie
    decodes: the three outcomes, with the response writer the wrapped
    handler or the error is given. *)
Lemma V3_authRequired_cases role env r st w :
  Method r ≠ MethodOptions →
  Cookie r ≠ UndecodableCookie →
  ∃ w0, Code w0 = Code w ∧ Written w0 = Written w ∧
    ∀ next, V3.authRequired role next env r st w =
      match sessionRole r with
      | None => (st, http_Error w0 "Unauthorized" StatusUnauthorized)
      | Some userRole =>
          if bool_decide (role ≠ "") && bool_decide (userRole ≠ role)
          then (st, http_Error w0 "Forbidden" StatusForbidden)
          else next env r st w0
      end.
Proof.
  intros Hm Hc. eexists. split; [|split]; cycle 2.
  - intros next. unfold V3.authRequired, V3.corsMiddleware, sessionRole.
    rewrite bool_decide_eq_false_2 by done.
    unfold store_Get. destruct (Cookie r); try done; simpl; reflexivity.
  - reflexivity.
  - reflexivity.
Qed.

(** C1 (as amended): on an endpoint wrapped by the latest auth gate with a
    required role, an OPTIONS preflight is answered 200 and a request whose
    session cookie does not decode is answered 500; for every other
    request, without a session the answer is 401 and with a session of
    another role it is 403; in all these cases the world is untouched and
    the outcome is the same whatever the wrapped handler is. For a request
    that is not a preflight and carries a session of the required role the
    outcome is that of the wrapped handler, run on the very request that
    carries the session. *)
Theorem C1_auth_gate (role : string) (next : HandlerFunc) env r st w :
  role ≠ "" →
  Code w = None →
  let out := V3.authRequired role next env r st w in
  let refused code :=
    status (snd out) = code ∧ fst out = st ∧
    ∀ next', V3.authRequired role next' env r st w = out in
  (Method r = MethodOptions → refused StatusOK) ∧
  (Method r ≠ MethodOptions → Cookie r = UndecodableCookie →
     refused StatusInternalServerError) ∧
  (Method r ≠ MethodOptions → Cookie r ≠ UndecodableCookie →
     (sessionRole r = None → refused StatusUnauthorized) ∧
     (∀ userRole, sessionRole r = Some userRole → userRole ≠ role →
        refused StatusForbidden) ∧
     (sessionRole r = Some role →
        ∃ w0, Code w0 = None ∧ Written w0 = Written w ∧
              out = next env r st w0)).
Proof.
  intros Hrole Hw out refused. subst out refused. simpl.
  split; [|split].
  - intros Hm. unfold V3.authRequired, V3.corsMiddleware.
    rewrite bool_decide_eq_true_2 by done. simpl.
    split; [|done]. unfold status, WriteHeader; simpl. by rewrite Hw.
  - intros Hm Hc. unfold V3.authRequired, V3.corsMiddleware, store_Get.
    rewrite bool_decide_eq_false_2 by done. rewrite Hc. simpl.
    split; [|done]. by apply status_http_Error.
  - intros Hm Hc.
    destruct (V3_authRequired_cases role env r st w Hm Hc)
      as (w0 & Hc0 & Hw0 & Heq).
    rewrite Hw in Hc0.
    split; [|split].
    + intros Hnone. rewrite !Heq, Hnone; simpl.
      split; [by apply status_http_Error|]. split; [done|].
      intros next'. by rewrite Heq, Hnone.
    + intros userRole Hsome Hne. rewrite Heq, Hsome.
      rewrite !bool_decide_eq_true_2 by done. simpl.
      split; [by apply status_http_Error|]. split; [done|].
      intros next'. rewrite Heq, Hsome.
      by rewrite !bool_decide_eq_true_2 by done.
    + intros Hsome. exists w0. split; [done|]. split; [done|].
      rewrite Heq, Hsome.
      rewrite (bool_decide_eq_false_2 (role ≠ role)) by (intros H; by apply H).
      by rewrite andb_false_r.
Qed.

Lemma C1_auth_gate_witness :
  let gate c :=
    V3.authRequired "admin" markHandler quietEnv
      (getRequest "/applications" c) emptyWorld newResponseWriter in
  status (snd (gate NoCookie)) = StatusUnauthorized ∧
  status (snd (gate userSession)) = StatusForbidden ∧
  status (snd (gate UndecodableCookie)) = StatusInternalServerError ∧
  Written (snd (gate adminSession)) = [BText "handler ran"].
Proof.
  intros gate.
  assert (Hadmin : "admin" ≠ "") by discriminate.
  assert (Hget : ∀ c, Method (getRequest "/applications" c) ≠ MethodOptions)
    by (intros c; discriminate).
  split; [|split; [|split]].
  - destruct (C1_auth_gate "admin" markHandler quietEnv
                (getRequest "/applications" NoCookie) emptyWorld
                newResponseWriter Hadmin eq_refl) as (_ & _ & H).
    destruct (H (Hget _)) as (Hnone & _); [discriminate|].
    destruct (Hnone eq_refl) as (Hs & _). exact Hs.
  - destruct (C1_auth_gate "admin" markHandler quietEnv
                (getRequest "/applications" userSession) emptyWorld
                newResponseWriter Hadmin eq_refl) as (_ & _ & H).
    destruct (H (Hget _)) as (_ & Hother & _); [discriminate|].
    destruct (Hother "user" eq_refl) as (Hs & _); [discriminate|]. exact Hs.
  - destruct (C1_auth_gate "admin" markHandler quietEnv
                (getRequest "/applications" UndecodableCookie) emptyWorld
                newResponseWriter Hadmin eq_refl) as (_ & H & _).
    destruct (H (Hget _) eq_refl) as (Hs & _). exact Hs.
  - destruct (C1_auth_gate "admin" markHandler quietEnv
                (getRequest "/applications" adminSession) emptyWorld
                newResponseWriter Hadmin eq_refl) as (_ & _ & H).
    destruct (H (Hget _)) as (_ & _ & Hrun); [discriminate|].
    destruct (Hrun eq_refl) as (w0 & Hc & Hw & Hout).
    unfold gate. rewrite Hout.
    destruct w0 as [h c b]; simpl in *; subst; reflexivity.
Defined.

(** C1 (as stated) fails on the latest gate: a preflight without any
    session is answered 200, and a request whose cookie does not decode is
    answered 500; neither is answered 401. *)
Lemma C1_counterexample :
  sessionRole preflightRequest = None ∧
  status (snd (V3.authRequired "admin" markHandler quietEnv preflightRequest
                 emptyWorld newResponseWriter)) = StatusOK ∧
  sessionRole (getRequest "/applications" UndecodableCookie) = None ∧
  status (snd (V3.authRequired "admin" markHandler quietEnv
                 (getRequest "/applications" UndecodableCookie)
                 emptyWorld newResponseWriter)) = StatusInternalServerError.
Proof. repeat split. Qed.

(** The gate of version 2 has neither exception: it answers every request
    without a session with 401 and every session of another role with 403,
    and runs the wrapped handler otherwise. *)
Lemma V2_authRequired_gate (role : string) (next : HandlerFunc) env r st w :
  role ≠ "" →
  Code w = None →
  let out := V2.authRequired role next env r st w in
  match sessionRole r with
  | None => status (snd out) = StatusUnauthorized ∧ fst out = st
  | Some userRole =>
      if bool_decide (userRole = role)
      then out = next env r st (V2.enableCORS w)
      else status (snd out) = StatusForbidden ∧ fst out = st
  end.
Proof.
  intros Hrole Hw out. subst out. unfold V2.authRequired, sessionRole.
  destruct (store_Get r) as [values err]; simpl.
  destruct (assertString (values !! "role")) as [userRole|]; simpl.
  - rewrite (bool_decide_eq_true_2 (role ≠ "")) by done. simpl.
    destruct (decide (userRole = role)) as [->|Hne].
    + rewrite bool_decide_eq_true_2 by done.
      rewrite bool_decide_eq_false_2 by (intros H; by apply H). done.
    + rewrite bool_decide_eq_false_2 by done.
      rewrite bool_decide_eq_true_2 by done. simpl.
      split; [by apply status_http_Error|done].
  - split; [by apply status_http_Error|done].
Qed.

(** ** The intake *)

Lemma queryEmailExists_true d e :
  queryEmailExists d e = true ↔ ∃ a, a ∈ applications d ∧ email a = e.
Proof.
  unfold queryEmailExists. rewrite existsb_exists. split.
  - intros (a & Hin & Heq). exists a. split; [by apply list_elem_of_In|].
    by apply String.eqb_eq.
  - intros (a & Hin & Heq). exists a. split; [by apply list_elem_of_In|].
    by apply String.eqb_eq.
Qed.

Lemma status_respondJSON w data code :
  Code w = None → status (V3.respondJSON w data code) = code.
Proof. intros Hc. unfold V3.respondJSON, status, Write, WriteHeader; simpl. by rewrite Hc. Qed.

(** The latest intake up to the duplicate check: a POST with a readable
    form, an email and a database that answers reaches the existence
    query, and stops there when the email is taken. *)
Lemma V3_applyHandler_conflict env r st w :
  Method r = MethodPost →
  ParseMultipartFormErr r = None →
  FormValue r "email" ≠ "" →
  fails env QEmailExists = None →
  queryEmailExists (db st) (FormValue r "email") = true →
  V3.applyHandler env r st w =
    (st, V3.respondError w "Email already used" StatusConflict).
Proof.
  intros Hm Hp He Hq Hx. unfold V3.applyHandler.
  rewrite bool_decide_eq_false_2 by (intros H; by apply H).
  rewrite Hp. rewrite bool_decide_eq_false_2 by done.
  by rewrite Hq, Hx.
Qed.



Lemma World_eta (st : World) : {| db := db st; files := files st |} = st.
Proof. by destruct st. Qed.

Lemma V1_World_eta (st : V1.World) :
  {| V1.db := V1.db st; V1.files := V1.files st |} = st.
Proof. by destruct st. Qed.

Lemma V3_savePDF_missing env r field fs :
  FormFile r field = None →
  V3.savePDF env r field fs = (fs, ("", Some "http: no such file")).
Proof. intros H. unfold V3.savePDF. by rewrite H. Qed.

Lemma V3_savePDF_saved env r field fs header :
  FormFile r field = Some header →
  fails env (FsMkdirAll field) = None →
  fails env (FsCreate field) = None →
  fails env (FsCopy field) = None →
  V3.savePDF env r field fs =
    (<[uploadPath env field header := Content header]> fs,
     (uploadPath env field header, None)).
Proof. intros H H1 H2 H3. unfold V3.savePDF. by rewrite H, H1, H2, H3. Qed.

(** The latest intake past its checks: with the cv saved and the insert
    accepted, the application is stored with the paths [savePDF] returned,
    the subjects are linked and the answer is 201 with the new id. *)
Lemma V3_applyHandler_created env r st w fs1 cvPath fs2 motivationPath e :
  Method r = MethodPost →
  ParseMultipartFormErr r = None →
  FormValue r "email" ≠ "" →
  fails env QEmailExists = None →
  queryEmailExists (db st) (FormValue r "email") = false →
  V3.savePDF env r "cv" (files st) = (fs1, (cvPath, None)) →
  V3.savePDF env r "motivation" fs1 = (fs2, (motivationPath, e)) →
  fails env QInsertApplication = None →
  V3.applyHandler env r st w =
    ({| db := linkSubjects env (applications_id_seq (db st) + 1)
                (fst (insertApplication env r (db st) (V3.parseStartDate r)
                        cvPath motivationPath))
                (FormValues r "subjects");
        files := fs2 |},
     V3.respondJSON w (BSuccessID (applications_id_seq (db st) + 1)) StatusCreated).
Proof.
  intros Hm Hp He Hq Hx Hcv Hmo Hi. unfold V3.applyHandler.
  rewrite bool_decide_eq_false_2 by (intros H; by apply H).
  rewrite Hp. rewrite bool_decide_eq_false_2 by done.
  rewrite Hq, Hx, Hcv, Hmo, Hi. reflexivity.
Qed.

Lemma applications_linkSubjects env appID names d :
  applications (linkSubjects env appID d names) = applications d.
Proof.
  unfold linkSubjects. revert d. induction names as [|n names IH]; intros d; simpl.
  - reflexivity.
  - rewrite IH. unfold linkSubject.
    destruct (fails env (QSelectSubject n)); [done|].
    destruct (querySubjectID d n); [|done].
    by destruct (fails env (QInsertApplicationSubject appID z)).
Qed.

Lemma subjects_linkSubjects env appID names d :
  subjects (linkSubjects env appID d names) = subjects d.
Proof.
  unfold linkSubjects. revert d. induction names as [|n names IH]; intros d; simpl.
  - reflexivity.
  - rewrite IH. unfold linkSubject.
    destruct (fails env (QSelectSubject n)); [done|].
    destruct (querySubjectID d n); [|done].
    by destruct (fails env (QInsertApplicationSubject appID z)).
Qed.

(** The first intake past its checks. *)
Lemma V1_applyHandler_created env r st w fs1 cvPath fs2 motivationPath e :
  Method r = MethodPost →
  ParseMultipartFormErr r = None →
  FormValues r "subjects" ≠ [] →
  V1.savePDF env r "cv" (V1.files st) = (fs1, (cvPath, None)) →
  V1.savePDF env r "motivation" fs1 = (fs2, (motivationPath, e)) →
  fails env QInsertApplication = None →
  V1.applyHandler env r st w =
    ({| V1.db :=
          fold_left (V1.insertSubject env (V1.applications_id_seq (V1.db st) + 1))
            (FormValues r "subjects")
            (fst (V1.insertApplication env r (V1.db st) (V1.parseStartDate r)
                    cvPath motivationPath));
        V1.files := fs2 |},
     Write (BSubmitted "Application submitted successfully"
                       (V1.applications_id_seq (V1.db st) + 1))
           (WriteHeader StatusCreated
              (SetHeader "Content-Type" "application/json" (V1.enableCORS w)))).
Proof.
  intros Hm Hp Hs Hcv Hmo Hi. unfold V1.applyHandler.
  rewrite bool_decide_eq_false_2 by (rewrite Hm; discriminate).
  rewrite bool_decide_eq_false_2 by (intros H; by apply H).
  rewrite Hp.
  rewrite bool_decide_eq_false_2
    by (destruct (FormValues r "subjects"); [done|discriminate]).
  rewrite Hcv, Hmo, Hi. reflexivity.
Qed.

Lemma V1_applications_insertSubjects env appID names d :
  V1.applications (fold_left (V1.insertSubject env appID) names d) =
  V1.applications d.
Proof.
  revert d. induction names as [|n names IH]; intros d; simpl; [done|].
  rewrite IH. unfold V1.insertSubject.
  by destruct (fails env (QInsertApplicationSubjectName appID n)).
Qed.

(** C10: a submission without the cv part is not answered 400 for it. The
    latest intake, once past the duplicate check, answers 500 with
    "Failed to save CV" and leaves the world as it was; the first intake
    gets the empty path and no error from [savePDF], stores the
    application with an empty cv_file_path and answers 201. *)
Theorem C10_missing_cv env r w :
  Code w = None →
  Method r = MethodPost →
  ParseMultipartFormErr r = None →
  FormFile r "cv" = None →
  (∀ st,
     FormValue r "email" ≠ "" →
     fails env QEmailExists = None →
     queryEmailExists (db st) (FormValue r "email") = false →
     let out := V3.applyHandler env r st w in
     status (snd out) = StatusInternalServerError ∧
     Written (snd out) = Written w ++ [BText "Failed to save CV"] ∧
     fst out = st) ∧
  (∀ st,
     FormValues r "subjects" ≠ [] →
     fails env QInsertApplication = None →
     let out := V1.applyHandler env r st w in
     V1.savePDF env r "cv" (V1.files st) = (V1.files st, ("", None)) ∧
     status (snd out) = StatusCreated ∧
     ∃ a, V1.applications (V1.db (fst out)) =
            V1.applications (V1.db st) ++ [a] ∧
          cv_file_path a = "").
Proof.
  intros Hw Hm Hp Hcv. split.
  - intros st He Hq Hx out. subst out. unfold V3.applyHandler.
    rewrite bool_decide_eq_false_2 by (intros H; by apply H).
    rewrite Hp. rewrite bool_decide_eq_false_2 by done.
    rewrite Hq, Hx, (V3_savePDF_missing _ _ _ _ Hcv). simpl.
    split; [by apply status_http_Error|].
    split; [apply Written_http_Error|]. unfold setFiles. apply World_eta.
  - intros st Hs Hi out.
    assert (Hsave : V1.savePDF env r "cv" (V1.files st) = (V1.files st, ("", None))).
    { unfold V1.savePDF. by rewrite Hcv. }
    split; [exact Hsave|]. subst out.
    destruct (V1.savePDF env r "motivation" (V1.files st))
      as [fs2 [motivationPath e]] eqn:Hmo.
    rewrite (V1_applyHandler_created env r st w _ _ _ _ _ Hm Hp Hs Hsave Hmo Hi).
    simpl. split.
    + unfold status, Write, WriteHeader; simpl. by rewrite Hw.
    + eexists. rewrite V1_applications_insertSubjects. simpl. split; reflexivity.
Qed.

Lemma C10_missing_cv_witness :
  let r := applyRequest "new@x.org" "12345678" "" ["Data Science"] None None in
  status (snd (V3.applyHandler quietEnv r sampleWorld newResponseWriter))
    = StatusInternalServerError ∧
  fst (V3.applyHandler quietEnv r sampleWorld newResponseWriter) = sampleWorld ∧
  status (snd (V1.applyHandler quietEnv r emptyWorldV1 newResponseWriter))
    = StatusCreated ∧
  cv_file_path <$>
    V1.applications
      (V1.db (fst (V1.applyHandler quietEnv r emptyWorldV1 newResponseWriter)))
    = [""].
Proof.
  intros r.
  destruct (C10_missing_cv quietEnv r newResponseWriter
              eq_refl eq_refl eq_refl eq_refl) as [H3 H1].
  destruct (H3 sampleWorld) as (Hs & _ & Hst); [discriminate|reflexivity..|].
  destruct (H1 emptyWorldV1) as (_ & Hs1 & a & Happs & Hcv);
    [discriminate|reflexivity|].
  split; [exact Hs|]. split; [exact Hst|]. split; [exact Hs1|].
  rewrite Happs. simpl. by rewrite Hcv.
Defined.

(** ** Content types and subjects *)

Lemma V1_savePDF_not_pdf env r field fs header :
  FormFile r field = Some header →
  ContentType header ≠ "application/pdf" →
  V1.savePDF env r field fs =
    (fs, ("", Some (field ++ " must be a PDF file")%string)).
Proof.
  intros H Hct. unfold V1.savePDF. rewrite H.
  by rewrite bool_decide_eq_true_2 by done.
Qed.

Lemma V1_savePDF_saved env r field fs header :
  FormFile r field = Some header →
  ContentType header = "application/pdf" →
  fails env (FsCreate field) = None →
  fails env (FsCopy field) = None →
  V1.savePDF env r field fs =
    (<[uploadPath env field header := Content header]> fs,
     (uploadPath env field header, None)).
Proof.
  intros H Hct H1 H2. unfold V1.savePDF. rewrite H.
  rewrite bool_decide_eq_false_2 by (intros Hne; by apply Hne).
  by rewrite H1, H2.
Qed.

(** What the client form has checked when it lets a submission go. *)
Lemma Client_validateForm_accepts fd emailExists :
  Client.validateForm fd emailExists = None →
  String.length (Client.stripNonDigits (Client.get fd "phone")) = 8%nat ∧
  emailExists = false ∧
  Client.getAll fd "subjects" ≠ [] ∧
  (∀ f, Client.cvFile fd = Some f → Client.type f = "application/pdf") ∧
  (∀ f, Client.motivationFile fd = Some f → Client.type f = "application/pdf").
Proof.
  unfold Client.validateForm. intros H.
  case_bool_decide as Hph; [discriminate|].
  destruct (_ || _ || _); [discriminate|].
  destruct emailExists; [discriminate|].
  case_bool_decide as Hsub; [discriminate|].
  split; [lia|]. split; [done|].
  split; [by destruct (Client.getAll fd "subjects")|].
  destruct (Client.isNotPDF (Client.cvFile fd)) eqn:Hcv; [discriminate|].
  destruct (Client.isNotPDF (Client.motivationFile fd)) eqn:Hmo; [discriminate|].
  split; intros f Hf; rewrite Hf in *; simpl in *.
  - apply bool_decide_eq_false in Hcv.
    destruct (decide (Client.type f = "application/pdf")); [done|by destruct Hcv].
  - apply bool_decide_eq_false in Hmo.
    destruct (decide (Client.type f = "application/pdf")); [done|by destruct Hmo].
Qed.

(** C3 (as amended): in the first backend a cv whose content type is not
    application/pdf is answered 400 and nothing is stored; a submission
    without the motivation file that is otherwise valid is answered 201,
    in the first and in the latest backend, and stored with an empty
    motivation path; and the client form lets a submission go only when
    the chosen cv and motivation files are both of type application/pdf. *)
Theorem C3_content_type env r w :
  Code w = None →
  Method r = MethodPost →
  ParseMultipartFormErr r = None →
  (∀ st header,
     FormValues r "subjects" ≠ [] →
     FormFile r "cv" = Some header →
     ContentType header ≠ "application/pdf" →
     let out := V1.applyHandler env r st w in
     status (snd out) = StatusBadRequest ∧ fst out = st) ∧
  (∀ st header,
     FormValues r "subjects" ≠ [] →
     FormFile r "cv" = Some header →
     ContentType header = "application/pdf" →
     FormFile r "motivation" = None →
     fails env (FsCreate "cv") = None →
     fails env (FsCopy "cv") = None →
     fails env QInsertApplication = None →
     let out := V1.applyHandler env r st w in
     status (snd out) = StatusCreated ∧
     ∃ a, V1.applications (V1.db (fst out)) =
            V1.applications (V1.db st) ++ [a] ∧
          cv_file_path a = uploadPath env "cv" header ∧
          motivation_file_path a = "") ∧
  (∀ st header,
     FormValue r "email" ≠ "" →
     fails env QEmailExists = None →
     queryEmailExists (db st) (FormValue r "email") = false →
     FormFile r "cv" = Some header →
     FormFile r "motivation" = None →
     fails env (FsMkdirAll "cv") = None →
     fails env (FsCreate "cv") = None →
     fails env (FsCopy "cv") = None →
     fails env QInsertApplication = None →
     let out := V3.applyHandler env r st w in
     status (snd out) = StatusCreated ∧
     ∃ a, applications (db (fst out)) = applications (db st) ++ [a] ∧
          cv_file_path a = uploadPath env "cv" header ∧
          motivation_file_path a = "") ∧
  (∀ fd emailExists,
     Client.handleSubmit fd emailExists = true →
     (∀ f, Client.cvFile fd = Some f → Client.type f = "application/pdf") ∧
     (∀ f, Client.motivationFile fd = Some f →
           Client.type f = "application/pdf")).
Proof.
  intros Hw Hm Hp. split; [|split; [|split]].
  - intros st header Hsub Hcv Hct out. subst out. unfold V1.applyHandler.
    rewrite bool_decide_eq_false_2 by (rewrite Hm; discriminate).
    rewrite bool_decide_eq_false_2 by (intros E; by apply E).
    rewrite Hp.
    rewrite bool_decide_eq_false_2
      by (destruct (FormValues r "subjects"); [done|discriminate]).
    rewrite (V1_savePDF_not_pdf env r "cv" _ header) by done. simpl.
    split; [by apply status_http_Error|apply V1_World_eta].
  - intros st header Hsub Hcv Hct Hmo Hcreate Hcopy Hins out. subst out.
    assert (Hmo' : V1.savePDF env r "motivation"
                    (<[uploadPath env "cv" header := Content header]> (V1.files st))
                  = (<[uploadPath env "cv" header := Content header]> (V1.files st),
                     ("", None))).
    { unfold V1.savePDF. by rewrite Hmo. }
    rewrite (V1_applyHandler_created env r st w _ _ _ _ _ Hm Hp Hsub
               (V1_savePDF_saved env r "cv" _ header Hcv Hct Hcreate Hcopy)
               Hmo' Hins).
    simpl. split.
    + unfold status, Write, WriteHeader; simpl. by rewrite Hw.
    + eexists. rewrite V1_applications_insertSubjects. simpl. repeat split.
  - intros st header Hemail Hq Hfresh Hcv Hmo Hmk Hcreate Hcopy Hins out.
    subst out.
    rewrite (V3_applyHandler_created env r st w _ _ _ _ _ Hm Hp Hemail Hq Hfresh
               (V3_savePDF_saved env r "cv" _ header Hcv Hmk Hcreate Hcopy)
               (V3_savePDF_missing env r "motivation" _ Hmo) Hins).
    simpl. split; [by apply status_respondJSON|].
    eexists. rewrite applications_linkSubjects. simpl. repeat split.
  - intros fd emailExists Hsubmit. unfold Client.handleSubmit in Hsubmit.
    destruct (Client.validateForm fd emailExists) eqn:Hv; [discriminate|].
    by apply (Client_validateForm_accepts fd emailExists).
Qed.

Lemma C3_content_type_witness :
  let env := quietEnv in
  let bad := applyRequest "new@x.org" "12345678" "" ["Data Science"]
                          (Some (png "cv.png")) None in
  let good := applyRequest "new@x.org" "12345678" "" ["Data Science"]
                           (Some (pdf "cv.pdf")) None in
  status (snd (V1.applyHandler env bad emptyWorldV1 newResponseWriter))
    = StatusBadRequest ∧
  fst (V1.applyHandler env bad emptyWorldV1 newResponseWriter) = emptyWorldV1 ∧
  status (snd (V1.applyHandler env good emptyWorldV1 newResponseWriter))
    = StatusCreated ∧
  status (snd (V3.applyHandler env good sampleWorld newResponseWriter))
    = StatusCreated.
Proof.
  intros env bad good.
  destruct (C3_content_type env bad newResponseWriter eq_refl eq_refl eq_refl)
    as (Hbad & _).
  destruct (C3_content_type env good newResponseWriter eq_refl eq_refl eq_refl)
    as (_ & Hgood1 & Hgood3 & _).
  destruct (Hbad emptyWorldV1 (png "cv.png")) as [Hs Hst];
    [discriminate|reflexivity|discriminate|].
  destruct (Hgood1 emptyWorldV1 (pdf "cv.pdf")) as [Hs1 _];
    [discriminate|reflexivity..|].
  destruct (Hgood3 sampleWorld (pdf "cv.pdf")) as [Hs3 _];
    [discriminate|reflexivity..|].
  repeat split; assumption.
Defined.

(** C3 (as stated) fails: the first backend drops the error [savePDF]
    returns for the motivation file and answers 201 to a motivation letter
    that is not a PDF; the latest backend does not look at content types
    and answers 201 to a cv that is not a PDF. *)
Lemma C3_counterexample :
  status (snd (V1.applyHandler quietEnv
                 (applyRequest "new@x.org" "12345678" "" ["Data Science"]
                               (Some (pdf "cv.pdf")) (Some (png "letter.png")))
                 emptyWorldV1 newResponseWriter)) = StatusCreated ∧
  status (snd (V3.applyHandler quietEnv
                 (applyRequest "new@x.org" "12345678" "" ["Data Science"]
                               (Some (pdf "cv.pdf")) (Some (png "letter.png")))
                 sampleWorld newResponseWriter)) = StatusCreated ∧
  status (snd (V3.applyHandler quietEnv
                 (applyRequest "new@x.org" "12345678" "" ["Data Science"]
                               (Some (png "cv.png")) None)
                 sampleWorld newResponseWriter)) = StatusCreated.
Proof. repeat split. Qed.

(** C4 (as amended): in the first backend a submission without subjects is
    answered 400 and the world is left as it was; the client form does not
    send a submission without subjects; and the latest backend, which does
    not check the subjects, answers 201 to such a submission when it is
    valid otherwise, and stores its application without any join row. *)
Theorem C4_zero_subjects env r w :
  Code w = None →
  Method r = MethodPost →
  ParseMultipartFormErr r = None →
  FormValues r "subjects" = [] →
  (∀ st,
     let out := V1.applyHandler env r st w in
     status (snd out) = StatusBadRequest ∧
     fst out = st ∧
     V1.applications (V1.db (fst out)) = V1.applications (V1.db st) ∧
     V1.application_subjects (V1.db (fst out)) =
       V1.application_subjects (V1.db st) ∧
     V1.files (fst out) = V1.files st) ∧
  (∀ fd emailExists,
     Client.getAll fd "subjects" = [] →
     Client.handleSubmit fd emailExists = false) ∧
  (∀ st header,
     FormValue r "email" ≠ "" →
     fails env QEmailExists = None →
     queryEmailExists (db st) (FormValue r "email") = false →
     FormFile r "cv" = Some header →
     fails env (FsMkdirAll "cv") = None →
     fails env (FsCreate "cv") = None →
     fails env (FsCopy "cv") = None →
     fails env QInsertApplication = None →
     let out := V3.applyHandler env r st w in
     status (snd out) = StatusCreated ∧
     application_subjects (db (fst out)) = application_subjects (db st) ∧
     ∃ a, applications (db (fst out)) = applications (db st) ++ [a]).
Proof.
  intros Hw Hm Hp Hsub. split; [|split].
  - intros st out. subst out. unfold V1.applyHandler.
    rewrite bool_decide_eq_false_2 by (rewrite Hm; discriminate).
    rewrite bool_decide_eq_false_2 by (intros E; by apply E).
    rewrite Hp, Hsub. simpl.
    split; [by apply status_http_Error|done].
  - intros fd emailExists Hnone. unfold Client.handleSubmit.
    destruct (Client.validateForm fd emailExists) eqn:Hv; [done|].
    apply Client_validateForm_accepts in Hv. by destruct Hv as (_ & _ & ? & _).
  - intros st header Hemail Hq Hfresh Hcv Hmk Hcreate Hcopy Hins out.
    subst out.
    destruct (V3.savePDF env r "motivation"
                (<[uploadPath env "cv" header := Content header]> (files st)))
      as [fs2 [motivationPath e]] eqn:Hmo.
    rewrite (V3_applyHandler_created env r st w _ _ _ _ _ Hm Hp Hemail Hq Hfresh
               (V3_savePDF_saved env r "cv" _ header Hcv Hmk Hcreate Hcopy)
               Hmo Hins).
    rewrite Hsub. simpl.
    split; [by apply status_respondJSON|]. split; [done|]. by eexists.
Qed.

Lemma C4_zero_subjects_witness :
  let r := applyRequest "new@x.org" "12345678" "" [] (Some (pdf "cv.pdf")) None in
  status (snd (V1.applyHandler quietEnv r emptyWorldV1 newResponseWriter))
    = StatusBadRequest ∧
  fst (V1.applyHandler quietEnv r emptyWorldV1 newResponseWriter) = emptyWorldV1.
Proof.
  intros r.
  destruct (C4_zero_subjects quietEnv r newResponseWriter
              eq_refl eq_refl eq_refl eq_refl) as (H & _ & _).
  destruct (H emptyWorldV1) as (Hs & Hst & _). split; assumption.
Defined.

(** C4 (as stated) fails on the latest backend, which has no check on the
    subjects: a submission without subjects is answered 201 and its
    application is stored. *)
Lemma C4_counterexample :
  let r := applyRequest "new@x.org" "12345678" "" [] (Some (pdf "cv.pdf")) None in
  let out := V3.applyHandler quietEnv r sampleWorld newResponseWriter in
  FormValues r "subjects" = [] ∧
  status (snd out) = StatusCreated ∧
  email <$> applications (db (fst out)) = ["a@b.com"; "new@x.org"] ∧
  files (fst out) ≠ files sampleWorld.
Proof.
  repeat split. intros H.
  assert (Hl : files sampleWorld !! "uploads/1700000000000000000_cv.pdf"
               = Some "%PDF-1.4") by (rewrite <- H; reflexivity).
  discriminate Hl.
Qed.

(** ** The phone number *)

Lemma V3_savePDF_ext env r r' field fs :
  ParseMultipartFormErr r = ParseMultipartFormErr r' →
  FormFiles r = FormFiles r' →
  V3.savePDF env r field fs = V3.savePDF env r' field fs.
Proof. intros Hp Hf. unfold V3.savePDF, FormFile. by rewrite Hp, Hf. Qed.

(** The answer of the latest intake, and the files it writes, depend on
    the request only through its method, the outcome of parsing the form,
    the email and the uploaded files. *)
Lemma V3_applyHandler_answer_ext env r r' st w :
  Method r = Method r' →
  ParseMultipartFormErr r = ParseMultipartFormErr r' →
  FormFiles r = FormFiles r' →
  FormValue r "email" = FormValue r' "email" →
  snd (V3.applyHandler env r st w) = snd (V3.applyHandler env r' st w) ∧
  files (fst (V3.applyHandler env r st w)) =
  files (fst (V3.applyHandler env r' st w)).
Proof.
  intros Hm Hp Hf He. unfold V3.applyHandler.
  rewrite <- Hm, <- Hp, <- He.
  rewrite <- (V3_savePDF_ext env r r' "cv" _ Hp Hf).
  assert (Hmo : ∀ fs, V3.savePDF env r' "motivation" fs
                      = V3.savePDF env r "motivation" fs).
  { intros fs. symmetry. by apply V3_savePDF_ext. }
  case_bool_decide; [done|].
  destruct (ParseMultipartFormErr r); [done|].
  case_bool_decide; [done|].
  destruct (fails env QEmailExists); [done|].
  destruct (queryEmailExists _ _); [done|].
  destruct (V3.savePDF env r "cv" (files st)) as [fs1 [cvPath [e|]]]; [done|].
  rewrite Hmo.
  destruct (V3.savePDF env r "motivation" fs1) as [fs2 [motivationPath e]].
  destruct (fails env QInsertApplication); done.
Qed.

(** C5 (as amended): the client form sends a submission only if the phone,
    with everything but its digits removed, has exactly 8 digits, and shows
    an alert and sends nothing otherwise; the latest intake answers a
    submission the same way whatever its phone field holds. *)
Theorem C5_phone_checked_by_client :
  (∀ fd emailExists,
     String.length (Client.stripNonDigits (Client.get fd "phone")) ≠ 8%nat →
     Client.validateForm fd emailExists
       = Some "Phone number must be exactly 8 digits" ∧
     Client.handleSubmit fd emailExists = false) ∧
  (∀ fd emailExists,
     Client.handleSubmit fd emailExists = true →
     String.length (Client.stripNonDigits (Client.get fd "phone")) = 8%nat) ∧
  (∀ env r st w phone,
     snd (V3.applyHandler env (withFormValue "phone" phone r) st w) =
     snd (V3.applyHandler env r st w)).
Proof.
  split; [|split].
  - intros fd emailExists Hlen.
    assert (Hv : Client.validateForm fd emailExists
                 = Some "Phone number must be exactly 8 digits").
    { unfold Client.validateForm. by rewrite bool_decide_eq_true_2 by done. }
    split; [exact Hv|]. unfold Client.handleSubmit. by rewrite Hv.
  - intros fd emailExists Hsubmit. unfold Client.handleSubmit in Hsubmit.
    destruct (Client.validateForm fd emailExists) eqn:Hv; [discriminate|].
    by apply (Client_validateForm_accepts fd emailExists).
  - intros env r st w phone.
    apply V3_applyHandler_answer_ext; try reflexivity.
    unfold FormValue, withFormValue; simpl.
    by rewrite lookup_insert_ne by discriminate.
Qed.

Lemma C5_phone_checked_by_client_witness :
  Client.handleSubmit (phoneForm "12-34-56-78") false = true ∧
  Client.stripNonDigits "12-34-56-78" = "12345678" ∧
  Client.handleSubmit (phoneForm "1234567") false = false ∧
  Client.handleSubmit (phoneForm "+216 12 345 678") false = false.
Proof.
  destruct C5_phone_checked_by_client as (Hreject & Haccept & _).
  split; [reflexivity|]. split; [reflexivity|]. split.
  - apply (Hreject (phoneForm "1234567") false). discriminate.
  - apply (Hreject (phoneForm "+216 12 345 678") false). discriminate.
Defined.

(** C5 (as stated) fails on the server: the intake stores and answers 201
    to a submission whose phone has three digits. *)
Lemma C5_counterexample :
  let r := applyRequest "new@x.org" "123" "" ["Data Science"]
                        (Some (pdf "cv.pdf")) None in
  let out := V3.applyHandler quietEnv r sampleWorld newResponseWriter in
  Client.stripNonDigits (FormValue r "phone") = "123" ∧
  status (snd out) = StatusCreated ∧
  phone <$> applications (db (fst out)) = ["12345678"; "123"].
Proof. repeat split. Qed.

(** ** The start date *)

Lemma http_Error_not_created w message code :
  Code w = None → code ≠ StatusCreated →
  status (http_Error w message code) ≠ StatusCreated.
Proof. intros Hw Hc. by rewrite status_http_Error. Qed.

(** The latest intake answers 201 only on the path that stores the
    application. *)
Lemma V3_applyHandler_created_inv env r st w :
  Code w = None →
  status (snd (V3.applyHandler env r st w)) = StatusCreated →
  ∃ cvPath motivationPath fs2,
    FormValue r "email" ≠ "" ∧
    queryEmailExists (db st) (FormValue r "email") = false ∧
    V3.applyHandler env r st w =
      ({| db := linkSubjects env (applications_id_seq (db st) + 1)
                  (fst (insertApplication env r (db st) (V3.parseStartDate r)
                          cvPath motivationPath))
                  (FormValues r "subjects");
          files := fs2 |},
       V3.respondJSON w (BSuccessID (applications_id_seq (db st) + 1))
                      StatusCreated).
Proof.
  intros Hw. unfold V3.applyHandler, V3.respondError.
  case_bool_decide; [intros E; by apply http_Error_not_created in E|].
  destruct (ParseMultipartFormErr r);
    [intros E; by apply http_Error_not_created in E|].
  case_bool_decide; [intros E; by apply http_Error_not_created in E|].
  destruct (fails env QEmailExists);
    [intros E; by apply http_Error_not_created in E|].
  destruct (queryEmailExists _ _) eqn:Hx;
    [intros E; by apply http_Error_not_created in E|].
  destruct (V3.savePDF env r "cv" (files st)) as [fs1 [cvPath [e|]]];
    [intros E; by apply http_Error_not_created in E|].
  destruct (V3.savePDF env r "motivation" fs1) as [fs2 [motivationPath e]].
  destruct (fails env QInsertApplication);
    [intros E; by apply http_Error_not_created in E|].
  intros _. by exists cvPath, motivationPath, fs2.
Qed.

Lemma FormValue_withoutFormValue_ne key r k :
  k ≠ key → FormValue (withoutFormValue key r) k = FormValue r k.
Proof.
  intros Hne. unfold FormValue, withoutFormValue; simpl.
  by rewrite lookup_delete_ne.
Qed.

Lemma FormValue_withoutFormValue key r :
  FormValue (withoutFormValue key r) key = "".
Proof.
  unfold FormValue, withoutFormValue; simpl. by rewrite lookup_delete_eq.
Qed.

Lemma newApplication_without_start_date env r id startDate cvPath motivationPath :
  newApplication env (withoutFormValue "early_start_date" r) id startDate
                 cvPath motivationPath =
  newApplication env r id startDate cvPath motivationPath.
Proof.
  unfold newApplication.
  by rewrite !FormValue_withoutFormValue_ne by discriminate.
Qed.

(** The latest intake does what C8 says: when early_start_date is present
    and does not parse as YYYY-MM-DD, it does exactly what it does for the
    same submission without the field (so the value is no ground for a
    rejection), and the application it stores on success has no start
    date. *)
Theorem C8_malformed_start_date env r st w :
  Code w = None →
  FormValue r "early_start_date" ≠ "" →
  time_Parse (FormValue r "early_start_date") = None →
  let out := V3.applyHandler env r st w in
  out = V3.applyHandler env (withoutFormValue "early_start_date" r) st w ∧
  (status (snd out) = StatusCreated →
   ∃ a, applications (db (fst out)) = applications (db st) ++ [a] ∧
        start_date a = None).
Proof.
  intros Hw Hv Hparse out. subst out.
  assert (Hsd : V3.parseStartDate r = None).
  { unfold V3.parseStartDate. by rewrite bool_decide_eq_true_2. }
  split.
  - unfold V3.applyHandler.
    rewrite (FormValue_withoutFormValue_ne "early_start_date" r "email")
      by discriminate.
    change (V3.savePDF env (withoutFormValue "early_start_date" r))
      with (V3.savePDF env r).
    change (Method (withoutFormValue "early_start_date" r)) with (Method r).
    change (ParseMultipartFormErr (withoutFormValue "early_start_date" r))
      with (ParseMultipartFormErr r).
    assert (Hsd' : V3.parseStartDate (withoutFormValue "early_start_date" r) = None).
    { unfold V3.parseStartDate. rewrite FormValue_withoutFormValue.
      by rewrite bool_decide_eq_false_2 by (intros E; by apply E). }
    rewrite Hsd, Hsd'.
    assert (Hsub : FormValues (withoutFormValue "early_start_date" r) "subjects"
                   = FormValues r "subjects").
    { unfold FormValues, withoutFormValue; simpl.
      by rewrite lookup_delete_ne by discriminate. }
    rewrite Hsub. unfold insertApplication.
    case_bool_decide; [done|].
    destruct (ParseMultipartFormErr r); [done|].
    case_bool_decide; [done|].
    destruct (fails env QEmailExists); [done|].
    destruct (queryEmailExists _ _); [done|].
    destruct (V3.savePDF env r "cv" (files st)) as [fs1 [cvPath [e|]]]; [done|].
    destruct (V3.savePDF env r "motivation" fs1) as [fs2 [motivationPath e]].
    destruct (fails env QInsertApplication); [done|].
    by rewrite newApplication_without_start_date.
  - intros Hcreated.
    destruct (V3_applyHandler_created_inv env r st w Hw Hcreated)
      as (cvPath & motivationPath & fs2 & _ & _ & Heq).
    rewrite Heq. simpl. rewrite applications_linkSubjects. simpl.
    eexists. split; [reflexivity|]. simpl. exact Hsd.
Qed.

Lemma C8_malformed_start_date_witness :
  let r := applyRequest "new@x.org" "12345678" "2024-02-30" ["Data Science"]
                        (Some (pdf "cv.pdf")) None in
  let out := V3.applyHandler quietEnv r sampleWorld newResponseWriter in
  time_Parse "2024-02-29" = Some {| year := 2024; month := 2; day := 29 |} ∧
  time_Parse "2024-02-30" = None ∧
  status (snd out) = StatusCreated ∧
  ∃ a, applications (db (fst out)) = [storedApplication; a] ∧
       start_date a = None.
Proof.
  intros r out.
  destruct (C8_malformed_start_date quietEnv r sampleWorld newResponseWriter)
    as (_ & Hstored); [reflexivity|discriminate|reflexivity|].
  split; [reflexivity|]. split; [reflexivity|]. split; [reflexivity|].
  exact (Hstored eq_refl).
Defined.

(** Version 2 differs: it drops the error of [time.Parse] and stores the
    zero time, marked valid, for a value that does not parse. *)
Lemma V2_malformed_start_date_stored :
  let r := applyRequest "new@x.org" "12345678" "2024-02-30" ["Data Science"]
                        (Some (pdf "cv.pdf")) None in
  start_date <$>
    applications (db (fst (V2.applyHandler quietEnv r sampleWorld
                             newResponseWriter)))
  = [None; Some zeroTime].
Proof. reflexivity. Qed.

(** C8: version 2 (the second [main.go]) breaks it. The start date
    2024-02-30 does not parse; its intake drops the error of [time.Parse],
    answers 200 and stores the zero time as a valid start date, where the
    same submission without the field is stored with none. The latest
    intake stores none in both cases. *)
Lemma C8_version2_stores_zero_time :
  let r := applyRequest "new@x.org" "12345678" "2024-02-30" ["Data Science"]
                        (Some (pdf "cv.pdf")) None in
  let out := V2.applyHandler quietEnv r sampleWorld newResponseWriter in
  let omitted :=
    V2.applyHandler quietEnv (withoutFormValue "early_start_date" r)
                    sampleWorld newResponseWriter in
  let latest := V3.applyHandler quietEnv r sampleWorld newResponseWriter in
  FormValue r "early_start_date" = "2024-02-30" ∧
  time_Parse "2024-02-30" = None ∧
  status (snd out) = StatusOK ∧
  start_date <$> applications (db (fst out)) = [None; Some zeroTime] ∧
  start_date <$> applications (db (fst omitted)) = [None; None] ∧
  start_date <$> applications (db (fst latest)) = [None; None].
Proof. repeat split. Qed.

(** ** Deleting subjects *)

Lemma elem_of_filter_bool {A} (f : A → bool) (l : list A) x :
  x ∈ List.filter f l ↔ x ∈ l ∧ f x = true.
Proof. rewrite !list_elem_of_In. apply filter_In. Qed.

Lemma querySubjectsInUse_spec d ids id :
  id ∈ querySubjectsInUse d ids ↔ id ∈ ids ∧ referenced d id.
Proof.
  unfold querySubjectsInUse, referenced.
  rewrite elem_of_remove_dups, elem_of_filter_bool, bool_decide_eq_true.
  rewrite list_elem_of_fmap. split.
  - intros [([appID sid] & -> & Hin) Hids]. split; [done|]. by exists appID.
  - intros [Hids [appID Hin]]. split; [|done]. by exists (appID, id).
Qed.

Lemma markInUse_lookup_from rows (m : gmap Z bool) id :
  fold_left (fun m id => <[id := true]> m) rows m !! id =
  if bool_decide (id ∈ rows) then Some true else m !! id.
Proof.
  revert m. induction rows as [|x rows IH]; intros m; simpl.
  - reflexivity.
  - rewrite IH. destruct (decide (id ∈ rows)) as [Hin|Hnin].
    + rewrite !bool_decide_eq_true_2; [done| |done]. by right.
    + rewrite (bool_decide_eq_false_2 (id ∈ rows)) by done.
      destruct (decide (id = x)) as [->|Hne].
      * rewrite bool_decide_eq_true_2 by left. by rewrite lookup_insert_eq.
      * rewrite bool_decide_eq_false_2.
        -- by rewrite lookup_insert_ne.
        -- intros [?|?]%elem_of_cons; done.
Qed.

Lemma inUseAt_markInUse rows id :
  V3.inUseAt (V3.markInUse rows) id = bool_decide (id ∈ rows).
Proof.
  unfold V3.inUseAt, V3.markInUse. rewrite markInUse_lookup_from.
  by case_bool_decide.
Qed.

Lemma elem_of_mapKeys_markInUse rows id :
  id ∈ V3.mapKeys (V3.markInUse rows) ↔ id ∈ rows.
Proof.
  unfold V3.mapKeys. rewrite list_elem_of_fmap. split.
  - intros ([k v] & -> & Hin). apply elem_of_map_to_list in Hin.
    unfold V3.markInUse in Hin. rewrite markInUse_lookup_from in Hin.
    simpl. case_bool_decide; [done|]. by rewrite lookup_empty in Hin.
  - intros Hin. exists (id, true). split; [done|].
    apply elem_of_map_to_list. unfold V3.markInUse.
    rewrite markInUse_lookup_from. by rewrite bool_decide_eq_true_2.
Qed.

Lemma execDeleteSubjects_nil d : execDeleteSubjects d [] = d.
Proof.
  destruct d as [apps subs joins seq]. unfold execDeleteSubjects; simpl.
  f_equal. induction subs as [|s subs IH]; simpl; [done|]. by f_equal.
Qed.

(** The latest batch delete when every database call succeeds: the answer
    and the new tables. *)
Lemma V3_deleteSubjects_done env r st w :
  Method r = MethodDelete →
  BodyDecodeErr r = false →
  BodyIDs r ≠ [] →
  fails env QSubjectsInUse = None →
  fails env TxBegin = None →
  fails env QDeleteSubjects = None →
  fails env TxCommit = None →
  let inUse := V3.markInUse (querySubjectsInUse (db st) (BodyIDs r)) in
  let deletable :=
    List.filter (fun id => negb (V3.inUseAt inUse id)) (BodyIDs r) in
  V3.deleteSubjects env r st w =
    (setDB st (execDeleteSubjects (db st) deletable),
     V3.respondJSON w (BDeleted deletable (V3.mapKeys inUse)) StatusOK).
Proof.
  intros Hm He Hids H1 H2 H3 H4 inUse deletable. unfold V3.deleteSubjects.
  rewrite bool_decide_eq_false_2 by (intros E; by apply E).
  rewrite He.
  rewrite bool_decide_eq_false_2 by (destruct (BodyIDs r); [done|discriminate]).
  rewrite H1, H2, H3, H4. fold inUse. fold deletable.
  case_bool_decide as Hlen; [done|].
  assert (Hnil : deletable = []) by (destruct deletable; [done|simpl in Hlen; lia]).
  by rewrite Hnil, execDeleteSubjects_nil.
Qed.

(** C6: a batch delete with a non-empty list of ids, on the latest
    backend with a database that answers, is answered 200 with the two
    lists deleted and in_use, such that: every requested id that some
    application references is in in_use and not in deleted, and every
    subject row with that id is still there; every requested id that no
    application references is in deleted and not in in_use, and no subject
    row with that id is left; the join table and the applications are
    untouched; and so every subject row that was referenced survives. *)
Theorem C6_delete_subjects env r st w :
  Code w = None →
  Method r = MethodDelete →
  BodyDecodeErr r = false →
  BodyIDs r ≠ [] →
  fails env QSubjectsInUse = None →
  fails env TxBegin = None →
  fails env QDeleteSubjects = None →
  fails env TxCommit = None →
  let out := V3.deleteSubjects env r st w in
  ∃ deleted in_use,
    status (snd out) = StatusOK ∧
    Written (snd out) = Written w ++ [BDeleted deleted in_use] ∧
    (∀ id, id ∈ BodyIDs r → referenced (db st) id →
       id ∈ in_use ∧ (id ∉ deleted) ∧
       ∀ s, s ∈ subjects (db st) → subject_id s = id →
            s ∈ subjects (db (fst out))) ∧
    (∀ id, id ∈ BodyIDs r → ¬ referenced (db st) id →
       id ∈ deleted ∧ (id ∉ in_use) ∧
       ∀ s, s ∈ subjects (db (fst out)) → subject_id s ≠ id) ∧
    application_subjects (db (fst out)) = application_subjects (db st) ∧
    applications (db (fst out)) = applications (db st) ∧
    files (fst out) = files st ∧
    (∀ s, s ∈ subjects (db (fst out)) → s ∈ subjects (db st)) ∧
    (∀ s, s ∈ subjects (db st) → referenced (db st) (subject_id s) →
          s ∈ subjects (db (fst out))).
Proof.
  intros Hw Hm He Hids H1 H2 H3 H4 out. subst out.
  rewrite V3_deleteSubjects_done by done.
  set (rows := querySubjectsInUse (db st) (BodyIDs r)).
  set (deletable := List.filter _ (BodyIDs r)).
  assert (Hdel : ∀ id, id ∈ deletable ↔ id ∈ BodyIDs r ∧ ¬ referenced (db st) id).
  { intros id. unfold deletable. rewrite elem_of_filter_bool.
    rewrite inUseAt_markInUse, negb_true_iff, bool_decide_eq_false.
    unfold rows. rewrite querySubjectsInUse_spec. tauto. }
  assert (Huse : ∀ id, id ∈ V3.mapKeys (V3.markInUse rows)
                       ↔ id ∈ BodyIDs r ∧ referenced (db st) id).
  { intros id. rewrite elem_of_mapKeys_markInUse. apply querySubjectsInUse_spec. }
  assert (Hsub : ∀ s, s ∈ subjects (execDeleteSubjects (db st) deletable)
                      ↔ s ∈ subjects (db st) ∧ subject_id s ∉ deletable).
  { intros s. unfold execDeleteSubjects; simpl.
    rewrite elem_of_filter_bool, negb_true_iff, bool_decide_eq_false. tauto. }
  exists deletable, (V3.mapKeys (V3.markInUse rows)). simpl.
  split; [by apply status_respondJSON|].
  split.
  { unfold V3.respondJSON, Write, WriteHeader; simpl. by rewrite Hw. }
  split.
  { intros id Hin Href. split; [by apply Huse|]. split.
    - rewrite Hdel. tauto.
    - intros s Hs <-. apply Hsub. split; [done|]. rewrite Hdel. tauto. }
  split.
  { intros id Hin Href. split; [by apply Hdel|]. split.
    - rewrite Huse. tauto.
    - intros s Hs Heq. apply Hsub in Hs as [_ Hs]. apply Hs. rewrite Heq.
      by apply Hdel. }
  split; [done|]. split; [done|]. split; [done|]. split.
  - intros s Hs. by apply Hsub in Hs as [? _].
  - intros s Hs Href. apply Hsub. split; [done|]. rewrite Hdel. tauto.
Qed.

Lemma C6_delete_subjects_witness :
  let out :=
    V3.deleteSubjects quietEnv (deleteRequest [7; 8]) sampleWorld
                      newResponseWriter in
  referenced sampleDB 7 ∧ ¬ referenced sampleDB 8 ∧
  Written (snd out) = [BDeleted [8] [7]] ∧
  subjects (db (fst out)) = [dataScience] ∧
  dataScience ∈ subjects (db (fst out)).
Proof.
  intros out.
  assert (H7 : referenced sampleDB 7) by (exists 1; apply list_elem_of_singleton; reflexivity).
  assert (H8 : ¬ referenced sampleDB 8).
  { intros [appID Hin]. apply list_elem_of_singleton in Hin. discriminate Hin. }
  destruct (C6_delete_subjects quietEnv (deleteRequest [7; 8]) sampleWorld
              newResponseWriter)
    as (deleted & in_use & _ & _ & _ & _ & _ & _ & _ & _ & Hkeep);
    [reflexivity|reflexivity|reflexivity|discriminate|reflexivity..|].
  split; [exact H7|]. split; [exact H8|].
  split; [reflexivity|]. split; [reflexivity|].
  apply Hkeep; [left|exact H7].
Defined.

(** Version 2 differs: it deletes the join rows of the requested ids and
    then the subjects, referenced or not. *)
Lemma V2_deleteSubjects_removes_referenced :
  let out :=
    V2.deleteSubjects quietEnv (deleteRequest [7; 8]) sampleWorld
                      newResponseWriter in
  subjects (db (fst out)) = [] ∧ application_subjects (db (fst out)) = [].
Proof. split; reflexivity. Qed.

(** C6, as stated for every batch delete, fails on version 2 (the second
    [main.go]): subject 7 is referenced by application 1, and a request to
    delete subjects 7 and 8 is answered 200 with the bare success object,
    no in_use list; both subject rows are gone, and so is the join row of
    application 1. *)
Lemma C6_counterexample :
  let out :=
    V2.deleteSubjects quietEnv (deleteRequest [7; 8]) sampleWorld
                      newResponseWriter in
  referenced (db sampleWorld) 7 ∧
  dataScience ∈ subjects (db sampleWorld) ∧ subject_id dataScience = 7 ∧
  status (snd out) = StatusOK ∧
  Written (snd out) = [BSuccess] ∧
  subjects (db (fst out)) = [] ∧
  application_subjects (db (fst out)) = [].
Proof.
  intros out. split; [exists 1; apply list_elem_of_singleton; reflexivity|].
  split; [left|]. repeat split.
Qed.

(** The batch delete keeps every referenced subject row and the whole join
    table, whatever the database answers. *)
Lemma V3_deleteSubjects_keeps_referenced env r st w s :
  s ∈ subjects (db st) →
  referenced (db st) (subject_id s) →
  s ∈ subjects (db (fst (V3.deleteSubjects env r st w))) ∧
  application_subjects (db (fst (V3.deleteSubjects env r st w))) =
    application_subjects (db st).
Proof.
  intros Hs Href. unfold V3.deleteSubjects.
  case_bool_decide; [done|].
  destruct (BodyDecodeErr r); [done|].
  case_bool_decide; [done|].
  destruct (fails env QSubjectsInUse); [done|].
  destruct (fails env TxBegin); [done|].
  set (rows := querySubjectsInUse (db st) (BodyIDs r)).
  set (deletable := List.filter _ (BodyIDs r)).
  assert (Hkeep : s ∈ subjects (execDeleteSubjects (db st) deletable)).
  { unfold execDeleteSubjects; simpl.
    rewrite elem_of_filter_bool, negb_true_iff, bool_decide_eq_false.
    split; [done|]. unfold deletable.
    rewrite elem_of_filter_bool, inUseAt_markInUse, negb_true_iff,
      bool_decide_eq_false.
    unfold rows. rewrite querySubjectsInUse_spec. tauto. }
  case_bool_decide.
  - destruct (fails env QDeleteSubjects); [done|].
    by destruct (fails env TxCommit).
  - by destruct (fails env TxCommit).
Qed.

Lemma application_subjects_linkSubjects env appID names d :
  ∃ added, application_subjects (linkSubjects env appID d names) =
           application_subjects d ++ added.
Proof.
  unfold linkSubjects. revert d.
  induction names as [|n names IH]; intros d; simpl.
  - exists []. by rewrite app_nil_r.
  - destruct (IH (linkSubject env appID d n)) as [added Hadded].
    rewrite Hadded. unfold linkSubject.
    destruct (fails env (QSelectSubject n)); [by exists added|].
    destruct (querySubjectID d n) as [sid|]; [|by exists added].
    destruct (fails env (QInsertApplicationSubject appID sid)); [by exists added|].
    simpl. exists ((appID, sid) :: added). by rewrite <- app_assoc.
Qed.

(** The intake leaves the subjects as they are and only adds join rows. *)
Lemma V3_applyHandler_tables env r st w :
  subjects (db (fst (V3.applyHandler env r st w))) = subjects (db st) ∧
  ∃ added, application_subjects (db (fst (V3.applyHandler env r st w))) =
           application_subjects (db st) ++ added.
Proof.
  assert (Hst : subjects (db st) = subjects (db st) ∧
                ∃ added, application_subjects (db st) =
                         application_subjects (db st) ++ added).
  { split; [done|]. exists []. by rewrite app_nil_r. }
  unfold V3.applyHandler.
  case_bool_decide; [done|].
  destruct (ParseMultipartFormErr r); [done|].
  case_bool_decide; [done|].
  destruct (fails env QEmailExists); [done|].
  destruct (queryEmailExists _ _); [done|].
  destruct (V3.savePDF env r "cv" (files st)) as [fs1 [cvPath [e|]]]; [done|].
  destruct (V3.savePDF env r "motivation" fs1) as [fs2 [motivationPath e]].
  destruct (fails env QInsertApplication); [done|].
  simpl. rewrite subjects_linkSubjects. simpl. split; [done|].
  match goal with
  | |- context [linkSubjects ?e ?i ?d ?n] =>
      destruct (application_subjects_linkSubjects e i n d) as [added Hadded]
  end.
  exists added. by rewrite Hadded.
Qed.

(** The subjects handler keeps the id of every subject row and the whole
    join table. *)
Lemma V3_subjectsHandler_tables env r st w :
  (∀ s, s ∈ subjects (db st) →
        ∃ s', s' ∈ subjects (db (fst (V3.subjectsHandler env r st w))) ∧
              subject_id s' = subject_id s) ∧
  application_subjects (db (fst (V3.subjectsHandler env r st w))) =
    application_subjects (db st).
Proof.
  assert (Hst : (∀ s, s ∈ subjects (db st) →
                   ∃ s', s' ∈ subjects (db st) ∧ subject_id s' = subject_id s) ∧
                application_subjects (db st) = application_subjects (db st)).
  { split; [|done]. intros s Hs. by exists s. }
  unfold V3.subjectsHandler.
  case_bool_decide; [by destruct (fails env QListSubjects)|].
  case_bool_decide.
  { destruct (BodyDecodeErr r); [done|]. case_bool_decide; [done|].
    destruct (fails env QInsertSubject) as [e|];
      [by destruct (V3.isUniqueViolation e)|].
    simpl. split; [|done]. intros s Hs. exists s. split; [|done].
    apply elem_of_app. by left. }
  case_bool_decide; [|done].
  destruct (BodyDecodeErr r); [done|].
  destruct (_ || _); [done|].
  destruct (fails env QUpdateSubject) as [e|];
    [by destruct (V3.isUniqueViolation e)|].
  simpl. split; [|done]. intros s Hs.
  eexists. split; [apply list_elem_of_fmap; exists s; split; [reflexivity|done]|].
  by destruct (subject_id s =? BodyID r).
Qed.

(** No request served by the latest backend removes a subject id that an
    application references, nor the reference. *)
Lemma V3_step_keeps_referenced_subjects st st' id :
  V3.step st st' →
  referenced (db st) id →
  (∃ s, s ∈ subjects (db st) ∧ subject_id s = id) →
  referenced (db st') id ∧ ∃ s', s' ∈ subjects (db st') ∧ subject_id s' = id.
Proof.
  intros Hstep Href (s & Hs & Hid).
  assert (Hsame : referenced (db st) id ∧
                  ∃ s', s' ∈ subjects (db st) ∧ subject_id s' = id)
    by (split; [done|by exists s]).
  destruct Hstep as [env r st w|env r st w|env r st w|env r st w|env r st w].
  - unfold V3.corsMiddleware. case_bool_decide; [done|].
    destruct (V3_applyHandler_tables env r st
                (SetHeader "Access-Control-Allow-Methods"
                   "PUT, GET, POST, DELETE, OPTIONS"
                (SetHeader "Access-Control-Allow-Headers" "Content-Type"
                (SetHeader "Access-Control-Allow-Credentials" "true"
                (SetHeader "Access-Control-Allow-Origin" "http://localhost:3000" w)))))
      as (Hsub & added & Hjoin).
    split.
    + destruct Href as [appID Hin]. exists appID. rewrite Hjoin.
      apply elem_of_app. by left.
    + exists s. by rewrite Hsub.
  - unfold V3.corsMiddleware. case_bool_decide; [done|].
    match goal with
    | |- context [V3.subjectsHandler env r st ?w0] =>
        destruct (V3_subjectsHandler_tables env r st w0) as (Hsub & Hjoin)
    end.
    split.
    + destruct Href as [appID Hin]. exists appID. by rewrite Hjoin.
    + destruct (Hsub s Hs) as (s' & Hs' & Hid'). exists s'. split; [done|congruence].
  - unfold V3.authRequired, V3.corsMiddleware. case_bool_decide; [done|].
    destruct (store_Get r) as [values [|]]; [done|].
    destruct (assertString (values !! "role")) as [userRole|]; [|done].
    destruct (_ && _); [done|].
    unfold V3.listApplications. by destruct (fails env QListApplications).
  - unfold V3.authRequired, V3.corsMiddleware. case_bool_decide; [done|].
    destruct (store_Get r) as [values [|]]; [done|].
    destruct (assertString (values !! "role")) as [userRole|]; [|done].
    destruct (_ && _); [done|].
    match goal with
    | |- context [V3.deleteSubjects env r st ?w0] =>
        destruct (V3_deleteSubjects_keeps_referenced env r st w0 s Hs)
          as (Hkeep & Hjoin); [by rewrite Hid|]
    end.
    split.
    + destruct Href as [appID Hin]. exists appID. by rewrite Hjoin.
    + by exists s.
  - unfold V3.corsMiddleware. case_bool_decide; [done|].
    unfold V3.serveFile. case_bool_decide; [done|].
    destruct (URLPath r) as [|c filePath]; [done|].
    destruct filePath as [|c' rest]; [done|]. by destruct (Ascii.eqb c' ".").
Qed.

(** ** Listing applications *)

Lemma insertDesc_perm a l : insertDesc a l ≡ₚ a :: l.
Proof.
  induction l as [|b l IH]; simpl; [done|].
  destruct (created_at b <? created_at a); [done|].
  rewrite IH. apply perm_swap.
Qed.

Lemma orderByCreatedAtDesc_perm l : orderByCreatedAtDesc l ≡ₚ l.
Proof.
  induction l as [|a l IH]; simpl; [done|].
  rewrite insertDesc_perm. by rewrite IH.
Qed.



Lemma elem_of_querySubjectNames d appID n :
  n ∈ querySubjectNames d appID ↔
  ∃ s sid, s ∈ subjects d ∧ (appID, sid) ∈ application_subjects d ∧
           subject_id s = sid ∧ subject_name s = n.
Proof.
  unfold querySubjectNames. rewrite list_elem_of_In, in_flat_map. split.
  - intros (s & Hs & Hn). apply in_flat_map in Hn as ([a sid] & Hj & Hn).
    simpl in Hn.
    destruct (sid =? subject_id s) eqn:E1; [|done].
    destruct (a =? appID) eqn:E2; [|done].
    apply Z.eqb_eq in E1, E2. subst. simpl in Hn. destruct Hn as [<-|[]].
    exists s, (subject_id s). by rewrite !list_elem_of_In.
  - intros (s & sid & Hs & Hj & <- & <-). exists s.
    split; [by apply list_elem_of_In|]. apply in_flat_map.
    exists (appID, subject_id s). split; [by apply list_elem_of_In|].
    simpl. rewrite !Z.eqb_refl. by left.
Qed.

Lemma querySubjectID_Some d n sid :
  querySubjectID d n = Some sid →
  ∃ s, s ∈ subjects d ∧ subject_name s = n ∧ subject_id s = sid.
Proof.
  unfold querySubjectID. destruct (List.find _ _) as [s|] eqn:Hfind; [|done].
  intros [= <-]. apply find_some in Hfind as [Hin Heq].
  exists s. split; [by apply list_elem_of_In|]. split; [|done].
  by apply String.eqb_eq.
Qed.

Lemma querySubjectID_registered d n :
  registered d n → ∃ sid, querySubjectID d n = Some sid.
Proof.
  intros (s & Hs & Hn). unfold querySubjectID.
  destruct (List.find _ _) as [s'|] eqn:Hfind; [by eexists|].
  apply list_elem_of_In in Hs. apply (find_none _ _ Hfind s) in Hs.
  apply String.eqb_neq in Hs. done.
Qed.

Lemma querySubjectID_ext d d' n :
  subjects d = subjects d' → querySubjectID d n = querySubjectID d' n.
Proof. unfold querySubjectID. by intros ->. Qed.

(** The join rows the loop over the submitted names adds when its queries
    are answered: one for every name that is registered. *)
Lemma linkSubjects_rows env appID names d j :
  (∀ n, n ∈ names → fails env (QSelectSubject n) = None) →
  (∀ sid, fails env (QInsertApplicationSubject appID sid) = None) →
  j ∈ application_subjects (linkSubjects env appID d names) ↔
  j ∈ application_subjects d ∨
  ∃ n sid, n ∈ names ∧ querySubjectID d n = Some sid ∧ j = (appID, sid).
Proof.
  unfold linkSubjects. revert d.
  induction names as [|m names IH]; intros d Hsel Hins; simpl.
  - split; [by left|]. intros [?|(n & sid & Hn & _)]; [done|].
    by apply elem_of_nil in Hn.
  - rewrite IH; [|intros n Hn; apply Hsel; by right|done].
    assert (Hsub : subjects (linkSubject env appID d m) = subjects d).
    { apply (subjects_linkSubjects env appID [m] d). }
    assert (Hq : ∀ n, querySubjectID (linkSubject env appID d m) n
                      = querySubjectID d n)
      by (intros n; by apply querySubjectID_ext).
    unfold linkSubject at 1. rewrite (Hsel m) by left.
    destruct (querySubjectID d m) as [sid|] eqn:Hm.
    + rewrite Hins. simpl. rewrite elem_of_app, list_elem_of_singleton.
      split.
      * intros [[?| ->]|(n & sid' & Hn & Hn' & ->)].
        -- by left.
        -- right. exists m, sid. split; [left|done].
        -- right. exists n, sid'. rewrite Hq in Hn'. split; [by right|done].
      * intros [?|(n & sid' & Hn & Hn' & ->)]; [by left; left|].
        apply elem_of_cons in Hn as [-> |Hn].
        -- left. right. congruence.
        -- right. exists n, sid'. by rewrite Hq.
    + split.
      * intros [?|(n & sid' & Hn & Hn' & ->)]; [by left|].
        right. exists n, sid'. rewrite Hq in Hn'. split; [by right|done].
      * intros [?|(n & sid' & Hn & Hn' & ->)]; [by left|].
        apply elem_of_cons in Hn as [-> |Hn]; [congruence|].
        right. exists n, sid'. by rewrite Hq.
Qed.

Lemma subject_id_inj (l : list Subject) s s' :
  NoDup (subject_id <$> l) → s ∈ l → s' ∈ l →
  subject_id s = subject_id s' → s = s'.
Proof.
  induction l as [|x l IH]; simpl; intros Hnd Hs Hs' Heq.
  - by apply elem_of_nil in Hs.
  - apply NoDup_cons in Hnd as [Hx Hnd].
    apply elem_of_cons in Hs as [-> |Hs], Hs' as [-> |Hs'].
    + done.
    + exfalso. apply Hx. rewrite Heq. apply list_elem_of_fmap. by exists s'.
    + exfalso. apply Hx. rewrite <- Heq. apply list_elem_of_fmap. by exists s.
    + by apply IH.
Qed.

(** The subject names the join query returns for an application that the
    intake has just stored: the submitted names that are registered. *)
Lemma V3_intake_subject_names env r st cvPath motivationPath n :
  wellFormed (db st) →
  (∀ m, m ∈ FormValues r "subjects" → fails env (QSelectSubject m) = None) →
  (∀ sid, fails env (QInsertApplicationSubject
                       (applications_id_seq (db st) + 1) sid) = None) →
  n ∈ querySubjectNames
        (linkSubjects env (applications_id_seq (db st) + 1)
           (fst (insertApplication env r (db st) (V3.parseStartDate r)
                   cvPath motivationPath))
           (FormValues r "subjects"))
        (applications_id_seq (db st) + 1) ↔
  n ∈ FormValues r "subjects" ∧ registered (db st) n.
Proof.
  intros (Hnd & _ & Hseq) Hsel Hins.
  set (id := applications_id_seq (db st) + 1).
  set (d1 := fst (insertApplication env r (db st) (V3.parseStartDate r)
                    cvPath motivationPath)).
  assert (Hsub1 : subjects d1 = subjects (db st)) by reflexivity.
  assert (Hjoin1 : application_subjects d1 = application_subjects (db st))
    by reflexivity.
  rewrite elem_of_querySubjectNames. rewrite subjects_linkSubjects, Hsub1.
  split.
  - intros (s & sid & Hs & Hj & Hid & Hname).
    apply linkSubjects_rows in Hj; [|done|done].
    destruct Hj as [Hold|(m & sid' & Hm & Hq & [= ->])].
    + rewrite Hjoin1 in Hold. apply Hseq in Hold. simpl in Hold.
      unfold id in Hold. lia.
    + apply querySubjectID_Some in Hq as (s0 & Hs0 & Hn0 & Hid0).
      rewrite Hsub1 in Hs0.
      assert (s = s0) as -> by (apply (subject_id_inj (subjects (db st)));
                                [done..|congruence]).
      split; [congruence|]. exists s0. split; [done|congruence].
  - intros [Hn Hreg].
    destruct (querySubjectID_registered d1 n) as [sid Hq].
    { destruct Hreg as (s & Hs & Hname). exists s. by rewrite Hsub1. }
    destruct (querySubjectID_Some _ _ _ Hq) as (s0 & Hs0 & Hn0 & Hid0).
    rewrite Hsub1 in Hs0.
    exists s0, sid. split; [done|]. split; [|done].
    apply linkSubjects_rows; [done|done|]. right. by exists n, sid.
Qed.


Lemma wellFormed_sampleDB : wellFormed sampleDB.
Proof.
  split; [|split].
  - apply (bool_decide_unpack _). reflexivity.
  - intros s Hs. simpl in Hs.
    apply elem_of_cons in Hs as [-> |Hs]; [simpl; lia|].
    apply list_elem_of_singleton in Hs as ->. simpl. lia.
  - intros j Hj. apply list_elem_of_singleton in Hj as ->. simpl. lia.
Qed.



(** ** File delivery *)

























(** ** Invariants of the stored state *)

(** What the latest intake leaves in the database: what was there, or the
    new application (with an email that is not empty and was not stored
    before) and its join rows. *)
Lemma V3_applyHandler_db env r st w :
  db (fst (V3.applyHandler env r st w)) = db st ∨
  FormValue r "email" ≠ "" ∧
  queryEmailExists (db st) (FormValue r "email") = false ∧
  ∃ cvPath motivationPath,
    db (fst (V3.applyHandler env r st w)) =
      linkSubjects env (applications_id_seq (db st) + 1)
        (fst (insertApplication env r (db st) (V3.parseStartDate r)
                cvPath motivationPath))
        (FormValues r "subjects").
Proof.
  unfold V3.applyHandler.
  case_bool_decide; [by left|].
  destruct (ParseMultipartFormErr r); [by left|].
  case_bool_decide; [by left|].
  destruct (fails env QEmailExists); [by left|].
  destruct (queryEmailExists _ _) eqn:Hx; [by left|].
  destruct (V3.savePDF env r "cv" (files st)) as [fs1 [cvPath [e|]]]; [by left|].
  destruct (V3.savePDF env r "motivation" fs1) as [fs2 [motivationPath e]].
  destruct (fails env QInsertApplication); [by left|].
  right. split; [done|]. split; [done|]. by exists cvPath, motivationPath.
Qed.

Lemma linkSubjects_rows_fst env appID names : ∀ d j,
  j ∈ application_subjects (linkSubjects env appID d names) →
  j ∈ application_subjects d ∨ fst j = appID.
Proof.
  unfold linkSubjects.
  induction names as [|n names IH]; intros d j; simpl; [by left|].
  intros Hj. apply IH in Hj as [Hj|Hj]; [|by right].
  unfold linkSubject in Hj.
  destruct (fails env (QSelectSubject n)); [by left|].
  destruct (querySubjectID d n) as [sid|]; [|by left].
  destruct (fails env (QInsertApplicationSubject appID sid)); [by left|].
  simpl in Hj. apply elem_of_app in Hj as [Hj|Hj]; [by left|].
  apply list_elem_of_singleton in Hj as ->. by right.
Qed.

Lemma sequences_linkSubjects env appID names d :
  applications_id_seq (linkSubjects env appID d names) = applications_id_seq d ∧
  subjects_id_seq (linkSubjects env appID d names) = subjects_id_seq d.
Proof.
  unfold linkSubjects. revert d.
  induction names as [|n names IH]; intros d; simpl; [done|].
  destruct (IH (linkSubject env appID d n)) as [-> ->]. unfold linkSubject.
  destruct (fails env (QSelectSubject n)); [done|].
  destruct (querySubjectID d n) as [sid|]; [|done].
  by destruct (fails env (QInsertApplicationSubject appID sid)).
Qed.

Lemma V3_applyHandler_wellFormed env r st w :
  wellFormed (db st) → wellFormed (db (fst (V3.applyHandler env r st w))).
Proof.
  intros Hwf.
  destruct (V3_applyHandler_db env r st w)
    as [->|(_ & _ & cvPath & motivationPath & ->)]; [done|].
  destruct Hwf as (Hnd & Hsub & Hjoin).
  destruct (sequences_linkSubjects env (applications_id_seq (db st) + 1)
              (FormValues r "subjects")
              (fst (insertApplication env r (db st) (V3.parseStartDate r)
                      cvPath motivationPath))) as [Hseq1 Hseq2].
  unfold wellFormed. rewrite subjects_linkSubjects, Hseq1, Hseq2. simpl.
  split; [done|]. split; [done|].
  intros j Hj. apply linkSubjects_rows_fst in Hj as [Hj|Hj].
  - apply Hjoin in Hj. lia.
  - lia.
Qed.

Lemma V3_subjectsHandler_wellFormed env r st w :
  wellFormed (db st) → wellFormed (db (fst (V3.subjectsHandler env r st w))).
Proof.
  intros Hwf. unfold V3.subjectsHandler.
  case_bool_decide; [by destruct (fails env QListSubjects)|].
  case_bool_decide.
  { destruct (BodyDecodeErr r); [done|]. case_bool_decide; [done|].
    destruct (fails env QInsertSubject) as [e|];
      [by destruct (V3.isUniqueViolation e)|].
    destruct Hwf as (Hnd & Hsub & Hjoin). simpl.
    split; [|split]; simpl.
    - rewrite fmap_app. simpl. apply NoDup_app. split; [done|].
      split; [|apply NoDup_singleton].
      intros x Hx Hx'. apply list_elem_of_singleton in Hx' as ->.
      apply list_elem_of_fmap in Hx as (s & Hid & Hs). apply Hsub in Hs. lia.
    - intros s [Hs|Hs]%elem_of_app.
      + apply Hsub in Hs. lia.
      + apply list_elem_of_singleton in Hs as ->. simpl. lia.
    - done. }
  case_bool_decide; [|done].
  destruct (BodyDecodeErr r); [done|].
  destruct (_ || _); [done|].
  destruct (fails env QUpdateSubject) as [e|];
    [by destruct (V3.isUniqueViolation e)|].
  destruct Hwf as (Hnd & Hsub & Hjoin). simpl.
  assert (Hids : ∀ l : list Subject,
    subject_id <$>
      ((fun s => if subject_id s =? BodyID r
                 then {| subject_id := subject_id s; subject_name := BodyName r |}
                 else s) <$> l)
    = subject_id <$> l).
  { intros l. rewrite <- list_fmap_compose. apply list_fmap_ext.
    intros i s _. simpl. by destruct (subject_id s =? BodyID r). }
  split; [|split]; simpl.
  - by rewrite Hids.
  - intros s' Hs'. apply list_elem_of_fmap in Hs' as (s & -> & Hs).
    apply Hsub in Hs. by destruct (subject_id s =? BodyID r).
  - done.
Qed.

Lemma V3_deleteSubjects_wellFormed env r st w :
  wellFormed (db st) → wellFormed (db (fst (V3.deleteSubjects env r st w))).
Proof.
  intros Hwf. unfold V3.deleteSubjects.
  case_bool_decide; [done|].
  destruct (BodyDecodeErr r); [done|].
  case_bool_decide; [done|].
  destruct (fails env QSubjectsInUse); [done|].
  destruct (fails env TxBegin); [done|].
  set (deletable := List.filter _ (BodyIDs r)).
  assert (Hdel : wellFormed (execDeleteSubjects (db st) deletable)).
  { destruct Hwf as (Hnd & Hsub & Hjoin). split; [|split]; simpl; [| |done].
    - generalize dependent (subjects (db st)). intros l Hnd _.
      induction l as [|s l IH]; simpl; [constructor|].
      apply NoDup_cons in Hnd as [Hs Hnd].
      destruct (negb _); [|by apply IH].
      simpl. apply NoDup_cons. split; [|by apply IH].
      intros Hin. apply Hs. apply list_elem_of_fmap in Hin as (s' & Hid & Hs').
      apply elem_of_filter_bool in Hs' as [Hs' _].
      apply list_elem_of_fmap. by exists s'.
    - intros s Hs. apply elem_of_filter_bool in Hs as [Hs _]. by apply Hsub. }
  case_bool_decide.
  - destruct (fails env QDeleteSubjects); [done|].
    by destruct (fails env TxCommit).
  - by destruct (fails env TxCommit).
Qed.

(** Whatever the gate decides, the world after comes from the wrapped
    handler or is the world before. *)
Lemma V3_corsMiddleware_world next env r st w :
  fst (V3.corsMiddleware next env r st w) = st ∨
  ∃ w0, fst (V3.corsMiddleware next env r st w) = fst (next env r st w0).
Proof.
  unfold V3.corsMiddleware. case_bool_decide; [by left|]. right. by eexists.
Qed.

Lemma V3_authRequired_world role next env r st w :
  fst (V3.authRequired role next env r st w) = st ∨
  ∃ w0, fst (V3.authRequired role next env r st w) = fst (next env r st w0).
Proof.
  unfold V3.authRequired, V3.corsMiddleware. case_bool_decide; [by left|].
  destruct (store_Get r) as [values [|]]; [by left|].
  destruct (assertString (values !! "role")) as [userRole|]; [|by left].
  destruct (_ && _); [by left|]. right. by eexists.
Qed.

Lemma V3_listApplications_world env r st w :
  fst (V3.listApplications env r st w) = st.
Proof. unfold V3.listApplications. by destruct (fails env QListApplications). Qed.

Lemma V3_serveFile_world env r st w : fst (V3.serveFile env r st w) = st.
Proof.
  unfold V3.serveFile. case_bool_decide; [done|].
  destruct (URLPath r) as [|c [|c' rest]]; [done..|].
  by destruct (Ascii.eqb c' ".").
Qed.

(** Every request served by the latest backend keeps the tables well
    formed. *)
Lemma V3_step_wellFormed st st' :
  V3.step st st' → wellFormed (db st) → wellFormed (db st').
Proof.
  intros Hstep Hwf.
  destruct Hstep as [env r st w|env r st w|env r st w|env r st w|env r st w].
  - destruct (V3_corsMiddleware_world V3.applyHandler env r st w)
      as [->|[w0 ->]]; [done|]. by apply V3_applyHandler_wellFormed.
  - destruct (V3_corsMiddleware_world V3.subjectsHandler env r st w)
      as [->|[w0 ->]]; [done|]. by apply V3_subjectsHandler_wellFormed.
  - destruct (V3_authRequired_world "admin" V3.listApplications env r st w)
      as [->|[w0 ->]]; [done|]. by rewrite V3_listApplications_world.
  - destruct (V3_authRequired_world "admin" V3.deleteSubjects env r st w)
      as [->|[w0 ->]]; [done|]. by apply V3_deleteSubjects_wellFormed.
  - destruct (V3_corsMiddleware_world V3.serveFile env r st w)
      as [->|[w0 ->]]; [done|]. by rewrite V3_serveFile_world.
Qed.

(** Served one after the other, the requests of the latest backend never
    store an empty email nor the same email twice. *)
Lemma V3_step_emails st st' :
  V3.step st st' →
  NoDup (email <$> applications (db st)) ∧
    (∀ a, a ∈ applications (db st) → email a ≠ "") →
  NoDup (email <$> applications (db st')) ∧
    (∀ a, a ∈ applications (db st') → email a ≠ "").
Proof.
  intros Hstep Hinv.
  assert (Happly : ∀ env r w,
    NoDup (email <$> applications (db (fst (V3.applyHandler env r st w)))) ∧
    (∀ a, a ∈ applications (db (fst (V3.applyHandler env r st w))) →
          email a ≠ "")).
  { intros env r w.
    destruct (V3_applyHandler_db env r st w)
      as [->|(Hne & Hfresh & cvPath & motivationPath & ->)]; [done|].
    rewrite applications_linkSubjects. simpl. destruct Hinv as [Hnd Hemails].
    split.
    - rewrite fmap_app. simpl. apply NoDup_app. split; [done|].
      split; [|apply NoDup_singleton].
      intros e He He'. apply list_elem_of_singleton in He' as ->.
      apply list_elem_of_fmap in He as (a & Ha & Hin).
      assert (queryEmailExists (db st) (FormValue r "email") = true)
        by (apply queryEmailExists_true; by exists a).
      congruence.
    - intros a [Ha|Ha]%elem_of_app; [by apply Hemails|].
      by apply list_elem_of_singleton in Ha as ->. }
  assert (Hsubjects : ∀ env r w,
    applications (db (fst (V3.subjectsHandler env r st w)))
    = applications (db st)).
  { intros env r w. unfold V3.subjectsHandler.
    case_bool_decide; [by destruct (fails env QListSubjects)|].
    case_bool_decide.
    { destruct (BodyDecodeErr r); [done|]. case_bool_decide; [done|].
      by destruct (fails env QInsertSubject) as [e|];
        [destruct (V3.isUniqueViolation e)|]. }
    case_bool_decide; [|done].
    destruct (BodyDecodeErr r); [done|].
    destruct (_ || _); [done|].
    by destruct (fails env QUpdateSubject) as [e|];
      [destruct (V3.isUniqueViolation e)|]. }
  assert (Hdelete : ∀ env r w,
    applications (db (fst (V3.deleteSubjects env r st w)))
    = applications (db st)).
  { intros env r w. unfold V3.deleteSubjects.
    case_bool_decide; [done|].
    destruct (BodyDecodeErr r); [done|].
    case_bool_decide; [done|].
    destruct (fails env QSubjectsInUse); [done|].
    destruct (fails env TxBegin); [done|].
    case_bool_decide.
    - destruct (fails env QDeleteSubjects); [done|].
      by destruct (fails env TxCommit).
    - by destruct (fails env TxCommit). }
  destruct Hstep as [env r st w|env r st w|env r st w|env r st w|env r st w].
  - destruct (V3_corsMiddleware_world V3.applyHandler env r st w)
      as [->|[w0 ->]]; [done|]. apply Happly.
  - destruct (V3_corsMiddleware_world V3.subjectsHandler env r st w)
      as [->|[w0 ->]]; [done|]. by rewrite Hsubjects.
  - destruct (V3_authRequired_world "admin" V3.listApplications env r st w)
      as [->|[w0 ->]]; [done|]. by rewrite V3_listApplications_world.
  - destruct (V3_authRequired_world "admin" V3.deleteSubjects env r st w)
      as [->|[w0 ->]]; [done|]. by rewrite Hdelete.
  - destruct (V3_corsMiddleware_world V3.serveFile env r st w)
      as [->|[w0 ->]]; [done|]. by rewrite V3_serveFile_world.
Qed.

(** * Further properties *)

(** ** The gate of version 2 on concrete requests *)

(** X1: the gate of version 2, for a role that is not empty, has three
    outcomes whatever the method of the request, a preflight included: a
    request without a session (no cookie, or one that does not decode) is
    answered 401 and one with a session of another role 403, both
    without running the wrapped handler or touching the world; a session
    of the role runs the wrapped handler. *)
Theorem V2_gate_outcomes (role : string) (next : HandlerFunc) env r st w :
  role ≠ "" →
  Code w = None →
  let out := V2.authRequired role next env r st w in
  (sessionRole r = None →
   status (snd out) = StatusUnauthorized ∧ fst out = st) ∧
  (∀ userRole, sessionRole r = Some userRole → userRole ≠ role →
   status (snd out) = StatusForbidden ∧ fst out = st) ∧
  (sessionRole r = Some role → out = next env r st (V2.enableCORS w)).
Proof.
  intros Hrole Hw out.
  pose proof (V2_authRequired_gate role next env r st w Hrole Hw) as H.
  fold out in H. simpl in H.
  destruct (sessionRole r) as [userRole|].
  - split; [discriminate|]. split.
    + intros ? [= <-] Hne. by rewrite bool_decide_eq_false_2 in H.
    + intros [= ->]. by rewrite bool_decide_eq_true_2 in H.
  - split; [done|]. split; discriminate.
Qed.

Lemma V2_gate_outcomes_witness :
  let gate r :=
    V2.authRequired "admin" markHandler quietEnv r emptyWorld
                    newResponseWriter in
  status (snd (gate preflightRequest)) = StatusUnauthorized ∧
  status (snd (gate (getRequest "/applications" UndecodableCookie)))
    = StatusUnauthorized ∧
  status (snd (gate (getRequest "/applications" userSession)))
    = StatusForbidden ∧
  gate (getRequest "/applications" adminSession) =
    markHandler quietEnv (getRequest "/applications" adminSession) emptyWorld
                (V2.enableCORS newResponseWriter).
Proof.
  intros gate.
  assert (Hadmin : "admin" ≠ "") by discriminate.
  split; [|split; [|split]].
  - destruct (V2_gate_outcomes "admin" markHandler quietEnv preflightRequest
                emptyWorld newResponseWriter Hadmin eq_refl) as (H & _ & _).
    apply H. reflexivity.
  - destruct (V2_gate_outcomes "admin" markHandler quietEnv
                (getRequest "/applications" UndecodableCookie) emptyWorld
                newResponseWriter Hadmin eq_refl) as (H & _ & _).
    apply H. reflexivity.
  - destruct (V2_gate_outcomes "admin" markHandler quietEnv
                (getRequest "/applications" userSession) emptyWorld
                newResponseWriter Hadmin eq_refl) as (_ & H & _).
    apply (H "user"); [reflexivity|discriminate].
  - destruct (V2_gate_outcomes "admin" markHandler quietEnv
                (getRequest "/applications" adminSession) emptyWorld
                newResponseWriter Hadmin eq_refl) as (_ & _ & H).
    apply H. reflexivity.
Defined.

(** ** States reachable by serving requests one after the other *)

(** X2: along any sequence of requests served by the latest backend, a
    subject id that an application references stays in the subjects table,
    and stays referenced. *)
Theorem V3_referenced_subjects_survive st st' id :
  rtc V3.step st st' →
  referenced (db st) id →
  (∃ s, s ∈ subjects (db st) ∧ subject_id s = id) →
  referenced (db st') id ∧ ∃ s', s' ∈ subjects (db st') ∧ subject_id s' = id.
Proof.
  induction 1 as [st|st st1 st' Hstep _ IH]; intros Href Hs.
  - done.
  - destruct (V3_step_keeps_referenced_subjects st st1 id Hstep Href Hs)
      as [Href1 Hs1].
    by apply IH.
Qed.

Lemma V3_referenced_subjects_survive_witness :
  let st1 :=
    fst (V3.authRequired "admin" V3.deleteSubjects quietEnv
           (deleteRequest [7; 8]) sampleWorld newResponseWriter) in
  let st2 :=
    fst (V3.corsMiddleware V3.subjectsHandler quietEnv (renameRequest 7 "ML")
           st1 newResponseWriter) in
  subjects (db st2) = [{| subject_id := 7; subject_name := "ML" |}] ∧
  referenced (db st2) 7 ∧
  ∃ s', s' ∈ subjects (db st2) ∧ subject_id s' = 7.
Proof.
  intros st1 st2. split; [reflexivity|].
  apply (V3_referenced_subjects_survive sampleWorld st2 7).
  - eapply rtc_l; [apply V3.step_subjects_delete|].
    eapply rtc_l; [apply V3.step_subjects|]. apply rtc_refl.
  - exists 1. apply list_elem_of_singleton. reflexivity.
  - exists dataScience. split; [left|reflexivity].
Defined.

Lemma V3_run_invariants st0 st :
  rtc V3.step st0 st →
  (NoDup (email <$> applications (db st0)) ∧
     (∀ a, a ∈ applications (db st0) → email a ≠ "")) ∧
  wellFormed (db st0) →
  (NoDup (email <$> applications (db st)) ∧
     (∀ a, a ∈ applications (db st) → email a ≠ "")) ∧
  wellFormed (db st).
Proof.
  induction 1 as [st0|st0 st1 st2 Hstep _ IH]; [done|].
  intros [Hemails Hwf]. apply IH. split.
  - by apply (V3_step_emails st0 st1).
  - by apply (V3_step_wellFormed st0 st1).
Qed.

(** X3: every state the latest backend reaches from the empty database, by
    requests served one after the other, holds no two applications with
    the same email and none with an empty email; its subject ids are
    unique and none of its ids is ahead of its sequence. *)
Theorem V3_reachable_invariants st :
  rtc V3.step emptyWorld st →
  NoDup (email <$> applications (db st)) ∧
  (∀ a, a ∈ applications (db st) → email a ≠ "") ∧
  wellFormed (db st).
Proof.
  intros Hrun.
  destruct (V3_run_invariants emptyWorld st Hrun) as [[Hnd Hne] Hwf]; [|done].
  split; [split|].
  - constructor.
  - intros a Ha. by apply elem_of_nil in Ha.
  - split; [constructor|]. split; intros x Hx; by apply elem_of_nil in Hx.
Qed.

Lemma V3_reachable_invariants_witness :
  let r := applyRequest "new@x.org" "12345678" "" []
                        (Some (pdf "cv.pdf")) None in
  let st1 :=
    fst (V3.corsMiddleware V3.applyHandler quietEnv r emptyWorld
           newResponseWriter) in
  let st2 :=
    fst (V3.corsMiddleware V3.applyHandler quietEnv r st1 newResponseWriter) in
  email <$> applications (db st2) = ["new@x.org"] ∧
  NoDup (email <$> applications (db st2)) ∧
  (∀ a, a ∈ applications (db st2) → email a ≠ "") ∧
  wellFormed (db st2).
Proof.
  intros r st1 st2. split; [reflexivity|].
  apply V3_reachable_invariants.
  eapply rtc_l; [apply V3.step_apply|].
  eapply rtc_l; [apply V3.step_apply|]. apply rtc_refl.
Defined.

(** ** What a refused intake leaves behind *)

Lemma V3_savePDF_keeps_files env r field fs p :
  is_Some (fs !! p) → is_Some (fst (V3.savePDF env r field fs) !! p).
Proof.
  intros Hp. unfold V3.savePDF.
  destruct (FormFile r field) as [header|]; [|done].
  destruct (fails env (FsMkdirAll field)); [done|].
  destruct (fails env (FsCreate field)); [done|].
  destruct (fails env (FsCopy field)); simpl;
    (destruct (decide (uploadPath env field header = p)) as [->|Hne];
     [rewrite lookup_insert_eq; by eexists|by rewrite lookup_insert_ne]).
Qed.

(** X4: unless the latest intake answers 201 it leaves the database as it
    was. The upload directory is another matter: when the INSERT fails
    after the cv has been saved, the answer is 500 and the saved file
    stays. *)
Theorem V3_intake_refusal env r st w :
  Code w = None →
  let out := V3.applyHandler env r st w in
  (status (snd out) ≠ StatusCreated → db (fst out) = db st) ∧
  (∀ header e,
     Method r = MethodPost →
     ParseMultipartFormErr r = None →
     FormValue r "email" ≠ "" →
     fails env QEmailExists = None →
     queryEmailExists (db st) (FormValue r "email") = false →
     FormFile r "cv" = Some header →
     fails env (FsMkdirAll "cv") = None →
     fails env (FsCreate "cv") = None →
     fails env (FsCopy "cv") = None →
     fails env QInsertApplication = Some e →
     status (snd out) = StatusInternalServerError ∧
     db (fst out) = db st ∧
     is_Some (files (fst out) !! uploadPath env "cv" header)).
Proof.
  intros Hw out. subst out. split.
  - unfold V3.applyHandler.
    case_bool_decide; [done|].
    destruct (ParseMultipartFormErr r); [done|].
    case_bool_decide; [done|].
    destruct (fails env QEmailExists); [done|].
    destruct (queryEmailExists _ _); [done|].
    destruct (V3.savePDF env r "cv" (files st)) as [fs1 [cvPath [e|]]]; [done|].
    destruct (V3.savePDF env r "motivation" fs1) as [fs2 [motivationPath e]].
    destruct (fails env QInsertApplication); [done|].
    simpl. intros Hne. exfalso. apply Hne. by apply status_respondJSON.
  - intros header e Hm Hp He Hq Hx Hcv Hmk Hcr Hcp Hins.
    unfold V3.applyHandler.
    rewrite bool_decide_eq_false_2 by (intros H; by apply H).
    rewrite Hp. rewrite bool_decide_eq_false_2 by done.
    rewrite Hq, Hx.
    rewrite (V3_savePDF_saved env r "cv" _ header Hcv Hmk Hcr Hcp).
    pose proof (V3_savePDF_keeps_files env r "motivation"
                  (<[uploadPath env "cv" header := Content header]> (files st))
                  (uploadPath env "cv" header)) as Hkeep.
    destruct (V3.savePDF env r "motivation" _) as [fs2 [motivationPath e']].
    rewrite Hins. simpl.
    split; [by apply status_http_Error|]. split; [done|].
    apply Hkeep. rewrite lookup_insert_eq. by eexists.
Qed.

Lemma V3_intake_refusal_witness :
  let r := applyRequest "new@x.org" "12345678" "" ["Data Science"]
                        (Some (pdf "cv.pdf")) None in
  let out := V3.applyHandler insertFailsEnv r sampleWorld newResponseWriter in
  status (snd out) = StatusInternalServerError ∧
  db (fst out) = sampleDB ∧
  files sampleWorld !! "uploads/1700000000000000000_cv.pdf" = None ∧
  is_Some (files (fst out) !! "uploads/1700000000000000000_cv.pdf").
Proof.
  intros r out.
  destruct (V3_intake_refusal insertFailsEnv r sampleWorld newResponseWriter
              eq_refl) as [_ Hleak].
  destruct (Hleak (pdf "cv.pdf") "pq: connection reset") as (Hs & Hdb & Hfile);
    [reflexivity|reflexivity|discriminate|reflexivity..|].
  split; [exact Hs|]. split; [exact Hdb|]. split; [reflexivity|exact Hfile].
Defined.

(** ** The start date, from the intake to the listing *)

Lemma isDigit_In c : isDigit c = true → In c digitChars.
Proof.
  intros H. destruct c as [[] [] [] [] [] [] [] []];
    try discriminate H; vm_compute; auto 11.
Qed.

Lemma pad2_digits a b :
  In a digitChars → In b digitChars →
  pad2 (10 * digit a + digit b) = String a (String b "").
Proof.
  assert (Hall :
    forallb (fun a => forallb (fun b =>
      String.eqb (pad2 (10 * digit a + digit b)) (String a (String b "")))
      digitChars) digitChars = true) by (vm_compute; reflexivity).
  intros Ha Hb.
  rewrite forallb_forall in Hall. specialize (Hall a Ha).
  rewrite forallb_forall in Hall. specialize (Hall b Hb).
  by apply String.eqb_eq.
Qed.

Lemma pad4_digits a b c d :
  In a digitChars → In b digitChars → In c digitChars → In d digitChars →
  pad4 (1000 * digit a + 100 * digit b + 10 * digit c + digit d) =
  String a (String b (String c (String d ""))).
Proof.
  assert (Hall :
    forallb (fun a => forallb (fun b => forallb (fun c => forallb (fun d =>
      String.eqb
        (pad4 (1000 * digit a + 100 * digit b + 10 * digit c + digit d))
        (String a (String b (String c (String d "")))))
      digitChars) digitChars) digitChars) digitChars = true)
    by (vm_compute; reflexivity).
  intros Ha Hb Hc Hd.
  rewrite forallb_forall in Hall. specialize (Hall a Ha).
  rewrite forallb_forall in Hall. specialize (Hall b Hb).
  rewrite forallb_forall in Hall. specialize (Hall c Hc).
  rewrite forallb_forall in Hall. specialize (Hall d Hd).
  by apply String.eqb_eq.
Qed.

(** Formatting the day [time.Parse] read gives back the text it read. *)
Lemma time_Parse_formatDate v d : time_Parse v = Some d → formatDate d = v.
Proof.
  unfold time_Parse. intros H.
  rewrite <- (string_of_list_ascii_of_string v).
  destruct (list_ascii_of_string v)
    as [|y1 [|y2 [|y3 [|y4 [|d1 [|m1 [|m2 [|d2 [|a1 [|a2 [|x l]]]]]]]]]]];
    try discriminate H.
  match type of H with
  | (if ?c then _ else _) = _ => destruct c eqn:Hc; [|discriminate H]
  end.
  match type of H with
  | (if ?c then _ else _) = _ => destruct c; [|discriminate H]
  end.
  injection H as <-.
  do 9 (apply andb_true_iff in Hc as [Hc ?]).
  repeat match goal with
         | Hd : isDigit _ = true |- _ => apply isDigit_In in Hd
         | He : Ascii.eqb _ _ = true |- _ => apply Ascii.eqb_eq in He; subst
         end.
  unfold formatDate. cbn [year month day].
  rewrite pad4_digits, !pad2_digits by assumption. reflexivity.
Qed.

(** X5: the start date of an accepted submission is listed back as it was
    submitted when it is a calendar day written as YYYY-MM-DD, and as
    absent otherwise. *)
Theorem V3_start_date_round_trip env r st w envL rL wL :
  Code w = None →
  status (snd (V3.applyHandler env r st w)) = StatusCreated →
  Code wL = None →
  fails envL QListApplications = None →
  let v := FormValue r "early_start_date" in
  let st' := fst (V3.applyHandler env r st w) in
  ∃ result resp,
    Written (snd (V3.listApplications envL rL st' wL)) =
      Written wL ++ [BApplications result] ∧
    resp ∈ result ∧
    ID resp = applications_id_seq (db st) + 1 ∧
    StartDate resp = (fun _ => v) <$> time_Parse v.
Proof.
  intros Hw Hcreated HwL HqL v st'.
  destruct (V3_applyHandler_created_inv env r st w Hw Hcreated)
    as (cvPath & motivationPath & fs2 & _ & _ & Heq).
  subst st'. rewrite Heq. simpl.
  set (id := applications_id_seq (db st) + 1).
  set (d' := linkSubjects env id _ _).
  set (a := newApplication env r id (V3.parseStartDate r) cvPath motivationPath).
  assert (Ha : a ∈ orderByCreatedAtDesc (applications d')).
  { rewrite orderByCreatedAtDesc_perm. unfold d'.
    rewrite applications_linkSubjects. simpl. apply elem_of_app. right.
    by apply list_elem_of_singleton. }
  unfold V3.listApplications. rewrite HqL. simpl.
  eexists. exists (V3.toResponse envL a (V3.subjectsOf envL d' a)).
  split.
  { unfold V3.respondJSON, Write, WriteHeader; simpl. rewrite HwL. reflexivity. }
  split.
  { apply list_elem_of_fmap. by exists a. }
  split; [reflexivity|]. subst a v. simpl. unfold V3.parseStartDate.
  case_bool_decide as Hv.
  - destruct (time_Parse (FormValue r "early_start_date")) as [d|] eqn:Hparse;
      [|done].
    simpl. by rewrite (time_Parse_formatDate (FormValue r "early_start_date") d).
  - rewrite Hv. reflexivity.
Qed.

Lemma V3_start_date_round_trip_witness :
  let list startDate :=
    StartDate <$>
      match Written (snd (V3.listApplications quietEnv
               (getRequest "/applications" adminSession)
               (fst (V3.applyHandler quietEnv
                       (applyRequest "new@x.org" "12345678" startDate []
                                     (Some (pdf "cv.pdf")) None)
                       emptyWorld newResponseWriter))
               newResponseWriter)) with
      | [BApplications result] => result
      | _ => []
      end in
  list "2024-02-29" = [Some "2024-02-29"] ∧
  list "2023-02-29" = [None] ∧
  ∃ result resp,
    Written (snd (V3.listApplications quietEnv
               (getRequest "/applications" adminSession)
               (fst (V3.applyHandler quietEnv
                       (applyRequest "new@x.org" "12345678" "2024-02-29" []
                                     (Some (pdf "cv.pdf")) None)
                       emptyWorld newResponseWriter))
               newResponseWriter)) = [BApplications result] ∧
    resp ∈ result ∧ ID resp = 1 ∧ StartDate resp = Some "2024-02-29".
Proof.
  intros list. split; [reflexivity|]. split; [reflexivity|].
  apply (V3_start_date_round_trip quietEnv
           (applyRequest "new@x.org" "12345678" "2024-02-29" []
                         (Some (pdf "cv.pdf")) None)
           emptyWorld newResponseWriter quietEnv
           (getRequest "/applications" adminSession) newResponseWriter);
    reflexivity.
Defined.

(** ** Version 2: what its intake and its batch delete do *)

(** X6: the batch delete of version 2, when its two statements succeed,
    removes every subject whose id is requested, referenced or not,
    together with every join row that points to one; the applications
    that were linked to it lose the link. *)
Theorem V2_deleteSubjects_removes_all env r st w :
  Code w = None →
  Method r = MethodDelete →
  BodyIDs r ≠ [] →
  fails env QDeleteApplicationSubjects = None →
  fails env QDeleteSubjects = None →
  let out := V2.deleteSubjects env r st w in
  status (snd out) = StatusOK ∧
  Written (snd out) = Written w ++ [BSuccess] ∧
  (∀ s, s ∈ subjects (db (fst out)) ↔
        s ∈ subjects (db st) ∧ subject_id s ∉ BodyIDs r) ∧
  (∀ j, j ∈ application_subjects (db (fst out)) ↔
        j ∈ application_subjects (db st) ∧ snd j ∉ BodyIDs r) ∧
  applications (db (fst out)) = applications (db st) ∧
  (∀ appID n, n ∈ querySubjectNames (db (fst out)) appID →
     ∃ s, s ∈ subjects (db st) ∧ (subject_id s ∉ BodyIDs r) ∧
          (appID, subject_id s) ∈ application_subjects (db st) ∧
          subject_name s = n).
Proof.
  intros Hw Hm Hids H1 H2 out. subst out. unfold V2.deleteSubjects.
  rewrite bool_decide_eq_false_2 by (rewrite Hm; discriminate).
  rewrite bool_decide_eq_false_2 by (intros E; by apply E).
  rewrite bool_decide_eq_false_2 by (destruct (BodyIDs r); [done|discriminate]).
  rewrite H1, H2. simpl.
  assert (Hsub : ∀ s,
    s ∈ List.filter (fun s => negb (bool_decide (subject_id s ∈ BodyIDs r)))
          (subjects (db st)) ↔
    s ∈ subjects (db st) ∧ subject_id s ∉ BodyIDs r).
  { intros s. by rewrite elem_of_filter_bool, negb_true_iff, bool_decide_eq_false. }
  split.
  { unfold status, Write, WriteHeader; simpl. by rewrite Hw. }
  split.
  { unfold Write, WriteHeader; simpl. by rewrite Hw. }
  split; [exact Hsub|]. split.
  { intros j. by rewrite elem_of_filter_bool, negb_true_iff, bool_decide_eq_false. }
  split; [done|].
  intros appID n Hn.
  apply elem_of_querySubjectNames in Hn as (s & sid & Hs & Hj & <- & Hname).
  simpl in Hs, Hj. apply Hsub in Hs as [Hs Hnot].
  apply elem_of_filter_bool in Hj as [Hj _].
  by exists s.
Qed.

Lemma V2_deleteSubjects_removes_all_witness :
  let out :=
    V2.deleteSubjects quietEnv (deleteRequest [7]) sampleWorld
                      newResponseWriter in
  referenced sampleDB 7 ∧
  status (snd out) = StatusOK ∧
  subjects (db (fst out)) = [webDev] ∧
  application_subjects (db (fst out)) = [] ∧
  ∀ s, s ∈ subjects (db (fst out)) ↔
       s ∈ subjects sampleDB ∧ subject_id s ∉ [7].
Proof.
  intros out.
  destruct (V2_deleteSubjects_removes_all quietEnv (deleteRequest [7])
              sampleWorld newResponseWriter)
    as (Hs & _ & Hsub & _); [reflexivity|reflexivity|discriminate|reflexivity..|].
  split; [exists 1; apply list_elem_of_singleton; reflexivity|].
  split; [exact Hs|]. split; [reflexivity|]. split; [reflexivity|exact Hsub].
Defined.

(** X7: the intake of version 2 stores an application whenever the INSERT
    succeeds and the duplicate check does not fire, which is also the
    case when the existence query itself fails, and answers 200. It
    stores it without a cv (empty path) when the form holds none, and with
    the zero time as start date when the date does not parse. *)
Theorem V2_intake_stores env r st w :
  Code w = None →
  Method r = MethodPost →
  fails env QEmailExists ≠ None ∨
    queryEmailExists (db st) (FormValue r "email") = false →
  fails env QInsertApplication = None →
  let out := V2.applyHandler env r st w in
  let v := FormValue r "early_start_date" in
  status (snd out) = StatusOK ∧
  ∃ a, applications (db (fst out)) = applications (db st) ++ [a] ∧
       app_id a = applications_id_seq (db st) + 1 ∧
       email a = FormValue r "email" ∧
       cv_file_path a =
         match FormFile r "cv" with
         | Some header => uploadPath env "cv" header
         | None => ""
         end ∧
       start_date a =
         if bool_decide (v = "") then None
         else Some (default zeroTime (time_Parse v)).
Proof.
  intros Hw Hm Hdup Hins out v. subst out v. unfold V2.applyHandler.
  rewrite bool_decide_eq_false_2 by (intros E; by apply E).
  assert (Hx : match fails env QEmailExists with
               | Some _ => false
               | None => queryEmailExists (db st) (FormValue r "email")
               end = false).
  { destruct (fails env QEmailExists); [done|]. by destruct Hdup. }
  rewrite Hx.
  assert (Hcv : ∀ fs, snd (V2.savePDF env r "cv" fs) =
                      (match FormFile r "cv" with
                       | Some header => uploadPath env "cv" header
                       | None => ""
                       end, snd (snd (V2.savePDF env r "cv" fs)))).
  { intros fs. unfold V2.savePDF. destruct (FormFile r "cv"); [|done].
    destruct (fails env (FsCreate "cv")); [done|].
    by destruct (fails env (FsCopy "cv")). }
  specialize (Hcv (files st)).
  destruct (V2.savePDF env r "cv" (files st)) as [fs1 [cvPath e1]].
  simpl in Hcv. injection Hcv as ->.
  destruct (V2.savePDF env r "motivation" fs1) as [fs2 [motivationPath e2]].
  rewrite Hins. simpl. split.
  { unfold status, Write, WriteHeader; simpl. by rewrite Hw. }
  eexists. rewrite applications_linkSubjects. simpl.
  split; [reflexivity|]. simpl. split; [done|]. split; [done|]. split; [done|].
  unfold V2.parseStartDate.
  destruct (decide (FormValue r "early_start_date" = "")) as [Hv|Hv].
  - rewrite bool_decide_eq_false_2 by (intros E; by apply E).
    by rewrite bool_decide_eq_true_2.
  - rewrite bool_decide_eq_true_2 by done.
    by rewrite bool_decide_eq_false_2.
Qed.

Lemma V2_intake_stores_witness :
  let r := applyRequest "a@b.com" "1" "next week" [] None None in
  let env :=
    {| fails := fun op =>
         match op with QEmailExists => Some "pq: timeout" | _ => None end;
       UnixNano := fun _ => 0; db_now := 0; format_created := itoa |} in
  let out := V2.applyHandler env r sampleWorld newResponseWriter in
  queryEmailExists sampleDB "a@b.com" = true ∧
  status (snd out) = StatusOK ∧
  ∃ a, applications (db (fst out)) = [storedApplication; a] ∧
       app_id a = 2 ∧ email a = "a@b.com" ∧ cv_file_path a = "" ∧
       start_date a = Some zeroTime.
Proof.
  intros r env out. split; [reflexivity|].
  apply (V2_intake_stores env r sampleWorld newResponseWriter);
    [reflexivity|reflexivity|left; discriminate|reflexivity].
Defined.

(** ** The batch delete of the latest backend is all or nothing *)

(** X8: whatever the database answers, the latest batch delete changes the
    world only when it answers 200; and a subject row disappears only if
    its id was requested, no application references it and the answer is
    200. *)
Theorem V3_deleteSubjects_all_or_nothing env r st w :
  Code w = None →
  let out := V3.deleteSubjects env r st w in
  (status (snd out) ≠ StatusOK → fst out = st) ∧
  (∀ s, s ∈ subjects (db st) → s ∉ subjects (db (fst out)) →
        subject_id s ∈ BodyIDs r ∧ ¬ referenced (db st) (subject_id s) ∧
        status (snd out) = StatusOK).
Proof.
  intros Hw out. subst out. unfold V3.deleteSubjects, V3.respondError.
  assert (Herr : ∀ message code,
    code ≠ StatusOK → status (http_Error w message code) ≠ StatusOK)
    by (intros message code Hc; by rewrite status_http_Error).
  case_bool_decide; [split; [done|intros ? ? Hn; by destruct Hn]|].
  destruct (BodyDecodeErr r); [split; [done|intros ? ? Hn; by destruct Hn]|].
  case_bool_decide; [split; [done|intros ? ? Hn; by destruct Hn]|].
  destruct (fails env QSubjectsInUse);
    [split; [done|intros ? ? Hn; by destruct Hn]|].
  destruct (fails env TxBegin);
    [split; [done|intros ? ? Hn; by destruct Hn]|].
  set (rows := querySubjectsInUse (db st) (BodyIDs r)).
  set (deletable := List.filter _ (BodyIDs r)).
  assert (Hdel : ∀ id, id ∈ deletable ↔ id ∈ BodyIDs r ∧ ¬ referenced (db st) id).
  { intros id. unfold deletable. rewrite elem_of_filter_bool.
    rewrite inUseAt_markInUse, negb_true_iff, bool_decide_eq_false.
    unfold rows. rewrite querySubjectsInUse_spec. tauto. }
  assert (Hgone : ∀ s, s ∈ subjects (db st) →
            s ∉ subjects (execDeleteSubjects (db st) deletable) →
            subject_id s ∈ BodyIDs r ∧ ¬ referenced (db st) (subject_id s)).
  { intros s Hs Hn. apply Hdel.
    destruct (decide (subject_id s ∈ deletable)) as [?|Hnd]; [done|].
    exfalso. apply Hn. unfold execDeleteSubjects; simpl.
    rewrite elem_of_filter_bool, negb_true_iff, bool_decide_eq_false. done. }
  case_bool_decide.
  - destruct (fails env QDeleteSubjects);
      [split; [done|intros ? ? Hn; by destruct Hn]|].
    destruct (fails env TxCommit);
      [split; [done|intros ? ? Hn; by destruct Hn]|].
    simpl. split.
    + intros Hne. exfalso. apply Hne. by apply status_respondJSON.
    + intros s Hs Hn. destruct (Hgone s Hs Hn) as [? ?].
      split; [done|]. split; [done|]. by apply status_respondJSON.
  - destruct (fails env TxCommit);
      [split; [done|intros ? ? Hn; by destruct Hn]|].
    simpl. split.
    + intros Hne. exfalso. apply Hne. by apply status_respondJSON.
    + intros s Hs Hn. by destruct Hn.
Qed.

Lemma V3_deleteSubjects_all_or_nothing_witness :
  let out :=
    V3.deleteSubjects commitFailsEnv (deleteRequest [8]) sampleWorld
                      newResponseWriter in
  ¬ referenced sampleDB 8 ∧
  status (snd out) = StatusInternalServerError ∧
  fst out = sampleWorld.
Proof.
  intros out.
  destruct (V3_deleteSubjects_all_or_nothing commitFailsEnv (deleteRequest [8])
              sampleWorld newResponseWriter eq_refl) as [Hkeep _].
  split.
  { intros [appID Hin]. apply list_elem_of_singleton in Hin. discriminate Hin. }
  split; [reflexivity|]. apply Hkeep. discriminate.
Defined.

(** ** The subjects registry *)

(** X9: a subject created through the registry gets an id no subject has, and
    an intake accepted afterwards that names it is linked to it: the join
    query finds the name for the new application. *)
Theorem V3_created_subject_is_linked env r st w env' r' w' :
  Code w = None →
  wellFormed (db st) →
  Method r = MethodPost →
  BodyDecodeErr r = false →
  BodyName r ≠ "" →
  fails env QInsertSubject = None →
  let st1 := fst (V3.subjectsHandler env r st w) in
  status (snd (V3.subjectsHandler env r st w)) = StatusCreated ∧
  subjects (db st1) =
    subjects (db st) ++
    [{| subject_id := subjects_id_seq (db st) + 1; subject_name := BodyName r |}] ∧
  (∀ s, s ∈ subjects (db st) → subject_id s ≠ subjects_id_seq (db st) + 1) ∧
  (Code w' = None →
   BodyName r ∈ FormValues r' "subjects" →
   (∀ m, m ∈ FormValues r' "subjects" → fails env' (QSelectSubject m) = None) →
   (∀ sid, fails env' (QInsertApplicationSubject
                         (applications_id_seq (db st) + 1) sid) = None) →
   status (snd (V3.applyHandler env' r' st1 w')) = StatusCreated →
   BodyName r ∈
     querySubjectNames (db (fst (V3.applyHandler env' r' st1 w')))
                       (applications_id_seq (db st) + 1)).
Proof.
  intros Hw Hwf Hm Hd Hn Hins st1.
  assert (Hout : V3.subjectsHandler env r st w =
                 (setDB st (execInsertSubject (db st) (BodyName r)),
                  V3.respondJSON w BSuccess StatusCreated)).
  { unfold V3.subjectsHandler.
    rewrite bool_decide_eq_false_2 by (rewrite Hm; discriminate).
    rewrite bool_decide_eq_true_2 by done.
    rewrite Hd. rewrite bool_decide_eq_false_2 by done. by rewrite Hins. }
  assert (Hwf1 : wellFormed (db st1))
    by (by apply V3_subjectsHandler_wellFormed).
  subst st1. rewrite Hout in *. simpl in *.
  split; [by apply status_respondJSON|]. split; [done|]. split.
  { intros s Hs. destruct Hwf as (_ & Hseq & _). apply Hseq in Hs. lia. }
  intros Hw' Hin Hsel Hlink Hcreated.
  destruct (V3_applyHandler_created_inv env' r' _ w' Hw' Hcreated)
    as (cvPath & motivationPath & fs2 & _ & _ & Heq).
  rewrite Heq. simpl.
  pose proof (V3_intake_subject_names env' r'
                (setDB st (execInsertSubject (db st) (BodyName r)))
                cvPath motivationPath (BodyName r) Hwf1 Hsel Hlink) as Hiff.
  apply Hiff.
  split; [done|].
  exists {| subject_id := subjects_id_seq (db st) + 1;
            subject_name := BodyName r |}.
  split; [|reflexivity].
  simpl. apply elem_of_app. right. by apply list_elem_of_singleton.
Qed.

Lemma V3_created_subject_is_linked_witness :
  let st1 :=
    fst (V3.subjectsHandler quietEnv (createSubjectRequest "Robotics")
           sampleWorld newResponseWriter) in
  let r' := applyRequest "new@x.org" "12345678" "" ["Robotics"]
                         (Some (pdf "cv.pdf")) None in
  subjects (db st1) =
    [dataScience; webDev; {| subject_id := 9; subject_name := "Robotics" |}] ∧
  "Robotics" ∈
    querySubjectNames
      (db (fst (V3.applyHandler quietEnv r' st1 newResponseWriter))) 2.
Proof.
  intros st1 r'.
  destruct (V3_created_subject_is_linked quietEnv
              (createSubjectRequest "Robotics") sampleWorld newResponseWriter
              quietEnv r' newResponseWriter eq_refl wellFormed_sampleDB
              eq_refl eq_refl) as (_ & Hsub & _ & Hlink);
    [discriminate|reflexivity|].
  split; [exact Hsub|].
  apply Hlink; try reflexivity. left.
Defined.

Lemma execUpdateSubject_missing d name id :
  (∀ s, s ∈ subjects d → subject_id s ≠ id) →
  execUpdateSubject d name id = d.
Proof.
  destruct d as [apps subs joins seq1 seq2]. unfold execUpdateSubject; simpl.
  intros Hmissing. f_equal.
  induction subs as [|s subs IH]; [done|].
  rewrite fmap_cons, IH by (intros s' Hs'; apply Hmissing; by right).
  assert (subject_id s ≠ id) as Hne by (apply Hmissing; left).
  apply Z.eqb_neq in Hne. by rewrite Hne.
Qed.

(** X10: a rename through the registry keeps every subject id, every join row
    and every application, so each application is listed with the same
    subjects under their current names; and renaming an id no subject has
    is answered 200 and changes nothing. *)
Theorem V3_rename_subject env r st w :
  Code w = None →
  Method r = MethodPut →
  BodyDecodeErr r = false →
  BodyID r ≠ 0 →
  BodyName r ≠ "" →
  fails env QUpdateSubject = None →
  let out := V3.subjectsHandler env r st w in
  status (snd out) = StatusOK ∧
  subject_id <$> subjects (db (fst out)) = subject_id <$> subjects (db st) ∧
  application_subjects (db (fst out)) = application_subjects (db st) ∧
  applications (db (fst out)) = applications (db st) ∧
  (∀ appID n,
     n ∈ querySubjectNames (db (fst out)) appID ↔
     ∃ s, s ∈ subjects (db st) ∧
          (appID, subject_id s) ∈ application_subjects (db st) ∧
          n = if subject_id s =? BodyID r then BodyName r else subject_name s) ∧
  ((∀ s, s ∈ subjects (db st) → subject_id s ≠ BodyID r) →
   db (fst out) = db st).
Proof.
  intros Hw Hm Hd Hid Hn Hupd out.
  assert (Hout : V3.subjectsHandler env r st w =
                 (setDB st (execUpdateSubject (db st) (BodyName r) (BodyID r)),
                  V3.respondJSON w BSuccess StatusOK)).
  { unfold V3.subjectsHandler.
    rewrite bool_decide_eq_false_2 by (rewrite Hm; discriminate).
    rewrite bool_decide_eq_false_2 by (rewrite Hm; discriminate).
    rewrite bool_decide_eq_true_2 by done. rewrite Hd.
    rewrite (bool_decide_eq_false_2 (BodyID r = 0)) by done.
    rewrite (bool_decide_eq_false_2 (BodyName r = "")) by done.
    simpl. by rewrite Hupd. }
  subst out. rewrite Hout. simpl.
  set (rename := fun s : Subject =>
         if subject_id s =? BodyID r
         then {| subject_id := subject_id s; subject_name := BodyName r |}
         else s).
  assert (Hids : ∀ s, subject_id (rename s) = subject_id s)
    by (intros s; unfold rename; by destruct (subject_id s =? BodyID r)).
  assert (Hnames : ∀ s, subject_name (rename s) =
            if subject_id s =? BodyID r then BodyName r else subject_name s)
    by (intros s; unfold rename; by destruct (subject_id s =? BodyID r)).
  split; [by apply status_respondJSON|]. split.
  { rewrite <- list_fmap_compose. apply list_fmap_ext. intros i s _. apply Hids. }
  split; [done|]. split; [done|]. split.
  - intros appID n. rewrite elem_of_querySubjectNames. simpl. split.
    + intros (s' & sid & Hs' & Hj & Hsid & Hname).
      apply list_elem_of_fmap in Hs' as (s & Heq & Hs).
      assert (H1 : subject_id s' = subject_id s)
        by (rewrite Heq; apply (Hids s)).
      assert (H2 : subject_name s' =
                   if subject_id s =? BodyID r then BodyName r
                   else subject_name s)
        by (rewrite Heq; apply (Hnames s)).
      exists s. split; [done|]. split; [by rewrite <- H1, Hsid|].
      by rewrite <- Hname, H2.
    + intros (s & Hs & Hj & ->).
      exists (rename s), (subject_id s).
      split; [apply list_elem_of_fmap; by exists s|].
      split; [done|]. by rewrite Hids, Hnames.
  - intros Hmissing. by apply execUpdateSubject_missing.
Qed.

Lemma V3_rename_subject_witness :
  let out :=
    V3.subjectsHandler quietEnv (renameRequest 7 "ML") sampleWorld
                       newResponseWriter in
  let missing :=
    V3.subjectsHandler quietEnv (renameRequest 99 "ML") sampleWorld
                       newResponseWriter in
  status (snd out) = StatusOK ∧
  querySubjectNames sampleDB 1 = ["Data Science"] ∧
  querySubjectNames (db (fst out)) 1 = ["ML"] ∧
  status (snd missing) = StatusOK ∧
  db (fst missing) = sampleDB.
Proof.
  intros out missing.
  destruct (V3_rename_subject quietEnv (renameRequest 99 "ML") sampleWorld
              newResponseWriter eq_refl eq_refl eq_refl)
    as (Hs & _ & _ & _ & _ & Hmissing); [discriminate|discriminate|reflexivity|].
  split; [reflexivity|]. split; [reflexivity|]. split; [reflexivity|].
  split; [exact Hs|]. apply Hmissing.
  intros s Hs'. simpl in Hs'.
  apply elem_of_cons in Hs' as [-> |Hs']; [discriminate|].
  apply list_elem_of_singleton in Hs' as ->. discriminate.
Defined.

(** X11: the registry changes the tables only when it answers 201 to a POST or
    200 to a PUT: a GET, a refusal (400, 405, 409) and a failure (500)
    leave the world as it was. An empty name is refused with 400, and so
    is a rename without id. *)
Theorem V3_subjectsHandler_refusals env r st w :
  Code w = None →
  let out := V3.subjectsHandler env r st w in
  (fst out ≠ st →
     (Method r = MethodPost ∧ status (snd out) = StatusCreated) ∨
     (Method r = MethodPut ∧ status (snd out) = StatusOK)) ∧
  (Method r = MethodPost ∨ Method r = MethodPut →
   BodyDecodeErr r = false →
   BodyName r = "" →
   status (snd out) = StatusBadRequest) ∧
  (Method r = MethodPut → BodyDecodeErr r = false → BodyID r = 0 →
   status (snd out) = StatusBadRequest) ∧
  (Method r ≠ MethodGet → Method r ≠ MethodPost → Method r ≠ MethodPut →
   status (snd out) = StatusMethodNotAllowed).
Proof.
  intros Hw out. subst out. unfold V3.subjectsHandler, V3.respondError.
  split; [|split; [|split]].
  - case_bool_decide; [by destruct (fails env QListSubjects)|].
    case_bool_decide.
    { destruct (BodyDecodeErr r); [done|]. case_bool_decide; [done|].
      destruct (fails env QInsertSubject) as [e|];
        [by destruct (V3.isUniqueViolation e)|].
      intros _. left. split; [done|]. by apply status_respondJSON. }
    case_bool_decide; [|done].
    destruct (BodyDecodeErr r); [done|].
    destruct (_ || _); [done|].
    destruct (fails env QUpdateSubject) as [e|];
      [by destruct (V3.isUniqueViolation e)|].
    intros _. right. split; [done|]. by apply status_respondJSON.
  - intros [Hm|Hm] Hd Hn; rewrite Hm, Hd, Hn; simpl;
      rewrite ?orb_true_r; by apply status_http_Error.
  - intros Hm Hd Hid; rewrite Hm, Hd, Hid; simpl. by apply status_http_Error.
  - intros H1 H2 H3. rewrite !bool_decide_eq_false_2 by done.
    by apply status_http_Error.
Qed.

Lemma V3_subjectsHandler_refusals_witness :
  status (snd (V3.subjectsHandler quietEnv (createSubjectRequest "")
                 sampleWorld newResponseWriter)) = StatusBadRequest ∧
  status (snd (V3.subjectsHandler quietEnv (renameRequest 0 "ML")
                 sampleWorld newResponseWriter)) = StatusBadRequest ∧
  status (snd (V3.subjectsHandler quietEnv (deleteRequest [7])
                 sampleWorld newResponseWriter)) = StatusMethodNotAllowed.
Proof.
  split; [|split].
  - destruct (V3_subjectsHandler_refusals quietEnv (createSubjectRequest "")
                sampleWorld newResponseWriter eq_refl) as (_ & H & _).
    apply H; [by left|reflexivity..].
  - destruct (V3_subjectsHandler_refusals quietEnv (renameRequest 0 "ML")
                sampleWorld newResponseWriter eq_refl) as (_ & _ & H & _).
    apply H; reflexivity.
  - destruct (V3_subjectsHandler_refusals quietEnv (deleteRequest [7])
                sampleWorld newResponseWriter eq_refl) as (_ & _ & _ & H).
    apply H; discriminate.
Defined.

(** ** Version 1: the subjects of an accepted submission *)

Lemma V1_applyHandler_created_inv env r st w :
  Code w = None →
  status (snd (V1.applyHandler env r st w)) = StatusCreated →
  FormValues r "subjects" ≠ [] ∧
  ∃ cvPath motivationPath fs2,
    fst (V1.applyHandler env r st w) =
      {| V1.db :=
           fold_left (V1.insertSubject env (V1.applications_id_seq (V1.db st) + 1))
             (FormValues r "subjects")
             (fst (V1.insertApplication env r (V1.db st) (V1.parseStartDate r)
                     cvPath motivationPath));
         V1.files := fs2 |}.
Proof.
  intros Hw. unfold V1.applyHandler.
  assert (Hcors : Code (V1.enableCORS w) = None) by done.
  case_bool_decide.
  { simpl. unfold status. rewrite Hcors. discriminate. }
  case_bool_decide; [intros E; by apply http_Error_not_created in E|].
  destruct (ParseMultipartFormErr r);
    [intros E; by apply http_Error_not_created in E|].
  case_bool_decide as Hsub; [intros E; by apply http_Error_not_created in E|].
  destruct (V1.savePDF env r "cv" (V1.files st)) as [fs1 [cvPath [e|]]];
    [intros E; by apply http_Error_not_created in E|].
  destruct (V1.savePDF env r "motivation" fs1) as [fs2 [motivationPath e]].
  destruct (fails env QInsertApplication);
    [intros E; by apply http_Error_not_created in E|].
  intros _. split.
  - intros Hnil. apply Hsub. by rewrite Hnil.
  - by exists cvPath, motivationPath, fs2.
Qed.

Lemma V1_insertSubjects_rows env appID names : ∀ d,
  (∀ n, n ∈ names → fails env (QInsertApplicationSubjectName appID n) = None) →
  V1.application_subjects (fold_left (V1.insertSubject env appID) names d) =
  V1.application_subjects d ++ ((fun n => (appID, n)) <$> names).
Proof.
  induction names as [|n names IH]; intros d Hok; simpl.
  - by rewrite app_nil_r.
  - rewrite IH by (intros m Hm; apply Hok; by right).
    unfold V1.insertSubject. rewrite Hok by left. simpl.
    by rewrite <- app_assoc.
Qed.

(** X12: the first backend keeps every subject name of an accepted submission
    as it was submitted: the join rows it adds are the submitted names, in
    order, registered anywhere or not, against the id of the new
    application. *)
Theorem V1_intake_keeps_subject_names env r st w :
  Code w = None →
  status (snd (V1.applyHandler env r st w)) = StatusCreated →
  (∀ n, n ∈ FormValues r "subjects" →
        fails env (QInsertApplicationSubjectName
                     (V1.applications_id_seq (V1.db st) + 1) n) = None) →
  let out := V1.applyHandler env r st w in
  FormValues r "subjects" ≠ [] ∧
  V1.application_subjects (V1.db (fst out)) =
    V1.application_subjects (V1.db st) ++
    ((fun n => (V1.applications_id_seq (V1.db st) + 1, n))
       <$> FormValues r "subjects") ∧
  ∃ a, V1.applications (V1.db (fst out)) = V1.applications (V1.db st) ++ [a] ∧
       app_id a = V1.applications_id_seq (V1.db st) + 1.
Proof.
  intros Hw Hcreated Hok out. subst out.
  destruct (V1_applyHandler_created_inv env r st w Hw Hcreated)
    as (Hsub & cvPath & motivationPath & fs2 & Heq).
  rewrite Heq. simpl. split; [done|]. split.
  - by rewrite V1_insertSubjects_rows.
  - rewrite V1_applications_insertSubjects. simpl. by eexists.
Qed.

Lemma V1_intake_keeps_subject_names_witness :
  let r := applyRequest "new@x.org" "12345678" "" ["Quantum"; "Quantum"; "Web"]
                        (Some (pdf "cv.pdf")) None in
  let out := V1.applyHandler quietEnv r emptyWorldV1 newResponseWriter in
  V1.application_subjects (V1.db (fst out)) =
    [(1, "Quantum"); (1, "Quantum"); (1, "Web")].
Proof.
  intros r out.
  destruct (V1_intake_keeps_subject_names quietEnv r emptyWorldV1
              newResponseWriter eq_refl eq_refl) as (_ & Hrows & _).
  - intros n _. reflexivity.
  - exact Hrows.
Defined.

(** ** The email check of the client form *)

Lemma indexOfFrom_first l c : ∀ i,
  In c l →
  ∃ k : nat, Client.indexOfFrom i l c = i + Z.of_nat k ∧ l !! k = Some c ∧
             ∀ j : nat, (j < k)%nat → l !! j ≠ Some c.
Proof.
  induction l as [|x l IH]; intros i Hin; [done|]. simpl.
  destruct (Ascii.eqb x c) eqn:Hx.
  - apply Ascii.eqb_eq in Hx as ->. exists 0%nat.
    split; [lia|]. split; [done|]. intros j Hj. lia.
  - apply Ascii.eqb_neq in Hx. destruct Hin as [->|Hin]; [done|].
    destruct (IH (i + 1) Hin) as (k & Hk & Hlook & Hmin).
    exists (S k). split; [lia|]. split; [done|].
    intros [|j] Hj; simpl.
    + intros [= ->]. done.
    + apply Hmin. lia.
Qed.

Lemma lastIndexOfFrom_none l c : ∀ i found,
  ¬ In c l → Client.lastIndexOfFrom i l c found = found.
Proof.
  induction l as [|x l IH]; intros i found Hnin; [done|]. simpl.
  destruct (Ascii.eqb x c) eqn:Hx.
  - apply Ascii.eqb_eq in Hx as ->. exfalso. apply Hnin. by left.
  - apply IH. intros Hin. apply Hnin. by right.
Qed.

Lemma lastIndexOfFrom_last l c : ∀ i found,
  In c l →
  ∃ k : nat, Client.lastIndexOfFrom i l c found = i + Z.of_nat k ∧
             l !! k = Some c ∧
             ∀ j : nat, (k < j)%nat → l !! j ≠ Some c.
Proof.
  induction l as [|x l IH]; intros i found Hin; [done|]. simpl.
  destruct (in_dec Ascii.ascii_dec c l) as [Hl|Hl].
  - destruct (IH (i + 1) (if Ascii.eqb x c then i else found) Hl)
      as (k & Hk & Hlook & Hmax).
    exists (S k). split; [lia|]. split; [done|].
    intros [|j] Hj; [lia|]. simpl. apply Hmax. lia.
  - destruct Hin as [->|Hin]; [|done].
    rewrite Ascii.eqb_refl. rewrite lastIndexOfFrom_none by done.
    exists 0%nat. split; [lia|]. split; [done|].
    intros [|j] Hj; [lia|]. simpl. intros Hj'.
    apply Hl. apply list_elem_of_In. by apply list_elem_of_lookup_2 in Hj'.
Qed.

Lemma includes_In s c :
  Client.includes s c = true ↔ In c (list_ascii_of_string s).
Proof.
  unfold Client.includes. rewrite existsb_exists. split.
  - intros (x & Hin & Heq). apply Ascii.eqb_eq in Heq. by subst.
  - intros Hin. exists c. split; [done|]. apply Ascii.eqb_refl.
Qed.

(** The emails that pass the check: those with an at sign somewhere
    before a dot. *)
Lemma Client_email_check s :
  negb (Client.includes s "@") || negb (Client.includes s ".")
    || (Client.lastIndexOf s "." <? Client.indexOf s "@") = false ↔
  ∃ pre mid post,
    list_ascii_of_string s = pre ++ "@"%char :: mid ++ "."%char :: post.
Proof.
  set (l := list_ascii_of_string s).
  rewrite !orb_false_iff, !negb_false_iff, !includes_In, Z.ltb_ge.
  fold l. unfold Client.indexOf, Client.lastIndexOf. fold l. split.
  - intros [[Hat Hdot] Hle].
    destruct (indexOfFrom_first l "@" 0 Hat) as (k1 & Hk1 & Hl1 & _).
    destruct (lastIndexOfFrom_last l "." 0 (-1) Hdot) as (k2 & Hk2 & Hl2 & _).
    assert (k1 < k2)%nat as Hlt.
    { destruct (decide (k1 = k2)) as [->|Hne]; [|lia]. congruence. }
    exists (take k1 l), (take (k2 - S k1) (drop (S k1) l)), (drop (S k2) l).
    rewrite <- (take_drop_middle l k1 "@"%char Hl1) at 1. f_equal. f_equal.
    assert (Hl2' : drop (S k1) l !! (k2 - S k1)%nat = Some "."%char).
    { rewrite lookup_drop. by replace (S k1 + (k2 - S k1))%nat with k2 by lia. }
    rewrite <- (take_drop_middle _ _ _ Hl2') at 1. f_equal. f_equal.
    rewrite drop_drop. f_equal. lia.
  - intros (pre & mid & post & Hl).
    assert (Hat : In "@"%char l)
      by (rewrite Hl; apply in_or_app; right; by left).
    assert (Hdot : In "."%char l).
    { rewrite Hl. apply in_or_app. right. right. apply in_or_app. right. by left. }
    split; [done|].
    destruct (indexOfFrom_first l "@" 0 Hat) as (k1 & Hk1 & _ & Hmin).
    destruct (lastIndexOfFrom_last l "." 0 (-1) Hdot) as (k2 & Hk2 & _ & Hmax).
    assert (Hpre : l !! length pre = Some "@"%char)
      by (rewrite Hl; by apply list_lookup_middle).
    assert (Hmid : l !! (length pre + S (length mid))%nat = Some "."%char).
    { rewrite Hl. rewrite lookup_app_r by lia.
      replace (length pre + S (length mid) - length pre)%nat
        with (S (length mid)) by lia.
      simpl. by apply list_lookup_middle. }
    assert (k1 ≤ length pre)%nat.
    { destruct (decide (k1 ≤ length pre)%nat); [done|].
      exfalso. apply (Hmin (length pre)); [lia|done]. }
    assert (length pre + S (length mid) ≤ k2)%nat.
    { destruct (decide (length pre + S (length mid) ≤ k2)%nat); [done|].
      exfalso. apply (Hmax (length pre + S (length mid))%nat); [lia|done]. }
    lia.
Qed.

(** X13: once the phone has passed, the client form shows the email alert
    exactly for the emails that do not hold an at sign followed, at any
    distance, by a dot. *)
Theorem Client_email_alert fd emailExists :
  String.length (Client.stripNonDigits (Client.get fd "phone")) = 8%nat →
  Client.validateForm fd emailExists
    = Some "Please enter a valid email address (example@domain.com)" ↔
  ¬ ∃ pre mid post,
      list_ascii_of_string (Client.get fd "email")
      = pre ++ "@"%char :: mid ++ "."%char :: post.
Proof.
  intros Hphone. rewrite <- Client_email_check.
  unfold Client.validateForm.
  rewrite bool_decide_eq_false_2 by (intros E; by apply E).
  destruct (_ || _ || _); [split; [discriminate|done]|].
  split; [|done].
  destruct emailExists; [discriminate|].
  case_bool_decide; [discriminate|].
  destruct (Client.isNotPDF (Client.cvFile fd)); [discriminate|].
  destruct (Client.isNotPDF (Client.motivationFile fd)); discriminate.
Qed.

Lemma Client_email_alert_witness :
  Client.validateForm (phoneForm "12345678") false = None ∧
  (let fd :=
     {| Client.entries := <["phone" := ["12345678"]]> {["email" := ["@."]]};
        Client.cvFile := None; Client.motivationFile := None |} in
   Client.validateForm fd false ≠
     Some "Please enter a valid email address (example@domain.com)") ∧
  (let fd :=
     {| Client.entries := <["phone" := ["12345678"]]> {["email" := ["a.b@c"]]};
        Client.cvFile := None; Client.motivationFile := None |} in
   ¬ ∃ pre mid post,
       list_ascii_of_string (Client.get fd "email")
       = pre ++ "@"%char :: mid ++ "."%char :: post).
Proof.
  split; [reflexivity|]. split.
  - intros fd. discriminate.
  - intros fd.
    apply (Client_email_alert fd false); reflexivity.
Defined.

(** ** Accounts and sessions of the latest backend *)

Lemma status_V3Accounts_respondError w message code :
  Code w = None →
  status (V3Accounts.writer (V3Accounts.respondError w message code)) = code.
Proof. intros Hw. by apply status_http_Error. Qed.

Lemma status_V3Accounts_respondJSON w data code cookie :
  Code w = None →
  status (V3Accounts.writer (V3Accounts.respondJSON w data code cookie)) = code.
Proof.
  intros Hw. unfold V3Accounts.respondJSON, status, WriteHeader; simpl.
  by rewrite Hw.
Qed.

Lemma status_WriteHeader w code :
  Code w = None → status (WriteHeader code w) = code.
Proof. intros Hw. unfold status, WriteHeader. by rewrite Hw. Qed.

(** What [signup] does to the table and to the client, by its status. *)
Lemma V3_signup_cases Generate env r body acc w :
  Code w = None →
  let out := V3Accounts.signup Generate env r body acc w in
  V3Accounts.setCookie (snd out) = None ∧
  V3Accounts.encoded (snd out) = None ∧
  (status (V3Accounts.writer (snd out)) ≠ StatusCreated ∧ fst out = acc ∨
   status (V3Accounts.writer (snd out)) = StatusCreated ∧
   V3Accounts.Username body ≠ "" ∧ V3Accounts.Email body ≠ "" ∧
   V3Accounts.Password body ≠ "" ∧
   fst out =
     V3Accounts.execInsertUser acc body
       (Generate (V3Accounts.salt env) (V3Accounts.Password body))).
Proof.
  intros Hw out. subst out. unfold V3Accounts.signup.
  case_bool_decide as Hm.
  { simpl. repeat split. left. by rewrite status_http_Error. }
  destruct (BodyDecodeErr r).
  { simpl. repeat split. left. by rewrite status_http_Error. }
  destruct (bool_decide (V3Accounts.Username body = "")) eqn:Hu; simpl.
  { repeat split. left. by rewrite status_http_Error. }
  destruct (bool_decide (V3Accounts.Email body = "")) eqn:He; simpl.
  { repeat split. left. by rewrite status_http_Error. }
  destruct (bool_decide (V3Accounts.Password body = "")) eqn:Hp; simpl.
  { repeat split. left. by rewrite status_http_Error. }
  apply bool_decide_eq_false in Hu, He, Hp.
  destruct (V3Accounts.account_fails env V3Accounts.BcryptGenerate).
  { simpl. repeat split. left. by rewrite status_http_Error. }
  destruct (V3Accounts.account_fails env V3Accounts.QInsertUser) as [e|].
  { destruct (V3Accounts.isUniqueViolation e); simpl; repeat split;
      left; by rewrite status_http_Error. }
  simpl. repeat split. right. by rewrite status_WriteHeader.
Qed.

(** The row a query by user name finds after an insert into a table that
    had no user of that name. *)
Lemma V3_queryUser_execInsertUser acc body hash :
  V3Accounts.queryUser acc (V3Accounts.Username body) = None →
  V3Accounts.queryUser (V3Accounts.execInsertUser acc body hash)
                       (V3Accounts.Username body) =
    Some {| V3Accounts.id := V3Accounts.users_id_seq acc + 1;
            V3Accounts.username := V3Accounts.Username body;
            V3Accounts.email := V3Accounts.Email body;
            V3Accounts.password_hash := hash;
            V3Accounts.role := V3Accounts.Role body |}.
Proof.
  unfold V3Accounts.queryUser, V3Accounts.execInsertUser; simpl.
  generalize (V3Accounts.users acc). intros l. induction l as [|u l IH]; simpl.
  - intros _. by rewrite String.eqb_refl.
  - destruct (String.eqb (V3Accounts.username u) (V3Accounts.Username body));
      [discriminate|]. apply IH.
Qed.

Lemma sessionRole_withCookie_sessionValues r0 u r :
  sessionRole (V3Accounts.withCookie
                 (SessionCookie (V3Accounts.sessionValues r0 u)) r) =
    Some (V3Accounts.role u).
Proof.
  unfold sessionRole, store_Get, V3Accounts.withCookie,
    V3Accounts.sessionValues; simpl.
  rewrite lookup_insert_ne by done. by rewrite lookup_insert_eq.
Qed.

Lemma V3_me_sessionRole r w :
  V3Accounts.me r w =
    match sessionRole r with
    | Some userRole =>
        V3Accounts.respondJSON w
          (V3Accounts.loggedIn userRole
             (default "" (assertString (fst (store_Get r) !! "username"))))
          StatusOK None
    | None => V3Accounts.respondJSON w V3Accounts.loggedOut StatusOK None
    end.
Proof.
  unfold V3Accounts.me, sessionRole, store_Get.
  destruct (Cookie r) as [| |values]; simpl; try reflexivity.
Qed.

(** X14: an account that signed up logs in, and the session it gets
    carries the role it chose for itself. When [signup] answers 201 for a
    user name the table did not hold, a [login] with the same user name
    and password (which bcrypt verifies against the hash it made) answers
    200 and sets a cookie; every later request with that cookie passes the
    gate of the role sent at signup, whatever that role is, and [me]
    reports that role and user name. *)
Theorem V3_signup_then_login Generate Compare env1 env2 r1 r2 body body2 acc w1 w2 :
  Code w1 = None → Code w2 = None →
  status (V3Accounts.writer
            (snd (V3Accounts.signup Generate env1 r1 body acc w1))) =
    StatusCreated →
  V3Accounts.queryUser acc (V3Accounts.Username body) = None →
  Compare (Generate (V3Accounts.salt env1) (V3Accounts.Password body))
          (V3Accounts.Password body) = true →
  Method r2 = MethodPost → BodyDecodeErr r2 = false →
  V3Accounts.Username body2 = V3Accounts.Username body →
  V3Accounts.Password body2 = V3Accounts.Password body →
  V3Accounts.account_fails env2 V3Accounts.QSelectUser = None →
  V3Accounts.account_fails env2 V3Accounts.SessionSave = None →
  let acc' := fst (V3Accounts.signup Generate env1 r1 body acc w1) in
  let a := V3Accounts.login Compare env2 r2 body2 acc' w2 in
  status (V3Accounts.writer a) = StatusOK ∧
  V3Accounts.encoded a = Some V3Accounts.success ∧
  ∃ c, V3Accounts.setCookie a = Some c ∧
    ∀ r,
      sessionRole (V3Accounts.withCookie c r) = Some (V3Accounts.Role body) ∧
      (∀ w, V3Accounts.encoded (V3Accounts.me (V3Accounts.withCookie c r) w) =
            Some (V3Accounts.loggedIn (V3Accounts.Role body)
                                      (V3Accounts.Username body))) ∧
      (Method r ≠ MethodOptions →
       ∀ env st w, ∃ w0, Code w0 = Code w ∧ Written w0 = Written w ∧
         ∀ next,
           V3.authRequired (V3Accounts.Role body) next env
                           (V3Accounts.withCookie c r) st w =
           next env (V3Accounts.withCookie c r) st w0).
Proof.
  intros Hw1 Hw2 Hst Hnew Hbc Hm Hd Hu Hp Hq Hs acc' a.
  destruct (V3_signup_cases Generate env1 r1 body acc w1 Hw1)
    as (_ & _ & [[Hne _]|(_ & Hun & _ & Hpn & Hacc)]); [done|].
  subst a acc'. rewrite Hacc. unfold V3Accounts.login.
  rewrite bool_decide_eq_false_2 by (intros H; by apply H).
  rewrite Hd, Hu, Hp.
  rewrite !bool_decide_eq_false_2 by done. cbn [orb].
  rewrite Hq, V3_queryUser_execInsertUser by done.
  cbn [V3Accounts.password_hash]. rewrite Hbc, Hs. cbn [negb].
  split; [by rewrite status_V3Accounts_respondJSON|].
  split; [done|]. eexists. split; [reflexivity|].
  intros r. split; [|split].
  - by rewrite sessionRole_withCookie_sessionValues.
  - intros w. rewrite V3_me_sessionRole.
    rewrite sessionRole_withCookie_sessionValues. simpl.
    unfold V3Accounts.sessionValues. by rewrite lookup_insert_eq.
  - intros Hmr env st w.
    destruct (V3_authRequired_cases (V3Accounts.Role body) env
                (V3Accounts.withCookie
                   (SessionCookie
                      (V3Accounts.sessionValues r2
                         {| V3Accounts.id := V3Accounts.users_id_seq acc + 1;
                            V3Accounts.username := V3Accounts.Username body;
                            V3Accounts.email := V3Accounts.Email body;
                            V3Accounts.password_hash :=
                              Generate (V3Accounts.salt env1)
                                       (V3Accounts.Password body);
                            V3Accounts.role := V3Accounts.Role body |})) r)
                st w) as (w0 & Hc & Hwr & Hgate); [done|done|].
    exists w0. split; [done|]. split; [done|]. intros next.
    rewrite Hgate, sessionRole_withCookie_sessionValues. simpl.
    rewrite (bool_decide_eq_false_2
               (V3Accounts.Role body ≠ V3Accounts.Role body))
      by (intros H'; by apply H').
    by rewrite andb_false_r.
Qed.

Lemma V3_signup_then_login_witness :
  let acc' :=
    fst (V3Accounts.signup sampleGenerate quietAccountEnv
           (jsonPost "/signup" NoCookie) rootCredentials noAccounts
           newResponseWriter) in
  let a :=
    V3Accounts.login sampleCompare quietAccountEnv (jsonPost "/login" NoCookie)
      rootCredentials acc' newResponseWriter in
  status (V3Accounts.writer a) = StatusOK ∧
  ∃ c, V3Accounts.setCookie a = Some c ∧
    sessionRole (V3Accounts.withCookie c (getRequest "/applications" NoCookie))
      = Some "admin".
Proof.
  destruct (V3_signup_then_login sampleGenerate sampleCompare quietAccountEnv
              quietAccountEnv (jsonPost "/signup" NoCookie)
              (jsonPost "/login" NoCookie) rootCredentials rootCredentials
              noAccounts newResponseWriter newResponseWriter)
    as (H1 & _ & c & Hc & H); try reflexivity.
  split; [exact H1|]. exists c. split; [exact Hc|]. apply H.
Defined.

(** X15: what [signup] leaves behind: it never sets a cookie, so the client is
    as logged in after it as before; the users table changes only when the
    answer is 201, and then by one row that holds the user name, the email
    and the role as they were sent and the hash bcrypt made of the
    password. *)
Theorem V3_signup_effects Generate env r body acc w jar :
  Code w = None →
  let out := V3Accounts.signup Generate env r body acc w in
  V3Accounts.cookieAfter jar (snd out) = jar ∧
  (status (V3Accounts.writer (snd out)) ≠ StatusCreated → fst out = acc) ∧
  (status (V3Accounts.writer (snd out)) = StatusCreated →
   V3Accounts.Username body ≠ "" ∧ V3Accounts.Email body ≠ "" ∧
   V3Accounts.Password body ≠ "" ∧
   ∃ u, V3Accounts.users (fst out) = V3Accounts.users acc ++ [u] ∧
     V3Accounts.id u = V3Accounts.users_id_seq acc + 1 ∧
     V3Accounts.username u = V3Accounts.Username body ∧
     V3Accounts.email u = V3Accounts.Email body ∧
     V3Accounts.role u = V3Accounts.Role body ∧
     V3Accounts.password_hash u =
       Generate (V3Accounts.salt env) (V3Accounts.Password body)).
Proof.
  intros Hw out.
  destruct (V3_signup_cases Generate env r body acc w Hw)
    as (Hc & _ & Hcases). fold out in Hc, Hcases.
  split; [unfold V3Accounts.cookieAfter; by rewrite Hc|].
  destruct Hcases as [[Hne Hacc]|(Hst & Hu & He & Hp & Hacc)].
  - split; [done|]. intros Hst. by destruct Hne.
  - split; [intros Hne; by destruct Hne|]. intros _.
    split; [done|]. split; [done|]. split; [done|].
    rewrite Hacc. eexists. split; [reflexivity|]. by repeat split.
Qed.

Lemma V3_signup_effects_witness :
  let out :=
    V3Accounts.signup sampleGenerate quietAccountEnv
      (jsonPost "/signup" userSession) rootCredentials noAccounts
      newResponseWriter in
  V3Accounts.cookieAfter userSession (snd out) = userSession ∧
  ∃ u, V3Accounts.users (fst out) = [u] ∧ V3Accounts.role u = "admin".
Proof.
  destruct (V3_signup_effects sampleGenerate quietAccountEnv
              (jsonPost "/signup" userSession) rootCredentials noAccounts
              newResponseWriter userSession)
    as (H1 & _ & H3); [reflexivity|].
  split; [exact H1|].
  destruct H3 as (_ & _ & _ & u & Hu & _ & _ & _ & Hr & _); [reflexivity|].
  exists u. split; [exact Hu|exact Hr].
Defined.

(** X16: [login] answers 200 only for a stored user of the given name whose
    hash bcrypt accepts for the given password, and only then sets a
    cookie; every other answer sets none and encodes nothing. A user name
    the table does not hold and a password that does not match are
    answered alike: 401 with the same text. *)
Theorem V3_login_refusals Compare env r body acc w :
  Code w = None →
  let a := V3Accounts.login Compare env r body acc w in
  (status (V3Accounts.writer a) = StatusOK ∧
   (∃ u, u ∈ V3Accounts.users acc ∧
      V3Accounts.username u = V3Accounts.Username body ∧
      Compare (V3Accounts.password_hash u) (V3Accounts.Password body) = true ∧
      V3Accounts.setCookie a =
        Some (SessionCookie (V3Accounts.sessionValues r u)))
   ∨
   status (V3Accounts.writer a) ≠ StatusOK ∧
   V3Accounts.setCookie a = None ∧ V3Accounts.encoded a = None) ∧
  (Method r = MethodPost → BodyDecodeErr r = false →
   V3Accounts.Username body ≠ "" → V3Accounts.Password body ≠ "" →
   V3Accounts.account_fails env V3Accounts.QSelectUser = None →
   (∀ u, u ∈ V3Accounts.users acc →
         V3Accounts.username u = V3Accounts.Username body →
         Compare (V3Accounts.password_hash u) (V3Accounts.Password body)
           = false) →
   V3Accounts.writer a =
     http_Error w "Invalid credentials" StatusUnauthorized).
Proof.
  intros Hw a. subst a. unfold V3Accounts.login. split.
  - case_bool_decide as Hm.
    { right. by rewrite status_V3Accounts_respondError. }
    destruct (BodyDecodeErr r).
    { right. by rewrite status_V3Accounts_respondError. }
    destruct (_ || _).
    { right. by rewrite status_V3Accounts_respondError. }
    destruct (V3Accounts.account_fails env V3Accounts.QSelectUser).
    { right. by rewrite status_V3Accounts_respondError. }
    destruct (V3Accounts.queryUser acc (V3Accounts.Username body))
      as [u|] eqn:Hq.
    2:{ right. by rewrite status_V3Accounts_respondError. }
    apply find_some in Hq as [Hin Hname].
    apply list_elem_of_In in Hin. apply String.eqb_eq in Hname.
    destruct (Compare _ _) eqn:Hc; simpl.
    2:{ right. by rewrite status_http_Error. }
    destruct (V3Accounts.account_fails env V3Accounts.SessionSave).
    { right. by rewrite status_V3Accounts_respondError. }
    left. split; [by rewrite status_V3Accounts_respondJSON|].
    by exists u.
  - intros Hm Hd Hu Hp Hq Hno.
    rewrite bool_decide_eq_false_2 by (intros H; by apply H).
    rewrite Hd. rewrite !bool_decide_eq_false_2 by done. cbn [orb].
    rewrite Hq.
    destruct (V3Accounts.queryUser acc (V3Accounts.Username body))
      as [u|] eqn:Hf; [|done].
    apply find_some in Hf as [Hin Hname].
    apply list_elem_of_In in Hin. apply String.eqb_eq in Hname.
    by rewrite (Hno u Hin Hname).
Qed.

Lemma V3_login_refusals_witness :
  V3Accounts.writer
    (V3Accounts.login sampleCompare quietAccountEnv
       (jsonPost "/login" NoCookie) wrongCredentials rootAccounts
       newResponseWriter) =
    http_Error newResponseWriter "Invalid credentials" StatusUnauthorized.
Proof.
  destruct (V3_login_refusals sampleCompare quietAccountEnv
              (jsonPost "/login" NoCookie) wrongCredentials rootAccounts
              newResponseWriter) as [_ H]; [reflexivity|].
  apply H; try reflexivity; try discriminate.
  intros u Hu _. apply list_elem_of_singleton in Hu. by subst u.
Defined.

(** The latest gate on a request without a usable session: the handler is
    not run and the answer is 401, or 500 when the cookie does not
    decode. *)
Lemma V3_authRequired_no_session role next env r st w :
  Code w = None →
  Method r ≠ MethodOptions →
  sessionRole r = None →
  let out := V3.authRequired role next env r st w in
  fst out = st ∧
  (status (snd out) = StatusUnauthorized ∨
   status (snd out) = StatusInternalServerError).
Proof.
  intros Hw Hm Hs out. subst out.
  unfold V3.authRequired, V3.corsMiddleware.
  rewrite bool_decide_eq_false_2 by done.
  unfold sessionRole in Hs. destruct (store_Get r) as [values err].
  simpl in Hs. destruct err; simpl.
  - split; [done|]. right. by apply status_http_Error.
  - rewrite Hs. simpl. split; [done|]. left. by apply status_http_Error.
Qed.

(** X17: [me] and the gate read the session alike. [me] always answers 200 and
    sets no cookie; when it reports a role, the gate of that role lets the
    same request through to the handler, and when it reports that nobody
    is logged in, every gate stops the request with 401 or 500 and the
    handler is not run. *)
Theorem V3_me_agrees_with_gate r w :
  Code w = None →
  Method r ≠ MethodOptions →
  let a := V3Accounts.me r w in
  status (V3Accounts.writer a) = StatusOK ∧
  V3Accounts.setCookie a = None ∧
  (V3Accounts.encoded a = Some V3Accounts.loggedOut ∨
   ∃ userRole name,
     V3Accounts.encoded a = Some (V3Accounts.loggedIn userRole name)) ∧
  (∀ userRole name,
     V3Accounts.encoded a = Some (V3Accounts.loggedIn userRole name) →
     ∀ env st w', ∃ w0, Code w0 = Code w' ∧ Written w0 = Written w' ∧
       ∀ next, V3.authRequired userRole next env r st w' = next env r st w0) ∧
  (V3Accounts.encoded a = Some V3Accounts.loggedOut →
   ∀ role next env st w', Code w' = None →
     let out := V3.authRequired role next env r st w' in
     fst out = st ∧
     (status (snd out) = StatusUnauthorized ∨
      status (snd out) = StatusInternalServerError)).
Proof.
  intros Hw Hm a. subst a. rewrite V3_me_sessionRole.
  destruct (sessionRole r) as [userRole|] eqn:Hs.
  - split; [by rewrite status_V3Accounts_respondJSON|]. split; [done|].
    split; [right; by eexists _, _|]. split; [|discriminate].
    intros userRole' name [= <- _] env st w'.
    assert (Hc : Cookie r ≠ UndecodableCookie).
    { intros Hc. unfold sessionRole, store_Get in Hs. by rewrite Hc in Hs. }
    destruct (V3_authRequired_cases userRole env r st w' Hm Hc)
      as (w0 & H1 & H2 & Hgate).
    exists w0. split; [done|]. split; [done|]. intros next.
    rewrite Hgate, Hs.
    rewrite (bool_decide_eq_false_2 (userRole ≠ userRole))
      by (intros H'; by apply H').
    by rewrite andb_false_r.
  - split; [by rewrite status_V3Accounts_respondJSON|]. split; [done|].
    split; [by left|]. split; [discriminate|].
    intros _ role next env st w' Hw'.
    by apply V3_authRequired_no_session.
Qed.

Lemma V3_me_agrees_with_gate_witness :
  let r := getRequest "/applications" adminSession in
  V3Accounts.encoded (V3Accounts.me r newResponseWriter) =
    Some (V3Accounts.loggedIn "admin" "hr") ∧
  ∃ w0, ∀ next,
    V3.authRequired "admin" next quietEnv r sampleWorld newResponseWriter =
    next quietEnv r sampleWorld w0.
Proof.
  intros r. split; [reflexivity|].
  destruct (V3_me_agrees_with_gate r newResponseWriter)
    as (_ & _ & _ & H & _); [reflexivity|discriminate|].
  destruct (H "admin" "hr" eq_refl quietEnv sampleWorld newResponseWriter)
    as (w0 & _ & _ & Hgate).
  exists w0. exact Hgate.
Defined.

(** X18: [logout] needs no session: a POST is answered 200 whatever cookie it
    carries, and the cookie is dropped. With the cookie the client holds
    afterwards [me] reports that nobody is logged in and every gate stops
    the request; a refused logout leaves the cookie as it was. *)
Theorem V3_logout_ends_session env r w jar :
  Code w = None →
  let a := V3Accounts.logout env r w in
  (Method r = MethodPost →
   V3Accounts.account_fails env V3Accounts.SessionSave = None →
   status (V3Accounts.writer a) = StatusOK) ∧
  (status (V3Accounts.writer a) ≠ StatusOK →
   V3Accounts.cookieAfter jar a = jar) ∧
  (status (V3Accounts.writer a) = StatusOK →
   ∀ r',
     (∀ w', V3Accounts.encoded
              (V3Accounts.me
                 (V3Accounts.withCookie (V3Accounts.cookieAfter jar a) r') w')
            = Some V3Accounts.loggedOut) ∧
     (Method r' ≠ MethodOptions →
      ∀ role next env' st w', Code w' = None →
        let out :=
          V3.authRequired role next env'
            (V3Accounts.withCookie (V3Accounts.cookieAfter jar a) r') st w' in
        fst out = st ∧ status (snd out) = StatusUnauthorized)).
Proof.
  intros Hw a. subst a. unfold V3Accounts.logout.
  case_bool_decide as Hm.
  { rewrite status_V3Accounts_respondError by done.
    split; [intros Hp; by destruct Hm|]. split; [done|]. discriminate. }
  destruct (V3Accounts.account_fails env V3Accounts.SessionSave).
  { rewrite status_V3Accounts_respondError by done.
    split; [discriminate|]. split; [done|]. discriminate. }
  rewrite status_V3Accounts_respondJSON by done.
  split; [done|]. split; [done|]. intros _ r'. split; [done|].
  intros Hm' role next env' st w' Hw'.
  unfold V3.authRequired, V3.corsMiddleware.
  rewrite bool_decide_eq_false_2 by done. simpl.
  split; [done|]. by apply status_http_Error.
Qed.

Lemma V3_logout_ends_session_witness :
  let a :=
    V3Accounts.logout quietAccountEnv (jsonPost "/logout" adminSession)
      newResponseWriter in
  let out :=
    V3.authRequired "admin" V3.listApplications quietEnv
      (V3Accounts.withCookie (V3Accounts.cookieAfter adminSession a)
         (getRequest "/applications" adminSession))
      sampleWorld newResponseWriter in
  status (V3Accounts.writer a) = StatusOK ∧
  status (snd out) = StatusUnauthorized.
Proof.
  destruct (V3_logout_ends_session quietAccountEnv
              (jsonPost "/logout" adminSession) newResponseWriter
              adminSession) as (H1 & _ & H3); [reflexivity|].
  split; [apply H1; reflexivity|].
  destruct (H3 (H1 eq_refl eq_refl) (getRequest "/applications" adminSession))
    as [_ Hgate].
  apply (Hgate ltac:(discriminate) "admin" V3.listApplications quietEnv
           sampleWorld newResponseWriter eq_refl).
Defined.

(** ** The email lookup, the form and the intake *)

(** What [emailExists] encodes is the answer of the existence query, for
    an email that is not empty. *)
Lemma V3_emailExists_encoded env e st w b :
  V3Accounts.encoded (V3Accounts.emailExists env e st w) =
    Some (V3Accounts.JObject [("exists", V3Accounts.JBool b)]) →
  e ≠ "" ∧ b = queryEmailExists (db st) e.
Proof.
  unfold V3Accounts.emailExists. case_bool_decide as He; [discriminate|].
  destruct (fails env QEmailExists); [discriminate|].
  simpl. intros [= <-]. done.
Qed.

(** The latest intake answers 409 only when the existence query finds the
    email. *)
Lemma V3_applyHandler_conflict_inv env r st w :
  Code w = None →
  status (snd (V3.applyHandler env r st w)) = StatusConflict →
  queryEmailExists (db st) (FormValue r "email") = true.
Proof.
  intros Hw. unfold V3.applyHandler.
  case_bool_decide; [simpl; by rewrite status_http_Error|].
  destruct (ParseMultipartFormErr r); [simpl; by rewrite status_http_Error|].
  case_bool_decide; [simpl; by rewrite status_http_Error|].
  destruct (fails env QEmailExists); [simpl; by rewrite status_http_Error|].
  destruct (queryEmailExists (db st) (FormValue r "email")); [done|].
  destruct (V3.savePDF env r "cv" (files st)) as [fs1 [cvPath [e|]]].
  { simpl; by rewrite status_http_Error. }
  destruct (V3.savePDF env r "motivation" fs1) as [fs2 [motivationPath e]].
  destruct (fails env QInsertApplication).
  { simpl; by rewrite status_http_Error. }
  destruct (insertApplication _ _ _ _ _ _) as [d1 appID]. simpl.
  by rewrite status_respondJSON.
Qed.

(** X19: the email lookup and the intake agree: for a database that is not
    changed in between, a submission whose email the lookup reported as
    used is answered 409 by the latest intake, and one whose email it
    reported as free is not; the lookup reports an email as used exactly
    when an application with that email is stored. *)
Theorem V3_emailExists_agrees_with_intake env env' e st w0 r w b :
  Code w = None →
  V3Accounts.encoded (V3Accounts.emailExists env e st w0) =
    Some (V3Accounts.JObject [("exists", V3Accounts.JBool b)]) →
  Method r = MethodPost →
  ParseMultipartFormErr r = None →
  FormValue r "email" = e →
  fails env' QEmailExists = None →
  (b = true ↔ status (snd (V3.applyHandler env' r st w)) = StatusConflict) ∧
  (b = true ↔ ∃ a, a ∈ applications (db st) ∧ email a = e).
Proof.
  intros Hw Henc Hm Hp He Hq.
  apply V3_emailExists_encoded in Henc as [Hne ->].
  split; [|apply queryEmailExists_true]. split.
  - intros Hb. rewrite V3_applyHandler_conflict; try done; try congruence.
    simpl. by apply status_http_Error.
  - intros Hst. apply V3_applyHandler_conflict_inv in Hst; congruence.
Qed.

Lemma V3_emailExists_agrees_with_intake_witness :
  status
    (snd (V3.applyHandler quietEnv
            (applyRequest "a@b.com" "12345678" "" ["Data Science"]
                          (Some (pdf "cv.pdf")) None)
            sampleWorld newResponseWriter)) = StatusConflict.
Proof.
  apply (V3_emailExists_agrees_with_intake quietEnv quietEnv "a@b.com"
           sampleWorld newResponseWriter
           (applyRequest "a@b.com" "12345678" "" ["Data Science"]
                         (Some (pdf "cv.pdf")) None)
           newResponseWriter true); reflexivity.
Defined.

(** X20: a form the client lets through is not turned down by the latest
    intake. When [validateForm], given the answer of the email lookup,
    accepts the form, the request [handleSubmit] sends is never answered
    400, 405 or 409 (the database being as it was at the lookup): the
    answer is 201 or 500, and nothing is stored with a 500. It is 201, and
    the application is stored under the email of the form, when a cv came
    with the form and neither the file system nor the database fails. *)
Theorem Client_accepted_form_reaches_intake env env' fd uploads st w0 w b :
  Code w = None →
  V3Accounts.encoded
    (V3Accounts.emailExists env (Client.get fd "email") st w0) =
    Some (V3Accounts.JObject [("exists", V3Accounts.JBool b)]) →
  Client.handleSubmit fd b = true →
  let r := submission fd uploads in
  let out := V3.applyHandler env' r st w in
  (status (snd out) = StatusCreated ∨
   status (snd out) = StatusInternalServerError ∧ db (fst out) = db st) ∧
  (∀ header,
     FormFile r "cv" = Some header →
     fails env' QEmailExists = None →
     fails env' (FsMkdirAll "cv") = None →
     fails env' (FsCreate "cv") = None →
     fails env' (FsCopy "cv") = None →
     fails env' QInsertApplication = None →
     status (snd out) = StatusCreated ∧
     ∃ a, a ∈ applications (db (fst out)) ∧
       email a = Client.get fd "email").
Proof.
  intros Hw Henc Hsub r out.
  apply V3_emailExists_encoded in Henc as [Hne Hb].
  unfold Client.handleSubmit in Hsub.
  destruct (Client.validateForm fd b) eqn:Hv; [discriminate|].
  apply Client_validateForm_accepts in Hv as (_ & -> & _).
  assert (He : FormValue r "email" = Client.get fd "email") by reflexivity.
  subst out. unfold V3.applyHandler.
  rewrite bool_decide_eq_false_2 by (intros H; by apply H).
  change (ParseMultipartFormErr r) with (@None string).
  rewrite He. rewrite bool_decide_eq_false_2 by done.
  destruct (fails env' QEmailExists) as [e|] eqn:Hq.
  { simpl. split; [|by intros ? _ ?]. right.
    split; [by apply status_http_Error|done]. }
  rewrite <- Hb.
  destruct (V3.savePDF env' r "cv" (files st)) as [fs1 [cvPath [e|]]] eqn:Hcv.
  { simpl. split.
    - right. split; [by apply status_http_Error|done].
    - intros header Hf _ H1 H2 H3 _.
      by rewrite (V3_savePDF_saved env' r "cv" _ header Hf H1 H2 H3) in Hcv. }
  destruct (V3.savePDF env' r "motivation" fs1) as [fs2 [motivationPath e]].
  destruct (fails env' QInsertApplication) as [e'|] eqn:Hi.
  { simpl. split; [|by intros ? _ _ _ _ _ ?]. right.
    split; [by apply status_http_Error|done]. }
  destruct (insertApplication env' r (db st) (V3.parseStartDate r) cvPath
              motivationPath) as [d1 appID] eqn:Hins.
  simpl. split; [left; by apply status_respondJSON|].
  intros header _ _ _ _ _ _. split; [by apply status_respondJSON|].
  rewrite applications_linkSubjects.
  unfold insertApplication in Hins. injection Hins as <- <-. simpl.
  eexists. split; [apply elem_of_app; right; apply list_elem_of_singleton;
                   reflexivity|].
  exact He.
Qed.

Lemma Client_accepted_form_reaches_intake_witness :
  let fd :=
    {| Client.entries :=
         <["email" := ["new@b.com"]]>
           (<["phone" := ["12 345 678"]]>
              (<["subjects" := ["Data Science"]]> ∅));
       Client.cvFile := Some {| Client.type := "application/pdf" |};
       Client.motivationFile := None |} in
  let out :=
    V3.applyHandler quietEnv
      (submission fd (formFiles (Some (pdf "cv.pdf")) None))
      sampleWorld newResponseWriter in
  status (snd out) = StatusCreated ∧
  ∃ a, a ∈ applications (db (fst out)) ∧ email a = "new@b.com".
Proof.
  intros fd.
  destruct (Client_accepted_form_reaches_intake quietEnv quietEnv fd
              (formFiles (Some (pdf "cv.pdf")) None) sampleWorld
              newResponseWriter newResponseWriter false)
    as [_ H]; try reflexivity.
  apply (H (pdf "cv.pdf")); reflexivity.
Defined.

(** ** The table of the back office *)

Lemma jsLt_irrefl a : Backoffice.jsLt a a = false.
Proof.
  induction a as [|x a IH]; simpl; [done|].
  by rewrite N.ltb_irrefl.
Qed.

Lemma jsLt_asym a b :
  Backoffice.jsLt a b = true → Backoffice.jsLt b a = false.
Proof.
  revert b. induction a as [|x a IH]; intros [|y b]; simpl; try done.
  destruct (N.ltb_spec x y), (N.ltb_spec y x); try done; try lia.
  apply IH.
Qed.

Lemma jsLt_cotrans a b c :
  Backoffice.jsLt a c = true →
  Backoffice.jsLt a b = true ∨ Backoffice.jsLt b c = true.
Proof.
  revert b c. induction a as [|x a IH]; intros [|y b] [|z c]; simpl;
    try done; try (by left); try (by right).
  destruct (N.ltb_spec x z), (N.ltb_spec z x), (N.ltb_spec x y),
    (N.ltb_spec y x), (N.ltb_spec y z), (N.ltb_spec z y);
    try done; try lia; try (by left); try (by right).
  apply IH.
Qed.

(** When the comparator of the table does not put [a] after [b]. *)
Lemma Backoffice_compare_inOrder sortKey sortDir a b :
  Backoffice.compare sortKey sortDir a b ≤ 0 ↔ inOrder sortKey sortDir a b.
Proof.
  unfold Backoffice.compare, inOrder.
  destruct (Backoffice.jsLt (Backoffice.prop a sortKey)
                            (Backoffice.prop b sortKey)) eqn:H1.
  - rewrite (jsLt_asym _ _ H1). destruct (String.eqb sortDir "asc"); split;
      try done; lia.
  - destruct (Backoffice.jsLt (Backoffice.prop b sortKey)
                              (Backoffice.prop a sortKey)) eqn:H2;
      destruct (String.eqb sortDir "asc"); split; try done; lia.
Qed.

Lemma inOrder_trans sortKey sortDir a b c :
  inOrder sortKey sortDir a b → inOrder sortKey sortDir b c →
  inOrder sortKey sortDir a c.
Proof.
  unfold inOrder. destruct (String.eqb sortDir "asc"); intros H1 H2.
  - destruct (Backoffice.jsLt (Backoffice.prop c sortKey)
                              (Backoffice.prop a sortKey)) eqn:H3; [|done].
    destruct (jsLt_cotrans _ (Backoffice.prop b sortKey) _ H3); congruence.
  - destruct (Backoffice.jsLt (Backoffice.prop a sortKey)
                              (Backoffice.prop c sortKey)) eqn:H3; [|done].
    destruct (jsLt_cotrans _ (Backoffice.prop b sortKey) _ H3); congruence.
Qed.

Lemma inOrder_total sortKey sortDir a b :
  ¬ inOrder sortKey sortDir a b → inOrder sortKey sortDir b a.
Proof.
  unfold inOrder. destruct (String.eqb sortDir "asc"); intros H.
  - apply jsLt_asym. by destruct (Backoffice.jsLt _ _).
  - apply jsLt_asym. by destruct (Backoffice.jsLt _ _).
Qed.

Lemma insertBy_perm {A} (cmp : A → A → Z) x l :
  Backoffice.insertBy cmp x l ≡ₚ x :: l.
Proof.
  induction l as [|y l IH]; simpl; [done|].
  destruct (0 <? cmp x y); [|done].
  rewrite IH. apply Permutation_swap.
Qed.

Lemma sortBy_perm {A} (cmp : A → A → Z) l :
  Backoffice.sortBy cmp l ≡ₚ l.
Proof.
  induction l as [|x l IH]; simpl; [done|].
  fold (Backoffice.sortBy cmp l). by rewrite insertBy_perm, IH.
Qed.

Lemma Backoffice_insertBy_sorted sortKey sortDir x l :
  StronglySorted (inOrder sortKey sortDir) l →
  StronglySorted (inOrder sortKey sortDir)
    (Backoffice.insertBy (Backoffice.compare sortKey sortDir) x l).
Proof.
  induction 1 as [|y l Hs IH Hall]; simpl.
  - constructor; [constructor|constructor].
  - destruct (0 <? Backoffice.compare sortKey sortDir x y) eqn:Hc.
    + apply Z.ltb_lt in Hc.
      assert (Hyx : inOrder sortKey sortDir y x).
      { apply inOrder_total. rewrite <- Backoffice_compare_inOrder. lia. }
      constructor; [done|].
      apply Forall_forall. intros z Hz.
      rewrite insertBy_perm in Hz.
      apply elem_of_cons in Hz as [->|Hz]; [done|].
      rewrite Forall_forall in Hall. by apply Hall.
    + apply Z.ltb_ge in Hc. apply Backoffice_compare_inOrder in Hc.
      constructor; [by constructor|].
      constructor; [done|].
      eapply Forall_impl; [exact Hall|]. intros z Hz.
      by apply (inOrder_trans _ _ _ y).
Qed.

Lemma Backoffice_insertBy_withKey sortKey sortDir v x l :
  withKey sortKey v
    (Backoffice.insertBy (Backoffice.compare sortKey sortDir) x l) =
  withKey sortKey v (x :: l).
Proof.
  induction l as [|y l IH]; [done|]. simpl.
  destruct (0 <? Backoffice.compare sortKey sortDir x y) eqn:Hc; [|done].
  unfold withKey in *. simpl in *. rewrite IH.
  destruct (bool_decide (Backoffice.prop x sortKey = v)) eqn:Hx; [|done].
  destruct (bool_decide (Backoffice.prop y sortKey = v)) eqn:Hy; [|done].
  apply bool_decide_eq_true in Hx, Hy. apply Z.ltb_lt in Hc.
  unfold Backoffice.compare in Hc. rewrite Hx, Hy, jsLt_irrefl in Hc. lia.
Qed.

(** X21: the table of the back office. The rows shown are the filtered
    rows, each as often as it was there; they stand in the order of the
    sort key, ascending or descending by code units; and rows with the
    same value under the key keep the order in which the server listed
    them. *)
Theorem Backoffice_sorted_spec filtered sortKey sortDir :
  Backoffice.sorted filtered sortKey sortDir ≡ₚ filtered ∧
  StronglySorted (inOrder sortKey sortDir)
    (Backoffice.sorted filtered sortKey sortDir) ∧
  ∀ v, withKey sortKey v (Backoffice.sorted filtered sortKey sortDir) =
       withKey sortKey v filtered.
Proof.
  unfold Backoffice.sorted. split; [apply sortBy_perm|]. split.
  - induction filtered as [|x l IH]; simpl; [constructor|].
    by apply Backoffice_insertBy_sorted.
  - intros v. induction filtered as [|x l IH]; simpl; [done|].
    fold (Backoffice.sortBy (Backoffice.compare sortKey sortDir) l).
    rewrite Backoffice_insertBy_withKey. unfold withKey in *. simpl.
    by rewrite IH.
Qed.

(** A page from 1 on is the next [pageSize] rows after the pages before
    it. *)
Lemma Backoffice_paginated_take_drop {A} (l : list A) page pageSize :
  0 < pageSize → 1 ≤ page →
  Backoffice.paginated l page pageSize =
    take (Z.to_nat pageSize) (drop (Z.to_nat ((page - 1) * pageSize)) l).
Proof.
  intros Hps Hp. unfold Backoffice.paginated, Backoffice.slice.
  assert (H0 : 0 ≤ (page - 1) * pageSize) by nia.
  assert (H1 : 0 < page * pageSize) by nia.
  rewrite (proj2 (Z.ltb_ge ((page - 1) * pageSize) 0)) by lia.
  rewrite (proj2 (Z.ltb_ge (page * pageSize) 0)) by lia.
  destruct (Z.le_gt_cases (Z.of_nat (length l)) ((page - 1) * pageSize))
    as [Hout|Hin].
  - rewrite Z.min_r by lia. rewrite Z.min_r by nia.
    rewrite Z.sub_diag. simpl.
    rewrite (drop_ge l (Z.to_nat ((page - 1) * pageSize))) by lia.
    by rewrite take_nil.
  - rewrite (Z.min_l ((page - 1) * pageSize)) by lia.
    destruct (Z.le_gt_cases (page * pageSize) (Z.of_nat (length l)))
      as [Hfull|Hlast].
    + rewrite (Z.min_l (page * pageSize)) by lia. f_equal. lia.
    + rewrite (Z.min_r (page * pageSize)) by lia.
      rewrite !take_ge; [done| |]; rewrite length_drop; lia.
Qed.

Lemma Backoffice_pages_take {A} (l : list A) pageSize n :
  0 < pageSize →
  Backoffice.pages l pageSize n = take (n * Z.to_nat pageSize) l.
Proof.
  intros Hps. unfold Backoffice.pages. induction n as [|n IH]; [done|].
  rewrite seq_S, fmap_app, concat_app, IH. simpl. rewrite app_nil_r.
  rewrite Backoffice_paginated_take_drop by lia.
  replace (Z.to_nat ((Z.of_nat (S n) - 1) * pageSize))
    with (n * Z.to_nat pageSize)%nat by nia.
  rewrite take_take_drop. f_equal. lia.
Qed.

Lemma Backoffice_totalPages_bounds {A} (l : list A) pageSize :
  0 < pageSize →
  (Backoffice.totalPages l pageSize - 1) * pageSize < Z.of_nat (length l)
    ≤ Backoffice.totalPages l pageSize * pageSize.
Proof.
  intros Hps. unfold Backoffice.totalPages.
  pose proof (Z.div_mod (- Z.of_nat (length l)) pageSize ltac:(lia)) as Hd.
  pose proof (Z.mod_pos_bound (- Z.of_nat (length l)) pageSize Hps) as Hm.
  nia.
Qed.

(** X22: the pages of the back office. For a positive page size the pages
    1 to [totalPages], one after the other, are the sorted rows: no row is
    left out and none shown twice. Each of these pages holds at least one
    row and at most [pageSize], all but the last hold [pageSize], and every
    later page is empty. With no row to show [totalPages] is 0, so on
    page 1, where the table starts, the button to the next page is not
    disabled. *)
Theorem Backoffice_pages_partition {A} (sorted : list A) pageSize :
  0 < pageSize →
  Backoffice.pages sorted pageSize
    (Z.to_nat (Backoffice.totalPages sorted pageSize)) = sorted ∧
  (∀ page, 1 ≤ page ≤ Backoffice.totalPages sorted pageSize →
     Backoffice.paginated sorted page pageSize ≠ [] ∧
     Z.of_nat (length (Backoffice.paginated sorted page pageSize)) ≤ pageSize ∧
     (page < Backoffice.totalPages sorted pageSize →
      Z.of_nat (length (Backoffice.paginated sorted page pageSize))
        = pageSize)) ∧
  (∀ page, Backoffice.totalPages sorted pageSize < page →
     Backoffice.paginated sorted page pageSize = []) ∧
  (sorted = [] →
   Backoffice.totalPages sorted pageSize = 0 ∧
   Backoffice.nextDisabled sorted 1 pageSize = false).
Proof.
  intros Hps.
  pose proof (Backoffice_totalPages_bounds sorted pageSize Hps) as Hb.
  assert (Hlen : ∀ page, 1 ≤ page →
    Z.of_nat (length (Backoffice.paginated sorted page pageSize)) =
    Z.min pageSize
      (Z.max 0 (Z.of_nat (length sorted) - (page - 1) * pageSize))).
  { intros page Hp. rewrite Backoffice_paginated_take_drop by done.
    rewrite length_take, length_drop. nia. }
  split; [|split; [|split]].
  - rewrite Backoffice_pages_take by done. apply take_ge. nia.
  - intros page [Hp1 Hp2].
    assert (0 < Z.of_nat (length (Backoffice.paginated sorted page pageSize)))
      by (rewrite Hlen by done; nia).
    split; [by destruct (Backoffice.paginated sorted page pageSize)|].
    split; [rewrite Hlen by done; lia|].
    intros Hlt. rewrite Hlen by done. nia.
  - intros page Hp.
    assert (Z.of_nat (length (Backoffice.paginated sorted page pageSize)) = 0)
      by (rewrite Hlen by nia; nia).
    by destruct (Backoffice.paginated sorted page pageSize).
  - intros ->. unfold Backoffice.nextDisabled, Backoffice.totalPages. simpl.
    rewrite Z.div_0_l by lia. done.
Qed.

Lemma Backoffice_pages_partition_witness :
  Backoffice.pages [1; 2; 3; 4; 5; 6; 7] 5 2 = [1; 2; 3; 4; 5; 6; 7] ∧
  Backoffice.paginated [1; 2; 3; 4; 5; 6; 7] 2 5 = [6; 7] ∧
  Backoffice.paginated [1; 2; 3; 4; 5; 6; 7] 3 5 = [].
Proof.
  destruct (Backoffice_pages_partition [1; 2; 3; 4; 5; 6; 7] 5)
    as (H1 & _ & H3 & _); [lia|].
  split; [exact H1|]. split; [reflexivity|]. apply H3. reflexivity.
Defined.

(** ** The delete button of the back office *)

(** X23: the Delete button against the latest backend. The request is
    sent without a credentials option while the route is behind the admin
    gate. From a page of another origin (the one the server allows is not
    its own) no cookie goes with it: whatever is selected and whoever is
    logged in, the answer is 401, nothing is deleted on the server, the
    modal stays as it was and the alert blames subjects in use. From a
    page of the same origin an administrator is answered 200 also when
    selected subjects are in use: the client then drops every selected
    subject from its list while the server keeps the referenced ones. *)
Theorem Backoffice_delete_click env jar st m :
  Backoffice.selectedSubjects m ≠ [] →
  let route := V3.authRequired "admin" V3.deleteSubjects in
  Backoffice.onDeleteClick route env false jar true st m =
    (st, m, Some "Some subjects are in use and cannot be deleted") ∧
  (sessionRole (getRequest "/me" jar) = Some "admin" →
   fails env QSubjectsInUse = None → fails env TxBegin = None →
   fails env QDeleteSubjects = None → fails env TxCommit = None →
   let out := Backoffice.onDeleteClick route env true jar true st m in
   snd out = Some "Subjects deleted" ∧
   Backoffice.selectedSubjects (snd (fst out)) = [] ∧
   (∀ s, s ∈ Backoffice.subjects (snd (fst out)) ↔
         s ∈ Backoffice.subjects m ∧
         subject_id s ∉ Backoffice.selectedSubjects m) ∧
   (∀ s, s ∈ subjects (db st) → referenced (db st) (subject_id s) →
         s ∈ subjects (db (fst (fst out))))).
Proof.
  intros Hsel route. subst route. unfold Backoffice.onDeleteClick.
  rewrite bool_decide_eq_false_2
    by (destruct (Backoffice.selectedSubjects m); [done|discriminate]).
  cbn [negb]. split; [reflexivity|].
  intros Hadmin H1 H2 H3 H4.
  set (r := Backoffice.deleteFetch true jar (Backoffice.selectedSubjects m)).
  assert (Hc : Cookie r ≠ UndecodableCookie).
  { intros Hc. unfold sessionRole, store_Get in Hadmin. simpl in *.
    by rewrite Hc in Hadmin. }
  destruct (V3_authRequired_cases "admin" env r st newResponseWriter
              ltac:(discriminate) Hc) as (w0 & Hw0 & _ & Hgate).
  rewrite Hgate.
  replace (sessionRole r) with (Some "admin").
  rewrite (bool_decide_eq_false_2 ("admin" ≠ "admin"))
    by (intros H; by apply H).
  rewrite andb_false_r.
  rewrite V3_deleteSubjects_done by done.
  unfold V3Accounts.ok. rewrite status_respondJSON by done. simpl.
  split; [done|]. split; [done|]. split.
  - intros s. rewrite elem_of_filter_bool, negb_true_iff, bool_decide_eq_false.
    done.
  - intros s Hs Href. unfold execDeleteSubjects; simpl.
    rewrite elem_of_filter_bool, negb_true_iff, bool_decide_eq_false.
    split; [done|].
    rewrite elem_of_filter_bool, inUseAt_markInUse, negb_true_iff,
      bool_decide_eq_false.
    rewrite querySubjectsInUse_spec. tauto.
Qed.

Lemma Backoffice_delete_click_witness :
  let m :=
    {| Backoffice.subjects := [dataScience; webDev];
       Backoffice.selectedSubjects := [7; 8];
       Backoffice.deleteModal := true |} in
  let route := V3.authRequired "admin" V3.deleteSubjects in
  Backoffice.onDeleteClick route quietEnv false adminSession true
                           sampleWorld m =
    (sampleWorld, m, Some "Some subjects are in use and cannot be deleted").
Proof.
  intros m.
  apply (Backoffice_delete_click quietEnv adminSession sampleWorld m).
  discriminate.
Defined.

(** X24: the Delete button against version 2, whose route is not gated
    and whose handler drops the errors of its two statements. Every click
    with a selection is answered 200 and the client drops the selected
    subjects from its list. When both statements succeed a list that
    mirrored the subjects table still mirrors it; when the DELETE on
    subjects fails the table keeps every row, and the client shows
    "Subjects deleted" all the same. *)
Theorem Backoffice_delete_click_V2 env sameOrigin jar st m :
  Backoffice.selectedSubjects m ≠ [] →
  let out :=
    Backoffice.onDeleteClick V2.deleteSubjects env sameOrigin jar true st m in
  snd out = Some "Subjects deleted" ∧
  (∀ s, s ∈ Backoffice.subjects (snd (fst out)) ↔
        s ∈ Backoffice.subjects m ∧
        subject_id s ∉ Backoffice.selectedSubjects m) ∧
  (fails env QDeleteSubjects = None →
   Backoffice.subjects m = subjects (db st) →
   Backoffice.subjects (snd (fst out)) = subjects (db (fst (fst out)))) ∧
  (fails env QDeleteSubjects ≠ None →
   subjects (db (fst (fst out))) = subjects (db st)).
Proof.
  intros Hsel out. subst out. unfold Backoffice.onDeleteClick.
  rewrite bool_decide_eq_false_2
    by (destruct (Backoffice.selectedSubjects m); [done|discriminate]).
  cbn [negb]. unfold V2.deleteSubjects.
  rewrite bool_decide_eq_false_2 by discriminate.
  rewrite bool_decide_eq_false_2 by (intros H; by apply H).
  cbn [BodyIDs Backoffice.deleteFetch].
  rewrite bool_decide_eq_false_2
    by (destruct (Backoffice.selectedSubjects m); [done|discriminate]).
  cbn. split; [done|]. split.
  { intros s. rewrite elem_of_filter_bool, negb_true_iff, bool_decide_eq_false.
    done. }
  split.
  - intros -> ->.
    by destruct (fails env QDeleteApplicationSubjects).
  - intros Hf. destruct (fails env QDeleteSubjects); [|done].
    by destruct (fails env QDeleteApplicationSubjects).
Qed.

Lemma Backoffice_delete_click_V2_witness :
  let m :=
    {| Backoffice.subjects := [dataScience; webDev];
       Backoffice.selectedSubjects := [7];
       Backoffice.deleteModal := true |} in
  let out :=
    Backoffice.onDeleteClick V2.deleteSubjects quietEnv false NoCookie true
                             sampleWorld m in
  snd out = Some "Subjects deleted" ∧
  Backoffice.subjects (snd (fst out)) = subjects (db (fst (fst out))).
Proof.
  intros m.
  destruct (Backoffice_delete_click_V2 quietEnv false NoCookie sampleWorld m)
    as (H1 & _ & H3 & _); [discriminate|].
  split; [exact H1|]. apply H3; reflexivity.
Defined.

(** ** The start of the week *)

(** X25: the week of the statistics. The start of the week that version 1
    counts from and the one the "this week" filter of the back office uses
    fall on the same day: the Monday of the current week, today or up to
    six days back. The server takes its midnight and compares the time of
    creation with it. The client keeps the time of the day and compares
    with it the day the listing gives, read as midnight UTC. With the
    listing giving the day of creation, every application the filter
    shows is in the count; the ones counted but filtered out are those
    created on that Monday, unless the time of day is still within the
    zone's offset from UTC, and, west of UTC, those of the Tuesday once
    the time of day is past midnight UTC. *)
Theorem week_start_client_and_server offset now created listedDay :
  let server := V1Stats.startOfWeek now in
  let client := Backoffice.getStartOfWeek now in
  dayNumber client = dayNumber server ∧
  Weekday server = Monday ∧
  0 ≤ dayNumber now - dayNumber server ≤ 6 ∧
  secondOfDay server = 0 ∧ secondOfDay client = secondOfDay now ∧
  (listedDay = dayNumber created →
   0 ≤ secondOfDay now < 86400 →
   0 ≤ secondOfDay created →
   -86400 < offset < 86400 →
   (Backoffice.weekMatch true offset now listedDay = true →
    V1Stats.counted now created = true) ∧
   (V1Stats.counted now created = true ∧
    Backoffice.weekMatch true offset now listedDay = false ↔
    dayNumber created = dayNumber server ∧ offset < secondOfDay now ∨
    dayNumber created = dayNumber server + 1 ∧
    offset + 86400 < secondOfDay now)).
Proof.
  intros server client. subst server client.
  unfold V1Stats.counted, Backoffice.weekMatch, Backoffice.instant,
    Backoffice.dateOnly, V1Stats.startOfWeek,
    Backoffice.getStartOfWeek, V1Stats.daysSinceMonday, notBefore, Weekday,
    Sunday, Monday; simpl.
  pose proof (Z.mod_pos_bound (dayNumber now + 4) 7 ltac:(lia)) as Hb.
  pose proof (Z.div_mod (dayNumber now + 4) 7 ltac:(lia)) as Hd.
  set (q := (dayNumber now + 4) / 7) in *.
  set (d := (dayNumber now + 4) mod 7) in *.
  destruct (Z.eqb_spec d 0) as [H0|H0].
  - assert (Hm : (dayNumber now - 6 + 4) mod 7 = 1).
    { symmetry. apply (Z.mod_unique_pos _ 7 (q - 1) 1); lia. }
    rewrite Hm. repeat split; try lia.
  - assert (Hm : (dayNumber now - (d - 1) + 4) mod 7 = 1).
    { symmetry. apply (Z.mod_unique_pos _ 7 q 1); lia. }
    rewrite Hm. repeat split; try lia.
Qed.

Lemma week_start_client_and_server_witness :
  let now := {| dayNumber := 20000; secondOfDay := 36000 |} in
  let created := {| dayNumber := 19996; secondOfDay := 54000 |} in
  Weekday now = 5 ∧
  V1Stats.counted now created = true ∧
  Backoffice.weekMatch true 3600 now 19996 = false.
Proof.
  intros now created. split; [reflexivity|].
  destruct (week_start_client_and_server 3600 now created 19996)
    as (_ & _ & _ & _ & _ & H).
  destruct H as [_ H]; [reflexivity|simpl; lia|simpl; lia|lia|].
  apply H. left. split; [reflexivity|simpl; lia].
Defined.
